(** * FlashList layout core: inset resolver, grid layout provider, prop validation

    A shallow embedding of three source files of the list component:

    - [src/utils/ContentContainerUtils.ts]  (module [ContentContainerUtils])
    - [src/GridLayoutProviderWithProps.ts]  (module [GridLayoutProviderWithProps])
    - [src/FlashList.tsx]                   (module [FlashList]; only the
      constructor, [validateProps] and [getLayoutProvider])

    Objects that the source mutates in place are threaded explicitly: a
    method of the provider takes the provider record and returns the updated
    one; the [Dimension] objects handed to the inset resolver live in a store
    indexed by references, because the source promises to return the very
    object it was given.  A host callback that writes to the scratch record
    returns the record as it left it.

    A property that may be [undefined] or [null] is an [option]; an array
    index is an integer.  Code of other packages (recyclerlistview-gaw) shows
    only as far as the three files use it: the manager that
    [getLayoutManager()] returns, its layouts and style overrides, and
    [super.newLayoutManager], which is a parameter. *)

From Stdlib Require Import ZArith QArith Qround Lqa Bool List Lia String.
From stdpp Require Import base option list gmap.

Set Default Proof Using "Type".

(** ** JavaScript numbers

    A JS [number] is modelled as an exact rational or one of the three
    special values.  Rounding of doubles is not modelled, and zero carries no
    sign (so [x / 0] is [+Infinity] for every positive [x]). *)
Module JS.

Inductive number : Type :=
  | Num (q : Q)
  | PosInf
  | NegInf
  | NaN.

Definition of_Z (z : Z) : number := Num (inject_Z z).

(** [a === b] on two numbers. *)
Definition strict_eq (a b : number) : bool :=
  match a, b with
  | Num p, Num q => Qeq_bool p q
  | PosInf, PosInf => true
  | NegInf, NegInf => true
  | _, _ => false
  end.

(** [a !== b] on two numbers. *)
Definition strict_neq (a b : number) : bool := negb (strict_eq a b).

(** [a > b]. *)
Definition gt (a b : number) : bool :=
  match a, b with
  | NaN, _ | _, NaN => false
  | Num p, Num q => negb (Qle_bool p q)
  | PosInf, PosInf => false
  | PosInf, _ => true
  | NegInf, _ => false
  | Num _, NegInf => true
  | Num _, PosInf => false
  end.

(** ToBoolean on a number: [0] and [NaN] are falsy. *)
Definition truthy (a : number) : bool :=
  match a with
  | Num q => negb (Qeq_bool q 0)
  | PosInf | NegInf => true
  | NaN => false
  end.

Definition add (a b : number) : number :=
  match a, b with
  | NaN, _ | _, NaN => NaN
  | Num p, Num q => Num (p + q)
  | PosInf, NegInf | NegInf, PosInf => NaN
  | PosInf, _ | _, PosInf => PosInf
  | NegInf, _ | _, NegInf => NegInf
  end.

Definition sub (a b : number) : number :=
  match a, b with
  | NaN, _ | _, NaN => NaN
  | Num p, Num q => Num (p - q)
  | PosInf, PosInf | NegInf, NegInf => NaN
  | PosInf, _ | _, NegInf => PosInf
  | NegInf, _ | _, PosInf => NegInf
  end.

(** Sign of a number that is not [NaN]: [-1], [0] or [1]. *)
Definition sgn (a : number) : Z :=
  match a with
  | Num q => Z.sgn (Qnum q)
  | PosInf => 1
  | NegInf => -1
  | NaN => 0
  end.

Definition inf_of_sign (s : Z) : number :=
  if (s <? 0)%Z then NegInf else PosInf.

Definition mul (a b : number) : number :=
  match a, b with
  | NaN, _ | _, NaN => NaN
  | Num p, Num q => Num (p * q)
  | _, _ =>
      if (sgn a * sgn b =? 0)%Z then NaN else inf_of_sign (sgn a * sgn b)
  end.

Definition div (a b : number) : number :=
  match a, b with
  | NaN, _ | _, NaN => NaN
  | Num p, Num q =>
      if Qeq_bool q 0
      then (if Qeq_bool p 0 then NaN else inf_of_sign (sgn a))
      else Num (p / q)
  | Num _, _ => Num 0
  | _, Num _ => inf_of_sign (if (sgn b =? 0)%Z then sgn a else sgn a * sgn b)
  | _, _ => NaN
  end.

(** [Math.round]: nearest integer, ties towards [+Infinity]. *)
Definition round (a : number) : number :=
  match a with
  | Num q => Num (inject_Z (Qfloor (q + (1 # 2))))
  | _ => a
  end.

(** [Math.max] of two arguments. *)
Definition max (a b : number) : number :=
  match a, b with
  | NaN, _ | _, NaN => NaN
  | _, _ => if gt b a then b else a
  end.

(** A property that may be [undefined] (or [null]) is an [option]. *)

(** [Number(v)]. *)
Definition Number (v : option number) : number :=
  match v with
  | Some n => n
  | None => NaN
  end.

(** ToBoolean on a possibly missing number. *)
Definition truthy_opt (v : option number) : bool :=
  match v with
  | Some n => truthy n
  | None => false
  end.

(** [a || b]. *)
Definition or (a b : option number) : option number :=
  if truthy_opt a then a else b.

(** [a ?? b]. *)
Definition nullish {A : Type} (a : option A) (b : A) : A :=
  match a with
  | Some x => x
  | None => b
  end.

(** [Boolean(v)] on a [boolean | null | undefined]. *)
Definition Boolean (v : option bool) : bool :=
  match v with
  | Some b => b
  | None => false
  end.

(** [a !== b] on two possibly missing numbers. *)
Definition strict_neq_opt (a b : option number) : bool :=
  match a, b with
  | Some x, Some y => strict_neq x y
  | None, None => false
  | _, _ => true
  end.

End JS.

Abbreviation number := JS.number.
Infix "||?" := JS.or (at level 50, left associativity).
Infix "??" := JS.nullish (at level 51, left associativity).

(** ** Shared types (recyclerlistview and FlashListProps) *)

(** [Dimension] of recyclerlistview. *)
Record Dimension : Type := mkDimension {
  height : number;
  width : number;
}.

(** The keys of a [ViewStyle] that the resolver reads; [ContentStyle] is the
    same object type restricted to these keys.  A padding is a number where
    it is present (percentages and animated values are not modelled).
    [rest] holds the names of any other key the object carries. *)
Record ViewStyle : Type := mkViewStyle {
  paddingTop : option number;
  paddingRight : option number;
  paddingBottom : option number;
  paddingLeft : option number;
  padding : option number;
  paddingVertical : option number;
  paddingHorizontal : option number;
  backgroundColor : option string;
  rest : list string;
}.

Abbreviation ContentStyle := ViewStyle.

(** The object literal [{}]. *)
Definition emptyStyle : ViewStyle :=
  mkViewStyle None None None None None None None None [].

(** ** src/utils/ContentContainerUtils.ts *)
Module ContentContainerUtils.

(** [ContentStyleExplicit]. *)
Record ContentStyleExplicit : Type := mkExplicit {
  e_paddingTop : number;
  e_paddingBottom : number;
  e_paddingLeft : number;
  e_paddingRight : number;
  e_backgroundColor : option string;
}.

(** [updateContentStyle]: writes the four resolved paddings and the
    background colour into [contentStyle] and returns that object. *)
Definition updateContentStyle (contentStyle : ContentStyle)
    (contentContainerStyleSource : option ContentStyle) : ContentStyle :=
  let s := contentContainerStyleSource ?? emptyStyle in
  {| paddingLeft :=
       Some (JS.Number (paddingLeft s ||? paddingHorizontal s ||? padding s ||? Some (JS.of_Z 0)));
     paddingRight :=
       Some (JS.Number (paddingRight s ||? paddingHorizontal s ||? padding s ||? Some (JS.of_Z 0)));
     paddingTop :=
       Some (JS.Number (paddingTop s ||? paddingVertical s ||? padding s ||? Some (JS.of_Z 0)));
     paddingBottom :=
       Some (JS.Number (paddingBottom s ||? paddingVertical s ||? padding s ||? Some (JS.of_Z 0)));
     backgroundColor := backgroundColor s;
     padding := padding contentStyle;
     paddingVertical := paddingVertical contentStyle;
     paddingHorizontal := paddingHorizontal contentStyle;
     rest := rest contentStyle |}.

(** The cast [contentStyle as ContentStyleExplicit]: the four paddings are
    read as numbers. *)
Definition asExplicit (c : ContentStyle) : ContentStyleExplicit :=
  {| e_paddingTop := JS.Number (paddingTop c);
     e_paddingBottom := JS.Number (paddingBottom c);
     e_paddingLeft := JS.Number (paddingLeft c);
     e_paddingRight := JS.Number (paddingRight c);
     e_backgroundColor := backgroundColor c |}.

(** [hasUnsupportedKeysInContentContainerStyle]. *)
Definition hasUnsupportedKeysInContentContainerStyle
    (contentContainerStyleSource : option ViewStyle) : bool :=
  let s := contentContainerStyleSource ?? emptyStyle in
  (0 <? length (rest s))%nat.

(** What [applyContentContainerInsetForLayoutManager] does to the fields of
    the object [dim]. *)
Definition applyInsetToFields (dim : Dimension)
    (contentContainerStyle : option ViewStyle) (horizontal : option bool)
    : Dimension :=
  let contentStyle := asExplicit (updateContentStyle emptyStyle contentContainerStyle) in
  if JS.Boolean horizontal then
    {| height := JS.sub (height dim)
                   (JS.add (e_paddingTop contentStyle) (e_paddingBottom contentStyle));
       width := width dim |}
  else
    {| height := height dim;
       width := JS.sub (width dim)
                  (JS.add (e_paddingLeft contentStyle) (e_paddingRight contentStyle)) |}.

(** References to [Dimension] objects and the store they live in. *)
Abbreviation ref := positive.
Abbreviation store := (gmap ref Dimension).

(** [applyContentContainerInsetForLayoutManager]: [dim] is a reference; the
    object it points to is updated in the store and the reference itself is
    the return value. *)
Definition applyContentContainerInsetForLayoutManager (st : store) (dim : ref)
    (contentContainerStyle : option ViewStyle) (horizontal : option bool)
    : store * ref :=
  (alter (fun d => applyInsetToFields d contentContainerStyle horizontal) dim st,
   dim).

(** The two shapes of object [getContentContainerPadding] returns. *)
Inductive ContentContainerPadding : Type :=
  | PaddingTopBottom (paddingTop paddingBottom : number)
  | PaddingLeftRight (paddingLeft paddingRight : number).

(** [getContentContainerPadding]. *)
Definition getContentContainerPadding (contentStyle : ContentStyleExplicit)
    (horizontal : option bool) : ContentContainerPadding :=
  if JS.Boolean horizontal then
    PaddingTopBottom (e_paddingTop contentStyle) (e_paddingBottom contentStyle)
  else
    PaddingLeftRight (e_paddingLeft contentStyle) (e_paddingRight contentStyle).

End ContentContainerUtils.

(** ** src/utils/AverageWindow.ts *)
Module AverageWindow.

Section Estimator.

(** The rule by which samples are folded into the running average; it gets
    the window size, the seed and the samples added so far, oldest first. *)
Variable decay : number -> number -> list number -> number.

(** Modelled from the spec: the class [AverageWindow] of
    src/utils/AverageWindow.ts is not among the sources.  The spec fixes the
    constructor arguments (window size and seed value), that [addValue] folds
    one more sample in, and that [currentValue] falls back to the seed while
    no sample has been added; the averaging rule itself is left open there,
    so it is the parameter [decay]. *)
Record AverageWindow : Type := mkAverageWindow {
  windowSize : number;
  seedValue : number;
  samples : list number;
}.

(** Modelled from the spec: the constructor [new AverageWindow(size, startValue)]. *)
Definition new (size startValue : number) : AverageWindow :=
  {| windowSize := size; seedValue := startValue; samples := [] |}.

(** Modelled from the spec: [addValue(value)]. *)
Definition addValue (value : number) (w : AverageWindow) : AverageWindow :=
  {| windowSize := windowSize w;
     seedValue := seedValue w;
     samples := samples w ++ [value] |}.

(** Modelled from the spec: the getter [currentValue]. *)
Definition currentValue (w : AverageWindow) : number :=
  match samples w with
  | [] => seedValue w
  | _ :: _ => decay (windowSize w) (seedValue w) (samples w)
  end.

End Estimator.

End AverageWindow.

Abbreviation AverageWindow := AverageWindow.AverageWindow.

(** ** Types of recyclerlistview-gaw and of FlashListProps.ts *)

(** [arr[index]]: [undefined] outside the array. *)
Definition array_get {A : Type} (arr : list A) (index : Z) : option A :=
  if (index <? 0)%Z then None else arr !! Z.to_nat index.

(** [arr[index] = v] on an existing slot. *)
Definition array_set {A : Type} (arr : list A) (index : Z) (v : A) : list A :=
  if (index <? 0)%Z then arr else <[Z.to_nat index := v]> arr.

Record Point : Type := mkPoint {
  x : number;
  y : number;
}.

(** A layout type: [string | number]. *)
Inductive TypeKey : Type :=
  | TypeStr (s : string)
  | TypeNum (n : number).

(** [Layout extends Dimension, Point]. *)
Record Layout : Type := mkLayout {
  dimension :> Dimension;
  point :> Point;
  isOverridden : option bool;
  type : TypeKey;
}.

(** The object [getStyleOverridesForIndex] returns: the keys of [Layout] it
    overrides. *)
Record StyleOverrides : Type := mkStyleOverrides {
  override_width : option number;
  override_height : option number;
}.

(** The part of a [LayoutManager] that the provider uses: [getLayouts()] and
    [getStyleOverridesForIndex(index)]. *)
Record LayoutManager : Type := mkLayoutManager {
  getLayouts : list Layout;
  getStyleOverridesForIndex : Z -> option StyleOverrides;
}.

(** The scratch record [{ span?: number; size?: number }]. *)
Record MutableLayout : Type := mkMutableLayout {
  span : option number;
  size : option number;
}.

(** [refreshing?: boolean | null | undefined]. *)
Inductive Refreshing : Type :=
  | RefreshingUndefined
  | RefreshingNull
  | RefreshingBool (b : bool).

Section Props.

(** The item type [T] and the type of [extraData]. *)
Context {T E : Type}.

(** The properties of [FlashListProps<T>] that the three source files read.
    A callback property that is only tested for presence is an [option unit];
    [style] holds the keys of the flattened [style] property; [data] is the
    array that the layout callbacks index (the source asserts it non-null). *)
Record FlashListProps : Type := mkProps {
  data : list T;
  extraData : option E;
  numColumns : option number;
  horizontal : option bool;
  estimatedItemSize : option number;
  contentContainerStyle : option ViewStyle;
  getItemType : option (option T -> Z -> option E -> option TypeKey);
  overrideItemLayout :
    option (MutableLayout -> option T -> Z -> number -> option E -> MutableLayout);
  onRefresh : option unit;
  refreshing : Refreshing;
  stickyHeaderIndices : option (list number);
  style : list string;
  estimatedListSize : option Dimension;
  estimatedFirstItemOffset : option number;
  ListHeaderComponent : option unit;
}.

End Props.

Arguments FlashListProps : clear implicits.

(** ** src/GridLayoutProviderWithProps.ts *)
Module GridLayoutProviderWithProps.

Import ContentContainerUtils.

Section Provider.

Context {T E : Type}.

(** The averaging rule of the estimator, see [AverageWindow]. *)
Variable decay : number -> number -> list number -> number.

(** A callback handed to the constructor: it gets the index, the current
    props and the scratch record, may write to the scratch record, and
    returns its result together with the scratch record as it left it. *)
Definition HostCallback (R : Type) : Type :=
  Z -> FlashListProps T E -> MutableLayout -> R * MutableLayout.

(** An instance of the class.  The first six fields belong to the superclass
    [GridLayoutProvider] of recyclerlistview-gaw: the constructor arguments
    it keeps, and [getLayoutManager], the manager that the method
    [getLayoutManager()] returns ([None] for [undefined]). *)
Record GridLayoutProviderWithProps : Type := mkProvider {
  maxSpan : number;
  getLayoutType : HostCallback TypeKey;
  getSpan : HostCallback number;
  getHeightOrWidth : HostCallback (option number);
  acceptableRelayoutDelta : option number;
  getLayoutManager : option LayoutManager;
  props : FlashListProps T E;
  layoutObject : MutableLayout;
  averageWindow : AverageWindow;
  renderWindowInsets : Dimension;
  _hasExpired : bool;
  defaultEstimatedItemSize : number;
}.

(** Assignments to the fields of [this]. *)
Definition set_getLayoutManager (v : option LayoutManager)
    (p : GridLayoutProviderWithProps) : GridLayoutProviderWithProps :=
  mkProvider (maxSpan p) (getLayoutType p) (getSpan p) (getHeightOrWidth p)
    (acceptableRelayoutDelta p) v (props p) (layoutObject p)
    (averageWindow p) (renderWindowInsets p) (_hasExpired p)
    (defaultEstimatedItemSize p).

Definition set_props (v : FlashListProps T E)
    (p : GridLayoutProviderWithProps) : GridLayoutProviderWithProps :=
  mkProvider (maxSpan p) (getLayoutType p) (getSpan p) (getHeightOrWidth p)
    (acceptableRelayoutDelta p) (getLayoutManager p) v (layoutObject p)
    (averageWindow p) (renderWindowInsets p) (_hasExpired p)
    (defaultEstimatedItemSize p).

Definition set_layoutObject (v : MutableLayout)
    (p : GridLayoutProviderWithProps) : GridLayoutProviderWithProps :=
  mkProvider (maxSpan p) (getLayoutType p) (getSpan p) (getHeightOrWidth p)
    (acceptableRelayoutDelta p) (getLayoutManager p) (props p) v
    (averageWindow p) (renderWindowInsets p) (_hasExpired p)
    (defaultEstimatedItemSize p).

Definition set_averageWindow (v : AverageWindow)
    (p : GridLayoutProviderWithProps) : GridLayoutProviderWithProps :=
  mkProvider (maxSpan p) (getLayoutType p) (getSpan p) (getHeightOrWidth p)
    (acceptableRelayoutDelta p) (getLayoutManager p) (props p) (layoutObject p)
    v (renderWindowInsets p) (_hasExpired p)
    (defaultEstimatedItemSize p).

Definition set_renderWindowInsets (v : Dimension)
    (p : GridLayoutProviderWithProps) : GridLayoutProviderWithProps :=
  mkProvider (maxSpan p) (getLayoutType p) (getSpan p) (getHeightOrWidth p)
    (acceptableRelayoutDelta p) (getLayoutManager p) (props p) (layoutObject p)
    (averageWindow p) v (_hasExpired p)
    (defaultEstimatedItemSize p).

Definition set_hasExpired (v : bool)
    (p : GridLayoutProviderWithProps) : GridLayoutProviderWithProps :=
  mkProvider (maxSpan p) (getLayoutType p) (getSpan p) (getHeightOrWidth p)
    (acceptableRelayoutDelta p) (getLayoutManager p) (props p) (layoutObject p)
    (averageWindow p) (renderWindowInsets p) v
    (defaultEstimatedItemSize p).

(** [super.newLayoutManager] of recyclerlistview-gaw, a parameter: from the
    provider, the adjusted window size, [isHorizontal] and the cached layouts
    it yields the new manager and the manager that [getLayoutManager()]
    returns afterwards. *)
Variable super_newLayoutManager :
  GridLayoutProviderWithProps -> Dimension -> option bool ->
  option (list Layout) -> LayoutManager * option LayoutManager.

(** The getter [hasExpired]. *)
Definition hasExpired (p : GridLayoutProviderWithProps) : bool := _hasExpired p.

(** The getter [averageItemSize]. *)
Definition averageItemSize (p : GridLayoutProviderWithProps) : number :=
  AverageWindow.currentValue decay (averageWindow p).

(** [getCleanLayoutObj]: resets the scratch record; the object it returns is
    [layoutObject] of the resulting provider. *)
Definition getCleanLayoutObj (p : GridLayoutProviderWithProps)
    : GridLayoutProviderWithProps :=
  set_layoutObject {| span := None; size := None |} p.

(** [getAdjustedRenderWindowSize]: the inset is applied to a fresh copy
    [{ ...renderWindowSize }], whose fields are the result. *)
Definition getAdjustedRenderWindowSize (p : GridLayoutProviderWithProps)
    (renderWindowSize : Dimension) : Dimension :=
  applyInsetToFields renderWindowSize (contentContainerStyle (props p))
    (Some (JS.Boolean (horizontal (props p)))).

(** The three closures that the constructor passes to [super]. *)
Definition layoutTypeForIndex (i : Z) (p : GridLayoutProviderWithProps)
    : TypeKey * GridLayoutProviderWithProps :=
  let p1 := getCleanLayoutObj p in
  let '(r, scratch) := getLayoutType p1 i (props p1) (layoutObject p1) in
  (r, set_layoutObject scratch p1).

Definition spanForIndex (i : Z) (p : GridLayoutProviderWithProps)
    : number * GridLayoutProviderWithProps :=
  let p1 := getCleanLayoutObj p in
  let '(r, scratch) := getSpan p1 i (props p1) (layoutObject p1) in
  (r, set_layoutObject scratch p1).

Definition heightOrWidthForIndex (i : Z) (p : GridLayoutProviderWithProps)
    : number * GridLayoutProviderWithProps :=
  let p1 := getCleanLayoutObj p in
  let '(r, scratch) := getHeightOrWidth p1 i (props p1) (layoutObject p1) in
  let p2 := set_layoutObject scratch p1 in
  (r ?? averageItemSize p2, p2).

(** The constructor.  After [super(...)] the field initialisers run, then the
    body. *)
Definition constructor (maxSpan : number)
    (getLayoutType : HostCallback TypeKey) (getSpan : HostCallback number)
    (getHeightOrWidth : HostCallback (option number))
    (props : FlashListProps T E) (acceptableRelayoutDelta : option number)
    : GridLayoutProviderWithProps :=
  let defaultEstimatedItemSize := JS.of_Z 100 in
  let this :=
    {| maxSpan := maxSpan;
       getLayoutType := getLayoutType;
       getSpan := getSpan;
       getHeightOrWidth := getHeightOrWidth;
       acceptableRelayoutDelta := acceptableRelayoutDelta;
       getLayoutManager := None;
       props := props;
       layoutObject := {| span := None; size := None |};
       averageWindow :=
         AverageWindow.new (JS.of_Z 1)
           (estimatedItemSize props ?? defaultEstimatedItemSize);
       renderWindowInsets := {| height := JS.of_Z 0; width := JS.of_Z 0 |};
       _hasExpired := false;
       defaultEstimatedItemSize := defaultEstimatedItemSize |} in
  set_renderWindowInsets
    (getAdjustedRenderWindowSize this (renderWindowInsets this)) this.

(** [updateProps]; the provider it returns is [this]. *)
Definition updateProps (newProps : FlashListProps T E)
    (p : GridLayoutProviderWithProps) : GridLayoutProviderWithProps :=
  let newInsetValues :=
    applyInsetToFields {| height := JS.of_Z 0; width := JS.of_Z 0 |}
      (contentContainerStyle newProps)
      (Some (JS.Boolean (horizontal newProps))) in
  let p1 :=
    set_hasExpired
      (_hasExpired p
       || JS.strict_neq_opt (numColumns (props p)) (numColumns newProps)
       || JS.strict_neq (height newInsetValues) (height (renderWindowInsets p))
       || JS.strict_neq (width newInsetValues) (width (renderWindowInsets p)))
      p in
  let p2 := set_renderWindowInsets newInsetValues p1 in
  set_props newProps p2.

(** [markExpired]. *)
Definition markExpired (p : GridLayoutProviderWithProps)
    : GridLayoutProviderWithProps :=
  set_hasExpired true p.

(** [layout.isOverridden = true]. *)
Definition set_isOverridden (layout : Layout) : Layout :=
  {| dimension := dimension layout;
     point := point layout;
     isOverridden := Some true;
     type := type layout |}.

(** [reportItemLayout]; the layout object belongs to the array of the
    layout manager, so the write to it shows there. *)
Definition reportItemLayout (index : Z) (p : GridLayoutProviderWithProps)
    : GridLayoutProviderWithProps :=
  match getLayoutManager p with
  | None => p
  | Some manager =>
      match array_get (getLayouts manager) index with
      | None => p
      | Some layout =>
          let manager' :=
            {| getLayouts :=
                 array_set (getLayouts manager) index (set_isOverridden layout);
               getStyleOverridesForIndex := getStyleOverridesForIndex manager |} in
          let p1 := set_getLayoutManager (Some manager') p in
          set_averageWindow
            (AverageWindow.addValue
               (if JS.Boolean (horizontal (props p1))
                then width layout else height layout)
               (averageWindow p1))
            p1
      end
  end.

(** [{ ...layout, ...overrides }]. *)
Definition spread (layout : Layout) (overrides : option StyleOverrides) : Layout :=
  match overrides with
  | None => layout
  | Some o =>
      {| dimension :=
           {| height := override_height o ?? height layout;
              width := override_width o ?? width layout |};
         point := point layout;
         isOverridden := isOverridden layout;
         type := type layout |}
  end.

(** [updateCachedDimensions]: the array [cachedLayouts] after the loop. *)
Definition updateCachedDimensions (cachedLayouts : list Layout)
    (layoutManager : LayoutManager) : list Layout :=
  imap (fun i layout =>
          spread layout (getStyleOverridesForIndex layoutManager (Z.of_nat i)))
       cachedLayouts.

(** The local [estimatedItemCount] of [newLayoutManager]. *)
Definition estimatedItemCount (p : GridLayoutProviderWithProps)
    (renderWindowSize : Dimension) : number :=
  JS.max (JS.of_Z 3)
    (JS.round
       (JS.div
          (if JS.Boolean (horizontal (props p))
           then width renderWindowSize else height renderWindowSize)
          (estimatedItemSize (props p) ?? defaultEstimatedItemSize p))).

(** [newLayoutManager]: the provider afterwards, the manager returned and
    the caller's array [cachedLayouts] afterwards.  Whether the new manager
    keeps that array as its own is the superclass's business and is not
    part of the model. *)
Definition newLayoutManager (renderWindowSize : Dimension)
    (isHorizontal : option bool) (cachedLayouts : option (list Layout))
    (p : GridLayoutProviderWithProps)
    : GridLayoutProviderWithProps * LayoutManager * option (list Layout) :=
  let count := estimatedItemCount p renderWindowSize in
  let p1 :=
    set_averageWindow
      (AverageWindow.new
         (JS.mul
            (JS.mul (JS.of_Z 2)
               (JS.Number (numColumns (props p) ||? Some (JS.of_Z 1))))
            count)
         (AverageWindow.currentValue decay (averageWindow p)))
      p in
  let '(newManager, last) :=
    super_newLayoutManager p1 (getAdjustedRenderWindowSize p1 renderWindowSize)
      isHorizontal cachedLayouts in
  let p2 := set_getLayoutManager last p1 in
  (p2, newManager,
   match cachedLayouts with
   | Some cached => Some (updateCachedDimensions cached newManager)
   | None => None
   end).

(** The entry [this.getLayoutManager()?.getLayouts()[index]] that
    [reportItemLayout] looks up. *)
Definition currentEntry (p : GridLayoutProviderWithProps) (index : Z)
    : option Layout :=
  match getLayoutManager p with
  | Some manager => array_get (getLayouts manager) index
  | None => None
  end.

(** A call of one of the four public methods that change a provider, with
    its arguments. *)
Inductive Call : Type :=
  | CallUpdateProps (newProps : FlashListProps T E)
  | CallMarkExpired
  | CallReportItemLayout (index : Z)
  | CallNewLayoutManager (renderWindowSize : Dimension)
      (isHorizontal : option bool) (cachedLayouts : option (list Layout)).

(** The provider after one call. *)
Definition perform (c : Call) (p : GridLayoutProviderWithProps)
    : GridLayoutProviderWithProps :=
  match c with
  | CallUpdateProps newProps => updateProps newProps p
  | CallMarkExpired => markExpired p
  | CallReportItemLayout index => reportItemLayout index p
  | CallNewLayoutManager renderWindowSize isHorizontal cachedLayouts =>
      (newLayoutManager renderWindowSize isHorizontal cachedLayouts p).1.1
  end.

(** The provider after a sequence of calls, first call first. *)
Fixpoint run (cs : list Call) (p : GridLayoutProviderWithProps)
    : GridLayoutProviderWithProps :=
  match cs with
  | [] => p
  | c :: cs' => run cs' (perform c p)
  end.

(** Whether a call is a [reportItemLayout]. *)
Definition isReport (c : Call) : bool :=
  match c with
  | CallReportItemLayout _ => true
  | _ => false
  end.

(** The estimator of [p] has seen no sample and is seeded with [v]. *)
Definition unfedAt (v : number) (p : GridLayoutProviderWithProps) : Prop :=
  AverageWindow.samples (averageWindow p) = []
  /\ AverageWindow.seedValue (averageWindow p) = v.

End Provider.

End GridLayoutProviderWithProps.

(** ** src/FlashList.tsx *)
Module FlashList.

Import ContentContainerUtils.

(** The entries of [ExceptionList] (src/errors/ExceptionList.ts) that
    [validateProps] throws, wrapped in a [CustomError]. *)
Inductive ExceptionList : Type :=
  | refreshBooleanMissing
  | stickyWhileHorizontalNotSupported
  | columnsWhileHorizontalNotSupported.

(** The entries of [WarningList] that [validateProps] logs. *)
Inductive WarningList : Type :=
  | styleUnsupported
  | styleContentContainerUnsupported.

(** How a call ends: it returns, or it throws a [CustomError]. *)
Inductive Completion (A : Type) : Type :=
  | Returned (a : A)
  | Threw (e : ExceptionList).

Arguments Returned {A} a.
Arguments Threw {A} e.

Section Component.

Context {T E : Type}.

(** The global [__DEV__]. *)
Variable DEV : bool.

(** [typeof refreshing !== "boolean"]. *)
Definition not_boolean (r : Refreshing) : bool :=
  match r with
  | RefreshingBool _ => false
  | _ => true
  end.

(** [Number(stickyHeaderIndices?.length)]. *)
Definition stickyCount (props : FlashListProps T E) : number :=
  JS.Number
    (option_map (fun l => JS.of_Z (Z.of_nat (length l)))
       (stickyHeaderIndices props)).

(** [validateProps]: throws, or returns after logging the warnings listed
    (in the order of the [console.warn] calls). *)
Definition validateProps (props : FlashListProps T E)
    : Completion (list WarningList) :=
  if bool_decide (onRefresh props <> None) && not_boolean (refreshing props)
  then Threw refreshBooleanMissing
  else if JS.gt (stickyCount props) (JS.of_Z 0) && JS.Boolean (horizontal props)
  then Threw stickyWhileHorizontalNotSupported
  else if JS.gt (JS.Number (numColumns props)) (JS.of_Z 1)
          && JS.Boolean (horizontal props)
  then Threw columnsWhileHorizontalNotSupported
  else
    Returned
      ((if DEV && (0 <? length (style props))%nat
        then [styleUnsupported] else [])
       ++ (if hasUnsupportedKeysInContentContainerStyle
                (contentContainerStyle props)
           then [styleContentContainerUnsupported] else [])).

(** [FlashListState<T>] as [getInitialMutableState] builds it; the data
    provider, which holds no rows yet, is left out. *)
Record FlashListState : Type := mkState {
  state_data : option (list T);
  state_layoutProvider :
    option (@GridLayoutProviderWithProps.GridLayoutProviderWithProps T E);
  state_numColumns : number;
}.

(** [getInitialMutableState]. *)
Definition getInitialMutableState : FlashListState :=
  {| state_data := None;
     state_layoutProvider := None;
     state_numColumns := JS.of_Z 0 |}.

(** The fields of a component that the constructor assigns. *)
Record FlashList : Type := mkFlashList {
  this_props : FlashListProps T E;
  loadStartTime : number;
  listFixedDimensionSize : number;
  distanceFromWindow : number;
  state : FlashListState;
  logged : list WarningList;
}.

(** The constructor; [now] is the value of [Date.now()].  The viewability
    manager and the item animator it creates last are left out. *)
Definition constructor (now : number) (props : FlashListProps T E)
    : Completion FlashList :=
  match validateProps props with
  | Threw e => Threw e
  | Returned warnings =>
      Returned
        {| this_props := props;
           loadStartTime := now;
           listFixedDimensionSize :=
             match estimatedListSize props with
             | Some estimated =>
                 if JS.Boolean (horizontal props)
                 then height estimated else width estimated
             | None => JS.of_Z 0
             end;
           distanceFromWindow :=
             estimatedFirstItemOffset props
             ?? (if bool_decide (ListHeaderComponent props <> None)
                 then JS.of_Z 1 else JS.of_Z 0);
           state := getInitialMutableState;
           logged := warnings |}
  end.

(** ToBoolean on a layout type: the empty string, [0] and [NaN] are falsy. *)
Definition truthy_type (t : option TypeKey) : bool :=
  match t with
  | Some (TypeStr s) => negb (String.eqb s EmptyString)
  | Some (TypeNum n) => JS.truthy n
  | None => false
  end.

(** The three callbacks that [getLayoutProvider] passes to the provider. *)
Definition typeCallback
    : GridLayoutProviderWithProps.HostCallback (T := T) (E := E) TypeKey :=
  fun index props mutableLayout =>
    let type :=
      match getItemType props with
      | Some f => f (array_get (data props) index) index (extraData props)
      | None => None
      end in
    (if truthy_type type then type ?? TypeNum (JS.of_Z 0) else TypeNum (JS.of_Z 0),
     mutableLayout).

Definition spanCallback (numColumns : number)
    : GridLayoutProviderWithProps.HostCallback (T := T) (E := E) number :=
  fun index props mutableLayout =>
    let mutableLayout' :=
      match overrideItemLayout props with
      | Some f =>
          f mutableLayout (array_get (data props) index) index numColumns
            (extraData props)
      | None => mutableLayout
      end in
    (span mutableLayout' ?? JS.of_Z 1, mutableLayout').

Definition sizeCallback (numColumns : number)
    : GridLayoutProviderWithProps.HostCallback (T := T) (E := E) (option number) :=
  fun index props mutableLayout =>
    let mutableLayout' :=
      match overrideItemLayout props with
      | Some f =>
          f mutableLayout (array_get (data props) index) index numColumns
            (extraData props)
      | None => mutableLayout
      end in
    (size mutableLayout', mutableLayout').

(** [getLayoutProvider]. *)
Definition getLayoutProvider (numColumns : number)
    (flashListProps : FlashListProps T E)
    : GridLayoutProviderWithProps.GridLayoutProviderWithProps :=
  GridLayoutProviderWithProps.constructor numColumns
    typeCallback (spanCallback numColumns) (sizeCallback numColumns)
    flashListProps None.

End Component.

End FlashList.

(** ** What the specification says, for comparison with the code *)
Module Spec.

(** The precedence [edge ?? axis ?? uniform ?? 0] of the specification: the
    first of the three that is defined. *)
Definition resolvePadding (edge axis uniform : option number) : number :=
  match edge, axis, uniform with
  | Some n, _, _ => n
  | None, Some n, _ => n
  | None, None, Some n => n
  | None, None, None => JS.of_Z 0
  end.

(** Whether a span is [0] or negative. *)
Definition nonPositive (s : number) : bool :=
  negb (JS.gt s (JS.of_Z 0)).

(** The span the specification lets the layout see for a span the host
    reported: [1] in place of [0] or a negative number. *)
Definition clampedSpan (reported : number) : number :=
  if nonPositive reported then JS.of_Z 1 else reported.

(** The window size [2 x numColumns x max(3, round(size / estimatedItemSize))]
    of the specification, on the stored props as they are. *)
Definition windowSize {T E : Type} (props : FlashListProps T E)
    (renderWindowSize : Dimension) : number :=
  JS.mul
    (JS.mul (JS.of_Z 2) (JS.Number (numColumns props)))
    (JS.max (JS.of_Z 3)
       (JS.round
          (JS.div
             (if JS.Boolean (horizontal props)
              then width renderWindowSize else height renderWindowSize)
             (JS.Number (estimatedItemSize props))))).

Section Configuration.

Context {T E : Type}.

(** (i) [onRefresh] is supplied while [refreshing] is not a boolean. *)
Definition refreshWithoutBoolean (props : FlashListProps T E) : Prop :=
  onRefresh props <> None /\ forall b, refreshing props <> RefreshingBool b.

(** (ii) a non-empty [stickyHeaderIndices] together with [horizontal]. *)
Definition stickyWhileHorizontal (props : FlashListProps T E) : Prop :=
  (exists l, stickyHeaderIndices props = Some l /\ l <> [])
  /\ horizontal props = Some true.

(** (iii) [numColumns] greater than 1 together with [horizontal]. *)
Definition columnsWhileHorizontal (props : FlashListProps T E) : Prop :=
  (exists n, numColumns props = Some n /\ JS.gt n (JS.of_Z 1) = true)
  /\ horizontal props = Some true.

End Configuration.

End Spec.

(** ** Precedence by truthiness *)
Module Precedence.

(** [FirstTruthy edge axis uniform n]: [n] is the first of the three values
    that is truthy (a number other than [0] and [NaN]), or [0] when none
    is. *)
Inductive FirstTruthy (edge axis uniform : option number) : number -> Prop :=
  | first_edge n :
      edge = Some n -> JS.truthy n = true ->
      FirstTruthy edge axis uniform n
  | first_axis n :
      JS.truthy_opt edge = false ->
      axis = Some n -> JS.truthy n = true ->
      FirstTruthy edge axis uniform n
  | first_uniform n :
      JS.truthy_opt edge = false -> JS.truthy_opt axis = false ->
      uniform = Some n -> JS.truthy n = true ->
      FirstTruthy edge axis uniform n
  | first_none :
      JS.truthy_opt edge = false -> JS.truthy_opt axis = false ->
      JS.truthy_opt uniform = false ->
      FirstTruthy edge axis uniform (JS.of_Z 0).

End Precedence.

(** ** Concrete values used in the examples *)
Module Fixtures.

Import ContentContainerUtils.

(** [{ paddingTop: 5, paddingVertical: 10, padding: 20 }]. *)
Definition styleEdgeAxisUniform : ViewStyle :=
  mkViewStyle (Some (JS.of_Z 5)) None None None
    (Some (JS.of_Z 20)) (Some (JS.of_Z 10)) None None [].

(** [{ paddingVertical: 10, padding: 20 }]. *)
Definition styleAxisUniform : ViewStyle :=
  mkViewStyle None None None None
    (Some (JS.of_Z 20)) (Some (JS.of_Z 10)) None None [].

(** [{ padding: 20 }]. *)
Definition styleUniform20 : ViewStyle :=
  mkViewStyle None None None None (Some (JS.of_Z 20)) None None None [].

(** [{ padding: 10 }]. *)
Definition styleUniform10 : ViewStyle :=
  mkViewStyle None None None None (Some (JS.of_Z 10)) None None None [].

(** [{ paddingTop: 0, paddingVertical: 10 }]. *)
Definition styleZeroTop : ViewStyle :=
  mkViewStyle (Some (JS.of_Z 0)) None None None
    None (Some (JS.of_Z 10)) None None [].

(** [{ paddingTop: 1, paddingRight: 8, paddingBottom: 2, paddingLeft: 4 }]. *)
Definition styleFourEdges : ViewStyle :=
  mkViewStyle (Some (JS.of_Z 1)) (Some (JS.of_Z 8)) (Some (JS.of_Z 2))
    (Some (JS.of_Z 4)) None None None None [].

(** [{ width: 300, height: 600 }]. *)
Definition viewport : Dimension :=
  {| height := JS.of_Z 600; width := JS.of_Z 300 |}.

(** A store holding [viewport] at reference [1] and another object at [2]. *)
Definition twoObjects : store :=
  <[2%positive := {| height := JS.of_Z 7; width := JS.of_Z 9 |}]>
    {[1%positive := viewport]}.

(** [{ width: 300, height: 1000 }]. *)
Definition tallWindow : Dimension :=
  {| height := JS.of_Z 1000; width := JS.of_Z 300 |}.

(** The mean of the samples as averaging rule. *)
Definition meanOfSamples (windowSize seed : number) (samples : list number)
    : number :=
  JS.div (fold_left JS.add samples (JS.of_Z 0))
    (JS.of_Z (Z.of_nat (length samples))).

(** Props of a list of three numbers; the arguments are the properties that
    vary between the examples. *)
Definition propsWith (columns : option number) (isHorizontal : option bool)
    (estimate : option number) (style : option ViewStyle)
    (override :
       option (MutableLayout -> option nat -> Z -> number -> option unit
               -> MutableLayout))
    (refresh : option unit) (isRefreshing : Refreshing)
    (sticky : option (list number)) : FlashListProps nat unit :=
  {| data := [10; 20; 30]%nat;
     extraData := None;
     numColumns := columns;
     horizontal := isHorizontal;
     estimatedItemSize := estimate;
     contentContainerStyle := style;
     getItemType := None;
     overrideItemLayout := override;
     onRefresh := refresh;
     refreshing := isRefreshing;
     stickyHeaderIndices := sticky;
     style := [];
     estimatedListSize := None;
     estimatedFirstItemOffset := None;
     ListHeaderComponent := None |}.

(** One column, vertical, [estimatedItemSize: 100]. *)
Definition plainProps : FlashListProps nat unit :=
  propsWith (Some (JS.of_Z 1)) None (Some (JS.of_Z 100)) None None
    None RefreshingUndefined None.

(** The same with [contentContainerStyle: { padding: 10 }]. *)
Definition paddedProps : FlashListProps nat unit :=
  propsWith (Some (JS.of_Z 1)) None (Some (JS.of_Z 100)) (Some styleUniform10)
    None None RefreshingUndefined None.

(** [numColumns: 0]. *)
Definition zeroColumnsProps : FlashListProps nat unit :=
  propsWith (Some (JS.of_Z 0)) None (Some (JS.of_Z 100)) None None
    None RefreshingUndefined None.

(** No [estimatedItemSize]. *)
Definition noEstimateProps : FlashListProps nat unit :=
  propsWith (Some (JS.of_Z 1)) None None None None
    None RefreshingUndefined None.

(** An [overrideItemLayout] that sets [layout.span = 0]. *)
Definition zeroSpan (layout : MutableLayout) (item : option nat) (index : Z)
    (maxColumns : number) (extra : option unit) : MutableLayout :=
  {| span := Some (JS.of_Z 0); size := size layout |}.

(** Two columns with that callback. *)
Definition zeroSpanProps : FlashListProps nat unit :=
  propsWith (Some (JS.of_Z 2)) None (Some (JS.of_Z 100)) None (Some zeroSpan)
    None RefreshingUndefined None.

(** [onRefresh] without [refreshing]. *)
Definition refreshProps : FlashListProps nat unit :=
  propsWith (Some (JS.of_Z 1)) None (Some (JS.of_Z 100)) None None
    (Some tt) RefreshingUndefined None.

(** [stickyHeaderIndices: [0]] on a horizontal list. *)
Definition stickyProps : FlashListProps nat unit :=
  propsWith (Some (JS.of_Z 1)) (Some true) (Some (JS.of_Z 100)) None None
    None RefreshingUndefined (Some [JS.of_Z 0]).

(** [numColumns: 2] on a horizontal list. *)
Definition columnsProps : FlashListProps nat unit :=
  propsWith (Some (JS.of_Z 2)) (Some true) (Some (JS.of_Z 100)) None None
    None RefreshingUndefined None.

(** Two layout entries of heights 40 and 60. *)
Definition entry (h : Z) : Layout :=
  {| dimension := {| height := JS.of_Z h; width := JS.of_Z 300 |};
     point := {| x := JS.of_Z 0; y := JS.of_Z 0 |};
     isOverridden := None;
     type := TypeNum (JS.of_Z 0) |}.

Definition twoEntries : LayoutManager :=
  {| getLayouts := [entry 40; entry 60];
     getStyleOverridesForIndex := fun _ => None |}.

(** A superclass whose new manager holds the cached layouts and is the one
    [getLayoutManager()] returns from then on. *)
Definition cachingSuper
    (p : @GridLayoutProviderWithProps.GridLayoutProviderWithProps nat unit)
    (renderWindowSize : Dimension) (isHorizontal : option bool)
    (cachedLayouts : option (list Layout))
    : LayoutManager * option LayoutManager :=
  let manager :=
    {| getLayouts := cachedLayouts ?? [];
       getStyleOverridesForIndex := fun _ => None |} in
  (manager, Some manager).

(** Providers as [getLayoutProvider] builds them. *)
Definition plainProvider
    : @GridLayoutProviderWithProps.GridLayoutProviderWithProps nat unit :=
  FlashList.getLayoutProvider (JS.of_Z 1) plainProps.

Definition zeroColumnsProvider
    : @GridLayoutProviderWithProps.GridLayoutProviderWithProps nat unit :=
  FlashList.getLayoutProvider (JS.of_Z 1) zeroColumnsProps.

Definition noEstimateProvider
    : @GridLayoutProviderWithProps.GridLayoutProviderWithProps nat unit :=
  FlashList.getLayoutProvider (JS.of_Z 1) noEstimateProps.

(** [plainProvider] once a layout manager with two entries exists. *)
Definition laidOutProvider
    : @GridLayoutProviderWithProps.GridLayoutProviderWithProps nat unit :=
  GridLayoutProviderWithProps.set_getLayoutManager (Some twoEntries)
    plainProvider.

(** A sequence of calls of all four kinds. *)
Definition someCalls : list (@GridLayoutProviderWithProps.Call nat unit) :=
  [ GridLayoutProviderWithProps.CallUpdateProps plainProps;
    GridLayoutProviderWithProps.CallNewLayoutManager tallWindow None
      (Some [entry 40; entry 60]);
    GridLayoutProviderWithProps.CallReportItemLayout 1;
    GridLayoutProviderWithProps.CallUpdateProps paddedProps;
    GridLayoutProviderWithProps.CallMarkExpired;
    GridLayoutProviderWithProps.CallUpdateProps paddedProps ].

End Fixtures.

(** ** Further operations on numbers *)
Module JSMore.

(** [a < b]. *)
Definition lt (a b : number) : bool := JS.gt b a.

(** [a <= b]. *)
Definition le (a b : number) : bool :=
  match a, b with
  | JS.NaN, _ | _, JS.NaN => false
  | JS.Num p, JS.Num q => Qle_bool p q
  | JS.NegInf, _ => true
  | _, JS.PosInf => true
  | _, _ => false
  end.

(** [a >= b]. *)
Definition ge (a b : number) : bool := le b a.

(** [-a]. *)
Definition neg (a : number) : number :=
  match a with
  | JS.Num q => JS.Num (- q)
  | JS.PosInf => JS.NegInf
  | JS.NegInf => JS.PosInf
  | JS.NaN => JS.NaN
  end.

(** [Math.floor]. *)
Definition floor (a : number) : number :=
  match a with
  | JS.Num q => JS.Num (inject_Z (Qfloor q))
  | _ => a
  end.

(** [Number.isNaN]. *)
Definition isNaN (a : number) : bool :=
  match a with
  | JS.NaN => true
  | _ => false
  end.

(** [Number.isFinite]. *)
Definition isFinite (a : number) : bool :=
  match a with
  | JS.Num _ => true
  | _ => false
  end.

(** A possibly missing number that is finite where it is present. *)
Definition finiteOrMissing (v : option number) : bool :=
  match v with
  | Some n => isFinite n
  | None => true
  end.

(** A style all of whose paddings are finite where they are present. *)
Definition finitePaddings (s : option ViewStyle) : bool :=
  match s with
  | None => true
  | Some s =>
      finiteOrMissing (paddingTop s) && finiteOrMissing (paddingRight s)
      && finiteOrMissing (paddingBottom s) && finiteOrMissing (paddingLeft s)
      && finiteOrMissing (padding s) && finiteOrMissing (paddingVertical s)
      && finiteOrMissing (paddingHorizontal s)
  end.

(** A possibly missing number that is present and [NaN]. *)
Definition definedNaN (v : option number) : bool :=
  match v with
  | Some n => isNaN n
  | None => false
  end.

End JSMore.

(** Two styles agree on the paddings that the layout inset is computed from:
    top, bottom, vertical and uniform for a horizontal list; left, right,
    horizontal and uniform otherwise. *)
Definition sameLayoutPaddings (horizontal : bool) (s s' : ViewStyle) : Prop :=
  if horizontal
  then paddingTop s = paddingTop s' /\ paddingBottom s = paddingBottom s'
       /\ paddingVertical s = paddingVertical s' /\ padding s = padding s'
  else paddingLeft s = paddingLeft s' /\ paddingRight s = paddingRight s'
       /\ paddingHorizontal s = paddingHorizontal s' /\ padding s = padding s'.

(** The insets that the provider computes from props: those of an empty
    dimension. *)
Definition layoutInsets {T E : Type} (props : FlashListProps T E) : Dimension :=
  ContentContainerUtils.applyInsetToFields
    {| height := JS.of_Z 0; width := JS.of_Z 0 |}
    (contentContainerStyle props) (Some (JS.Boolean (horizontal props))).

(** ** src/utils/ContentContainerUtils.ts, paddings that are not numbers

    A padding of a react-native [ViewStyle] need not be a number: the type
    [DimensionValue] also admits strings (['10%'], ['auto']) and animated
    nodes, and [updateContentStyle] converts whatever it finds with
    [Number(...)].  This module embeds the function once more with such
    sources; on the sources of [ViewStyle] above it is the function of
    [ContentContainerUtils]. *)
Module DimensionValues.

Section Values.

(** The values a padding may hold besides numbers, [undefined] and [null],
    with what [||] makes of them (ToBoolean: a string is truthy unless it is
    empty, an object always) and what [Number(...)] does (ToNumber: [NaN]
    for ['10%'] and ['auto'], [12] for ['12']).  A value whose conversion
    throws, as a symbol's does, is not among them. *)
Context {Other : Type}.
Variable ToBoolean : Other -> bool.
Variable ToNumber : Other -> number.

(** [DimensionValue] of react-native. *)
Inductive DimensionValue : Type :=
  | Px (n : number)
  | NotNumber (v : Other).

(** The keys of a [ViewStyle] that the resolver reads, any of the paddings
    a [DimensionValue]. *)
Record AnyViewStyle : Type := mkAnyViewStyle {
  a_paddingTop : option DimensionValue;
  a_paddingRight : option DimensionValue;
  a_paddingBottom : option DimensionValue;
  a_paddingLeft : option DimensionValue;
  a_padding : option DimensionValue;
  a_paddingVertical : option DimensionValue;
  a_paddingHorizontal : option DimensionValue;
  a_backgroundColor : option string;
  a_rest : list string;
}.

(** The object literal [{}]. *)
Definition emptyAnyStyle : AnyViewStyle :=
  mkAnyViewStyle None None None None None None None None [].

(** A style whose paddings are numbers, as a style whose paddings may be
    anything. *)
Definition asViewStyle (s : ViewStyle) : AnyViewStyle :=
  {| a_paddingTop := Px <$> paddingTop s;
     a_paddingRight := Px <$> paddingRight s;
     a_paddingBottom := Px <$> paddingBottom s;
     a_paddingLeft := Px <$> paddingLeft s;
     a_padding := Px <$> padding s;
     a_paddingVertical := Px <$> paddingVertical s;
     a_paddingHorizontal := Px <$> paddingHorizontal s;
     a_backgroundColor := backgroundColor s;
     a_rest := rest s |}.

(** ToBoolean on a possibly missing padding. *)
Definition truthy (v : option DimensionValue) : bool :=
  match v with
  | Some (Px n) => JS.truthy n
  | Some (NotNumber o) => ToBoolean o
  | None => false
  end.

(** [a || b]. *)
Definition or (a b : option DimensionValue) : option DimensionValue :=
  if truthy a then a else b.

(** [Number(v)]. *)
Definition Number (v : option DimensionValue) : number :=
  match v with
  | Some (Px n) => n
  | Some (NotNumber o) => ToNumber o
  | None => JS.NaN
  end.

(** [Number(edge || axis || uniform || 0)], the padding of one edge. *)
Definition resolve (edge axis uniform : option DimensionValue) : number :=
  Number (or (or (or edge axis) uniform) (Some (Px (JS.of_Z 0)))).

(** [updateContentStyle] on a source whose paddings may be anything.  The
    four paddings it writes are numbers; the other keys of the target stay
    as they are. *)
Definition updateContentStyle (contentStyle : ContentStyle)
    (contentContainerStyleSource : option AnyViewStyle) : ContentStyle :=
  let s := contentContainerStyleSource ?? emptyAnyStyle in
  {| paddingLeft :=
       Some (resolve (a_paddingLeft s) (a_paddingHorizontal s) (a_padding s));
     paddingRight :=
       Some (resolve (a_paddingRight s) (a_paddingHorizontal s) (a_padding s));
     paddingTop :=
       Some (resolve (a_paddingTop s) (a_paddingVertical s) (a_padding s));
     paddingBottom :=
       Some (resolve (a_paddingBottom s) (a_paddingVertical s) (a_padding s));
     backgroundColor := a_backgroundColor s;
     padding := padding contentStyle;
     paddingVertical := paddingVertical contentStyle;
     paddingHorizontal := paddingHorizontal contentStyle;
     rest := rest contentStyle |}.

(** A possibly missing padding that is a number where it is present. *)
Definition numberOrMissing (v : option DimensionValue) : bool :=
  match v with
  | Some (NotNumber _) => false
  | _ => true
  end.

(** A source all of whose paddings are numbers where they are present. *)
Definition numericPaddings (source : option AnyViewStyle) : bool :=
  match source with
  | None => true
  | Some s =>
      numberOrMissing (a_paddingTop s) && numberOrMissing (a_paddingRight s)
      && numberOrMissing (a_paddingBottom s) && numberOrMissing (a_paddingLeft s)
      && numberOrMissing (a_padding s) && numberOrMissing (a_paddingVertical s)
      && numberOrMissing (a_paddingHorizontal s)
  end.

(** One of the candidates is a truthy value that is not a number and that
    [Number(...)] turns into [NaN]. *)
Definition nanCandidate (candidates : list (option DimensionValue)) : Prop :=
  exists o,
    In (Some (NotNumber o)) candidates
    /\ ToBoolean o = true
    /\ JSMore.isNaN (ToNumber o) = true.

End Values.

(** What resolving once more makes of a resolved padding: the same number
    ([===]), or [0] where it was [NaN]. *)
Definition keptUnlessNaN (before after : number) : Prop :=
  if JSMore.isNaN before then after = JS.of_Z 0
  else JS.strict_eq after before = true.

End DimensionValues.

(** ** src/FlashList.tsx, further methods *)
Module FlashListMethods.

Import GridLayoutProviderWithProps FlashList.

(** How a call ends that may read a property of [null]: it returns, or it
    throws a [TypeError]. *)
Inductive Outcome (A : Type) : Type :=
  | Done (a : A)
  | TypeError.

Arguments Done {A} a.
Arguments TypeError {A}.

(** [WindowCorrectionConfig] of recyclerlistview. *)
Record WindowCorrectionConfig : Type := mkWindowCorrectionConfig {
  windowShift : number;
  startCorrection : number;
  endCorrection : number;
  applyToItemScroll : bool;
  applyToInitialOffset : bool;
}.

(** [event.nativeEvent.layout] of a [LayoutChangeEvent]. *)
Record LayoutRectangle : Type := mkLayoutRectangle {
  layout_x : number;
  layout_y : number;
  layout_width : number;
  layout_height : number;
}.

(** The part of the [RecyclerListView] behind [rlvRef] that [scrollToIndex]
    reads: [getLayout(index)] and [getRenderedSize()]. *)
Record RecyclerListView : Type := mkRecyclerListView {
  rlv_getLayout : Z -> option Layout;
  rlv_getRenderedSize : option Dimension;
}.

(** The argument of [scrollToIndex]. *)
Record ScrollToIndexParams : Type := mkScrollToIndexParams {
  animated : option bool;
  index : Z;
  viewOffset : option number;
  viewPosition : option number;
}.

(** A call [rlvRef.scrollToOffset(x, y, animate, true)]. *)
Record ScrollToOffsetCall : Type := mkScrollToOffsetCall {
  call_x : number;
  call_y : number;
  call_animate : bool;
}.

Section Methods.

(** The item type, the type of [extraData] and the type of [renderItem]. *)
Context {T E R : Type}.

(** Further properties of [FlashListProps<T>], read by the methods below. *)
Record MoreProps : Type := mkMoreProps {
  renderItem : option R;
  initialScrollIndex : option number;
  ItemSeparatorComponent : option unit;
  onLoad : option unit;
  onLayout : option unit;
  disableHorizontalListHeightMeasurement : option bool;
}.

(** [FlashListState<T>] with all its fields: the three of [FlashListState],
    the rows of the data provider, the [extraData] wrapper ([None] when
    there is none, [Some v] for [{ value: v }]) and [renderItem]. *)
Record FullState : Type := mkFullState {
  core : @FlashListState T E;
  dataProvider : list T;
  state_extraData : option (option E);
  state_renderItem : option R;
}.

(** The state that the constructor sets up. *)
Definition initialState : FullState :=
  {| core := getInitialMutableState;
     dataProvider := [];
     state_extraData := None;
     state_renderItem := None |}.

(** What [getDerivedStateFromProps] returns, with the value it assigns to
    [shouldRefreshWithAnchoring] of the layout provider of the new state (a
    field of the superclass). *)
Record Derived : Type := mkDerived {
  newState : FullState;
  shouldRefreshWithAnchoring : bool;
}.

(** [getDerivedStateFromProps].  The three comparisons of references,
    [nextProps.data !== prevState.data],
    [nextProps.renderItem !== prevState.renderItem] and
    [nextProps.extraData !== prevState.extraData?.value], are inputs.
    [updateProps] writes to the provider of the previous state, which the
    new state shares unless a new one is built.  The only failure shown is
    the one of this file, reading [updateProps] of a provider that is
    [null]; [nextProps.data] is an array where it differs from the data of
    the state, and what [cloneWithRows] of recyclerlistview does with
    [null] is not part of the model. *)
Definition getDerivedStateFromProps (nextProps : FlashListProps T E)
    (more : MoreProps) (prevState : FullState)
    (dataChanged renderItemChanged extraDataChanged : bool)
    : Outcome Derived :=
  let prev := core prevState in
  let providers :
    Outcome (number
             * @GridLayoutProviderWithProps T E
             * option (@GridLayoutProviderWithProps T E)) :=
    if JS.strict_neq_opt (Some (state_numColumns prev)) (numColumns nextProps)
    then
      let columns := JS.Number (numColumns nextProps ||? Some (JS.of_Z 1)) in
      Done (columns, getLayoutProvider columns nextProps,
            state_layoutProvider prev)
    else
      match state_layoutProvider prev with
      | None => TypeError
      | Some provider =>
          let updated := updateProps nextProps provider in
          if hasExpired updated
          then Done (state_numColumns prev,
                     getLayoutProvider (state_numColumns prev) nextProps,
                     Some updated)
          else Done (state_numColumns prev, updated, Some updated)
      end in
  match providers with
  | TypeError => TypeError
  | Done (columns, provider, previous) =>
      let wrapper :=
        if dataChanged && renderItemChanged
        then Some (match state_extraData prevState with
                   | Some v => v
                   | None => None
                   end)
        else state_extraData prevState in
      Done
        {| newState :=
             {| core :=
                  {| state_data :=
                       if dataChanged then Some (data nextProps)
                       else state_data prev;
                     state_layoutProvider := Some provider;
                     state_numColumns := columns |};
                dataProvider :=
                  if dataChanged then data nextProps
                  else dataProvider prevState;
                state_extraData :=
                  if extraDataChanged then Some (extraData nextProps)
                  else wrapper;
                state_renderItem := renderItem more |};
           shouldRefreshWithAnchoring :=
             match previous with
             | Some provider => negb (hasExpired provider)
             | None => true
             end |}
  end.

(** A state as [getDerivedStateFromProps] leaves it: it has a layout
    provider, whose maximal span is [numColumns] of the state, and
    [numColumns] is truthy. *)
Definition rendered (s : FullState) : Prop :=
  exists provider,
    state_layoutProvider (core s) = Some provider
    /\ maxSpan provider = state_numColumns (core s)
    /\ JS.truthy (state_numColumns (core s)) = true.

(** [isInitialScrollIndexInFirstRow]. *)
Definition isInitialScrollIndexInFirstRow (more : MoreProps)
    (state : FullState) : bool :=
  JSMore.lt (initialScrollIndex more ?? state_numColumns (core state))
    (state_numColumns (core state)).

(** The local [initialOffset] of [render]:
    [(this.isInitialScrollIndexInFirstRow() && this.distanceFromWindow) || undefined]. *)
Definition initialOffset (more : MoreProps) (state : FullState)
    (distanceFromWindow : number) : option number :=
  if isInitialScrollIndexInFirstRow more state
  then (if JS.truthy distanceFromWindow then Some distanceFromWindow else None)
  else None.

(** The property [initialRenderIndex] that [render] passes on:
    [(!this.isInitialScrollIndexInFirstRow() && initialScrollIndex) || undefined]. *)
Definition initialRenderIndex (more : MoreProps) (state : FullState)
    : option number :=
  if negb (isInitialScrollIndexInFirstRow more state)
  then (if JS.truthy_opt (initialScrollIndex more)
        then initialScrollIndex more else None)
  else None.

(** [getUpdatedWindowCorrectionConfig]: the configuration object after the
    call, which is also the result. *)
Definition getUpdatedWindowCorrectionConfig (more : MoreProps)
    (state : FullState) (distanceFromWindow : number)
    (config : WindowCorrectionConfig) : WindowCorrectionConfig :=
  {| windowShift := JSMore.neg distanceFromWindow;
     startCorrection := startCorrection config;
     endCorrection := endCorrection config;
     applyToItemScroll := applyToItemScroll config;
     applyToInitialOffset :=
       if isInitialScrollIndexInFirstRow more state then false else true |}.

(** The local [scrollOffset] of [scrollToIndex]. *)
Definition scrollOffset (itemOffset fixedDimension itemSize : number)
    (params : ScrollToIndexParams) : number :=
  JS.sub
    (JS.max (JS.of_Z 0)
       (JS.sub itemOffset
          (JS.mul (viewPosition params ?? JS.of_Z 0)
             (JS.sub fixedDimension itemSize))))
    (viewOffset params ?? JS.of_Z 0).

(** [scrollToIndex]: the call of [scrollToOffset] it makes on [rlvRef], if
    any. *)
Definition scrollToIndex (horizontal : option bool)
    (rlvRef : option RecyclerListView) (params : ScrollToIndexParams)
    : option ScrollToOffsetCall :=
  match rlvRef with
  | None => None
  | Some rlv =>
      match rlv_getLayout rlv (index params), rlv_getRenderedSize rlv with
      | Some layout, Some listSize =>
          let itemOffset := if JS.Boolean horizontal then x layout else y layout in
          let fixedDimension :=
            if JS.Boolean horizontal then width listSize else height listSize in
          let itemSize :=
            if JS.Boolean horizontal then width layout else height layout in
          let offset := scrollOffset itemOffset fixedDimension itemSize params in
          Some {| call_x := offset;
                  call_y := offset;
                  call_animate := JS.Boolean (animated params) |}
      | _, _ => None
      end
  end.

(** The props that [separator] gives to the separator component. *)
Record SeparatorProps : Type := mkSeparatorProps {
  leadingItem : option T;
  trailingItem : option T;
}.

(** [separator]: the props of the separator element it returns, if it
    returns one.  [data] is [this.props.data] as this method reads it, which
    may be [null] or [undefined]. *)
Definition separator (data : option (list T)) (more : MoreProps) (index : Z)
    : option SeparatorProps :=
  match data with
  | None => None
  | Some items =>
      if (index + 1 >=? Z.of_nat (length items))%Z then None
      else
        match ItemSeparatorComponent more with
        | Some _ =>
            Some {| leadingItem := array_get items index;
                    trailingItem := array_get items (index + 1) |}
        | None => None
        end
  end.

(** [getComponentForHeightMeasurement]: the index of the row it renders for
    measurement, if it renders one; [size] is [dataProvider.getSize()]. *)
Definition getComponentForHeightMeasurement (props : FlashListProps T E)
    (more : MoreProps) (isListLoaded : bool) (size : nat) : option Z :=
  if JS.Boolean (horizontal props)
     && negb (JS.Boolean (disableHorizontalListHeightMeasurement more))
     && negb isListLoaded
     && (0 <? Z.of_nat size)%Z
  then Some (Z.min (Z.of_nat size - 1) 1)
  else None.

(** The fields of a component that the methods below read and write, and
    what they do to the outside: [timeouts] counts the calls of
    [setTimeout] (the count is the id of the next timer), [onLoadCalls]
    lists the [elapsedTimeInMs] of the calls of [onLoad], [rerenders]
    counts the calls of [forceRerender] and [onLayoutCalls] those of
    [onLayout]. *)
Record Instance : Type := mkInstance {
  props : FlashListProps T E;
  more : MoreProps;
  loadStartTime : number;
  listFixedDimensionSize : number;
  distanceFromWindow : number;
  isListLoaded : bool;
  windowCorrectionConfig : WindowCorrectionConfig;
  postLoadTimeoutId : option nat;
  itemSizeWarningTimeoutId : option nat;
  renderedSizeWarningTimeoutId : option nat;
  timeouts : nat;
  onLoadCalls : list number;
  rerenders : nat;
  onLayoutCalls : nat;
}.

(** The component that the constructor returns, with the field initialisers
    of the class for the other fields. *)
Definition ofConstructed (more : MoreProps) (c : @FlashList.FlashList T E)
    : Instance :=
  {| props := this_props c;
     more := more;
     loadStartTime := FlashList.loadStartTime c;
     listFixedDimensionSize := FlashList.listFixedDimensionSize c;
     distanceFromWindow := FlashList.distanceFromWindow c;
     isListLoaded := false;
     windowCorrectionConfig :=
       {| windowShift := JS.of_Z 0;
          startCorrection := JS.of_Z 0;
          endCorrection := JS.of_Z 0;
          applyToItemScroll := true;
          applyToInitialOffset := true |};
     postLoadTimeoutId := None;
     itemSizeWarningTimeoutId := None;
     renderedSizeWarningTimeoutId := None;
     timeouts := 0;
     onLoadCalls := [];
     rerenders := 0;
     onLayoutCalls := 0 |}.

(** [runAfterOnLoad]. *)
Definition runAfterOnLoad (this : Instance) : Instance :=
  let warned :=
    match estimatedItemSize (props this) with
    | None => true
    | Some _ => false
    end in
  let afterWarning := if warned then S (timeouts this) else timeouts this in
  {| props := props this;
     more := more this;
     loadStartTime := loadStartTime this;
     listFixedDimensionSize := listFixedDimensionSize this;
     distanceFromWindow := distanceFromWindow this;
     isListLoaded := isListLoaded this;
     windowCorrectionConfig := windowCorrectionConfig this;
     postLoadTimeoutId := Some afterWarning;
     itemSizeWarningTimeoutId :=
       if warned then Some (timeouts this) else itemSizeWarningTimeoutId this;
     renderedSizeWarningTimeoutId := renderedSizeWarningTimeoutId this;
     timeouts := S afterWarning;
     onLoadCalls := onLoadCalls this;
     rerenders := rerenders this;
     onLayoutCalls := onLayoutCalls this |}.

(** [raiseOnLoadEventIfNeeded]; [now] is the value of [Date.now()]. *)
Definition raiseOnLoadEventIfNeeded (now : number) (this : Instance)
    : Instance :=
  if isListLoaded this then this
  else
    runAfterOnLoad
      {| props := props this;
         more := more this;
         loadStartTime := loadStartTime this;
         listFixedDimensionSize := listFixedDimensionSize this;
         distanceFromWindow := distanceFromWindow this;
         isListLoaded := true;
         windowCorrectionConfig := windowCorrectionConfig this;
         postLoadTimeoutId := postLoadTimeoutId this;
         itemSizeWarningTimeoutId := itemSizeWarningTimeoutId this;
         renderedSizeWarningTimeoutId := renderedSizeWarningTimeoutId this;
         timeouts := timeouts this;
         onLoadCalls :=
           match onLoad (more this) with
           | Some _ => onLoadCalls this ++ [JS.sub now (loadStartTime this)]
           | None => onLoadCalls this
           end;
         rerenders := rerenders this;
         onLayoutCalls := onLayoutCalls this |}.

(** [componentDidMount]; the data are those of the props. *)
Definition componentDidMount (now : number) (this : Instance) : Instance :=
  if (length (data (props this)) =? 0)%nat
  then raiseOnLoadEventIfNeeded now this
  else this.

(** [onItemLayout], on the component and the layout provider of its state. *)
Definition onItemLayout (index : Z) (now : number)
    (this : Instance * @GridLayoutProviderWithProps T E)
    : Instance * @GridLayoutProviderWithProps T E :=
  (raiseOnLoadEventIfNeeded now this.1, reportItemLayout index this.2).

(** [validateListSize]: [clearRenderSizeWarningTimeout], then a new timer
    where the list is too small to be used. *)
Definition validateListSize (layout : LayoutRectangle) (this : Instance)
    : Instance :=
  let small :=
    JSMore.le (JSMore.floor (layout_height layout)) (JS.of_Z 1)
    || JSMore.le (JSMore.floor (layout_width layout)) (JS.of_Z 1) in
  {| props := props this;
     more := more this;
     loadStartTime := loadStartTime this;
     listFixedDimensionSize := listFixedDimensionSize this;
     distanceFromWindow := distanceFromWindow this;
     isListLoaded := isListLoaded this;
     windowCorrectionConfig := windowCorrectionConfig this;
     postLoadTimeoutId := postLoadTimeoutId this;
     itemSizeWarningTimeoutId := itemSizeWarningTimeoutId this;
     renderedSizeWarningTimeoutId :=
       if small then Some (timeouts this) else None;
     timeouts := if small then S (timeouts this) else timeouts this;
     onLoadCalls := onLoadCalls this;
     rerenders := rerenders this;
     onLayoutCalls := onLayoutCalls this |}.

(** [handleSizeChange]; [hasRef] tells whether [rlvRef] is set. *)
Definition handleSizeChange (hasRef : bool) (layout : LayoutRectangle)
    (this : Instance) : Instance :=
  let this1 := validateListSize layout this in
  let newSize :=
    if JS.Boolean (horizontal (props this1))
    then layout_height layout else layout_width layout in
  let oldSize := listFixedDimensionSize this1 in
  {| props := props this1;
     more := more this1;
     loadStartTime := loadStartTime this1;
     listFixedDimensionSize := newSize;
     distanceFromWindow := distanceFromWindow this1;
     isListLoaded := isListLoaded this1;
     windowCorrectionConfig := windowCorrectionConfig this1;
     postLoadTimeoutId := postLoadTimeoutId this1;
     itemSizeWarningTimeoutId := itemSizeWarningTimeoutId this1;
     renderedSizeWarningTimeoutId := renderedSizeWarningTimeoutId this1;
     timeouts := timeouts this1;
     onLoadCalls := onLoadCalls this1;
     rerenders :=
       if JS.gt oldSize (JS.of_Z 0) && JS.strict_neq oldSize newSize && hasRef
       then S (rerenders this1) else rerenders this1;
     onLayoutCalls :=
       match onLayout (more this1) with
       | Some _ => S (onLayoutCalls this1)
       | None => onLayoutCalls this1
       end |}.

(** The instance after a sequence of size changes, first one first. *)
Fixpoint handleSizeChanges (hasRef : bool) (layouts : list LayoutRectangle)
    (this : Instance) : Instance :=
  match layouts with
  | [] => this
  | layout :: rest => handleSizeChanges hasRef rest (handleSizeChange hasRef layout this)
  end.

(** A call of [componentDidMount] or of [onItemLayout], with the value of
    [Date.now()] at the call. *)
Inductive LoadEvent : Type :=
  | DidMount (now : number)
  | ItemLayout (index : Z) (now : number).

(** The component and its layout provider after one such call. *)
Definition handle (e : LoadEvent)
    (this : Instance * @GridLayoutProviderWithProps T E)
    : Instance * @GridLayoutProviderWithProps T E :=
  match e with
  | DidMount now => (componentDidMount now this.1, this.2)
  | ItemLayout index now => onItemLayout index now this
  end.

(** The component and its layout provider after a sequence of such calls. *)
Fixpoint handleAll (es : list LoadEvent)
    (this : Instance * @GridLayoutProviderWithProps T E)
    : Instance * @GridLayoutProviderWithProps T E :=
  match es with
  | [] => this
  | e :: rest => handleAll rest (handle e this)
  end.

(** Whether a call gets as far as [raiseOnLoadEventIfNeeded]: one of
    [onItemLayout] always does, one of [componentDidMount] where the data
    of the props are empty. *)
Definition reachesOnLoad (props : FlashListProps T E) (e : LoadEvent) : bool :=
  match e with
  | DidMount _ => (length (data props) =? 0)%nat
  | ItemLayout _ _ => true
  end.

(** The value of [Date.now()] at a call. *)
Definition eventTime (e : LoadEvent) : number :=
  match e with
  | DidMount now => now
  | ItemLayout _ now => now
  end.

End Methods.

End FlashListMethods.

(** Props with another [style] and [contentContainerStyle]. *)
Definition withStyles {T E : Type} (flattened : list string)
    (container : option ViewStyle) (props : FlashListProps T E)
    : FlashListProps T E :=
  {| data := data props;
     extraData := extraData props;
     numColumns := numColumns props;
     horizontal := horizontal props;
     estimatedItemSize := estimatedItemSize props;
     contentContainerStyle := container;
     getItemType := getItemType props;
     overrideItemLayout := overrideItemLayout props;
     onRefresh := onRefresh props;
     refreshing := refreshing props;
     stickyHeaderIndices := stickyHeaderIndices props;
     style := flattened;
     estimatedListSize := estimatedListSize props;
     estimatedFirstItemOffset := estimatedFirstItemOffset props;
     ListHeaderComponent := ListHeaderComponent props |}.

(** ** Further concrete values *)
Module MoreFixtures.

(** [styleFourEdges] with [paddingTop: 50], [paddingBottom: 60] and a
    background colour. *)
Definition styleFourEdgesTaller : ViewStyle :=
  mkViewStyle (Some (JS.of_Z 50)) (Some (JS.of_Z 8)) (Some (JS.of_Z 60))
    (Some (JS.of_Z 4)) None None None (Some "red"%string) [].

(** [paddedProps] with another top and bottom padding and a background
    colour. *)
Definition paddedTallerProps : FlashListProps nat unit :=
  Fixtures.propsWith (Some (JS.of_Z 1)) None (Some (JS.of_Z 100))
    (Some (mkViewStyle (Some (JS.of_Z 50)) None (Some (JS.of_Z 60)) None
             (Some (JS.of_Z 10)) None None (Some "red"%string) []))
    None None RefreshingUndefined None.

(** A provider built from [paddedProps]. *)
Definition paddedProvider
    : @GridLayoutProviderWithProps.GridLayoutProviderWithProps nat unit :=
  FlashList.getLayoutProvider (JS.of_Z 1) Fixtures.paddedProps.

(** A manager that overrides the width of every entry with 150. *)
Definition halfWidthManager : LayoutManager :=
  {| getLayouts := [];
     getStyleOverridesForIndex :=
       fun _ => Some {| override_width := Some (JS.of_Z 150);
                        override_height := None |} |}.

(** A superclass whose new manager is [halfWidthManager]. *)
Definition halvingSuper
    (p : @GridLayoutProviderWithProps.GridLayoutProviderWithProps nat unit)
    (renderWindowSize : Dimension) (isHorizontal : option bool)
    (cachedLayouts : option (list Layout))
    : LayoutManager * option LayoutManager :=
  (halfWidthManager, Some halfWidthManager).

(** Further props: a separator component and [onLoad], nothing else. *)
Definition moreProps : @FlashListMethods.MoreProps unit :=
  {| FlashListMethods.renderItem := Some tt;
     FlashListMethods.initialScrollIndex := None;
     FlashListMethods.ItemSeparatorComponent := Some tt;
     FlashListMethods.onLoad := Some tt;
     FlashListMethods.onLayout := None;
     FlashListMethods.disableHorizontalListHeightMeasurement := None |}.

(** A state with the given provider and one column. *)
Definition stateWith
    (provider : @GridLayoutProviderWithProps.GridLayoutProviderWithProps nat unit)
    : @FlashListMethods.FullState nat unit unit :=
  {| FlashListMethods.core :=
       {| FlashList.state_data := Some [10; 20; 30]%nat;
          FlashList.state_layoutProvider := Some provider;
          FlashList.state_numColumns := JS.of_Z 1 |};
     FlashListMethods.dataProvider := [10; 20; 30]%nat;
     FlashListMethods.state_extraData := None;
     FlashListMethods.state_renderItem := Some tt |}.

(** A mounted list of height 600 that knows a row at offset 200 for index 3
    and no other. *)
Definition mountedList : FlashListMethods.RecyclerListView :=
  {| FlashListMethods.rlv_getLayout :=
       fun i =>
         if (i =? 3)%Z
         then Some {| dimension := {| height := JS.of_Z 40; width := JS.of_Z 300 |};
                      point := {| x := JS.of_Z 0; y := JS.of_Z 200 |};
                      isOverridden := None;
                      type := TypeNum (JS.of_Z 0) |}
         else None;
     FlashListMethods.rlv_getRenderedSize := Some Fixtures.viewport |}.

(** [{ index: 3 }]. *)
Definition toThird : FlashListMethods.ScrollToIndexParams :=
  {| FlashListMethods.animated := None;
     FlashListMethods.index := 3;
     FlashListMethods.viewOffset := None;
     FlashListMethods.viewPosition := None |}.

(** The component that the constructor returns for [plainProps] at time
    1000. *)
Definition plainComponent : @FlashList.FlashList nat unit :=
  {| FlashList.this_props := Fixtures.plainProps;
     FlashList.loadStartTime := JS.of_Z 1000;
     FlashList.listFixedDimensionSize := JS.of_Z 0;
     FlashList.distanceFromWindow := JS.of_Z 0;
     FlashList.state := FlashList.getInitialMutableState;
     FlashList.logged := [] |}.

(** Further props with [initialScrollIndex: 0]. *)
Definition scrollToFirst : @FlashListMethods.MoreProps unit :=
  {| FlashListMethods.renderItem := Some tt;
     FlashListMethods.initialScrollIndex := Some (JS.of_Z 0);
     FlashListMethods.ItemSeparatorComponent := None;
     FlashListMethods.onLoad := None;
     FlashListMethods.onLayout := None;
     FlashListMethods.disableHorizontalListHeightMeasurement := None |}.

(** A layout of the list of the given width and height. *)
Definition listLayout (w h : Z) : FlashListMethods.LayoutRectangle :=
  {| FlashListMethods.layout_x := JS.of_Z 0;
     FlashListMethods.layout_y := JS.of_Z 0;
     FlashListMethods.layout_width := JS.of_Z w;
     FlashListMethods.layout_height := JS.of_Z h |}.

(** [plainProps] with a [margin] in the container style and a flattened
    style with [flex]. *)
Definition styledProps : FlashListProps nat unit :=
  withStyles ["flex"%string]
    (Some (mkViewStyle None None None None (Some (JS.of_Z 10)) None None None
             ["margin"%string]))
    Fixtures.plainProps.

(** [plainProps] with a [getItemType] that names the first item a header
    and gives no type for the others. *)
Definition typedProps : FlashListProps nat unit :=
  {| data := [10; 20; 30]%nat;
     extraData := None;
     numColumns := Some (JS.of_Z 1);
     horizontal := None;
     estimatedItemSize := Some (JS.of_Z 100);
     contentContainerStyle := None;
     getItemType :=
       Some (fun _ i _ =>
               if (i =? 0)%Z then Some (TypeStr "header"%string) else None);
     overrideItemLayout := None;
     onRefresh := None;
     refreshing := RefreshingUndefined;
     stickyHeaderIndices := None;
     style := [];
     estimatedListSize := None;
     estimatedFirstItemOffset := None;
     ListHeaderComponent := None |}.

(** Three paddings that are strings: ['10%'], ['auto'] and ['12']. *)
Inductive PaddingString : Type :=
  | TenPercent
  | Auto
  | Twelve.

(** ToBoolean on these strings: none is empty. *)
Definition stringToBoolean (s : PaddingString) : bool := true.

(** [Number(...)] of these strings. *)
Definition stringToNumber (s : PaddingString) : number :=
  match s with
  | Twelve => JS.of_Z 12
  | TenPercent | Auto => JS.NaN
  end.

(** [{ padding: '10%', paddingTop: 5 }]. *)
Definition stylePercent : @DimensionValues.AnyViewStyle PaddingString :=
  DimensionValues.mkAnyViewStyle
    (Some (DimensionValues.Px (JS.of_Z 5))) None None None
    (Some (DimensionValues.NotNumber TenPercent)) None None None [].

(** [{ padding: '12', paddingLeft: NaN }]. *)
Definition styleTwelve : @DimensionValues.AnyViewStyle PaddingString :=
  DimensionValues.mkAnyViewStyle None None None
    (Some (DimensionValues.Px JS.NaN))
    (Some (DimensionValues.NotNumber Twelve)) None None None [].

(** [plainProps] with no data. *)
Definition emptyProps : FlashListProps nat unit :=
  {| data := [];
     extraData := None;
     numColumns := Some (JS.of_Z 1);
     horizontal := None;
     estimatedItemSize := Some (JS.of_Z 100);
     contentContainerStyle := None;
     getItemType := None;
     overrideItemLayout := None;
     onRefresh := None;
     refreshing := RefreshingUndefined;
     stickyHeaderIndices := None;
     style := [];
     estimatedListSize := None;
     estimatedFirstItemOffset := None;
     ListHeaderComponent := None |}.

(** The component that the constructor returns for [emptyProps] at time
    1000. *)
Definition emptyComponent : @FlashList.FlashList nat unit :=
  {| FlashList.this_props := emptyProps;
     FlashList.loadStartTime := JS.of_Z 1000;
     FlashList.listFixedDimensionSize := JS.of_Z 0;
     FlashList.distanceFromWindow := JS.of_Z 0;
     FlashList.state := FlashList.getInitialMutableState;
     FlashList.logged := [] |}.

End MoreFixtures.

(** * Properties *)

(** ** The inset resolver *)
Module InsetFacts.

Import ContentContainerUtils Precedence.

Lemma or_truthy (a b : option number) :
  JS.truthy_opt a = true -> a ||? b = a.
Proof. intros H. unfold JS.or. now rewrite H. Qed.

Lemma or_falsy (a b : option number) :
  JS.truthy_opt a = false -> a ||? b = b.
Proof. intros H. unfold JS.or. now rewrite H. Qed.

Lemma truthy_opt_some (a : option number) :
  JS.truthy_opt a = true -> exists n, a = Some n /\ JS.truthy n = true.
Proof. destruct a as [n|]; [eauto | discriminate]. Qed.

(** The chain [edge || axis || uniform || 0] picks the first truthy value. *)
Lemma or_chain_first_truthy (edge axis uniform : option number) :
  FirstTruthy edge axis uniform
    (JS.Number (edge ||? axis ||? uniform ||? Some (JS.of_Z 0))).
Proof.
  destruct (JS.truthy_opt edge) eqn:He.
  { rewrite !(or_truthy edge) by exact He.
    destruct (truthy_opt_some _ He) as (n & -> & Hn). now apply first_edge. }
  rewrite (or_falsy edge) by exact He.
  destruct (JS.truthy_opt axis) eqn:Ha.
  { rewrite !(or_truthy axis) by exact Ha.
    destruct (truthy_opt_some _ Ha) as (n & -> & Hn). now apply first_axis. }
  rewrite (or_falsy axis) by exact Ha.
  destruct (JS.truthy_opt uniform) eqn:Hu.
  { rewrite (or_truthy uniform) by exact Hu.
    destruct (truthy_opt_some _ Hu) as (n & -> & Hn). now apply first_uniform. }
  rewrite (or_falsy uniform) by exact Hu.
  now apply first_none.
Qed.

(** Where none of the three candidates is a falsy number, truthiness and
    defined-ness pick the same value. *)
Lemma or_chain_agrees_with_nullish (edge axis uniform : option number) :
  (forall n, edge = Some n -> JS.truthy n = true) ->
  (forall n, axis = Some n -> JS.truthy n = true) ->
  (forall n, uniform = Some n -> JS.truthy n = true) ->
  JS.Number (edge ||? axis ||? uniform ||? Some (JS.of_Z 0))
  = Spec.resolvePadding edge axis uniform.
Proof.
  intros He Ha Hu.
  destruct edge as [e|].
  { now rewrite !(or_truthy (Some e)) by (apply (He e eq_refl)). }
  rewrite (or_falsy None) by reflexivity.
  destruct axis as [a|].
  { now rewrite !(or_truthy (Some a)) by (apply (Ha a eq_refl)). }
  rewrite (or_falsy None) by reflexivity.
  destruct uniform as [u|].
  { now rewrite !(or_truthy (Some u)) by (apply (Hu u eq_refl)). }
  reflexivity.
Qed.

(** The four cases of property P3 of the specification. *)
Example p3_edge_beats_axis :
  paddingTop (updateContentStyle emptyStyle (Some Fixtures.styleEdgeAxisUniform))
  = Some (JS.of_Z 5).
Proof. reflexivity. Qed.

Example p3_axis_beats_uniform :
  paddingTop (updateContentStyle emptyStyle (Some Fixtures.styleAxisUniform))
  = Some (JS.of_Z 10).
Proof. reflexivity. Qed.

Example p3_uniform :
  paddingTop (updateContentStyle emptyStyle (Some Fixtures.styleUniform20))
  = Some (JS.of_Z 20).
Proof. reflexivity. Qed.

Example p3_empty :
  paddingTop (updateContentStyle emptyStyle (Some emptyStyle))
  = Some (JS.of_Z 0).
Proof. reflexivity. Qed.

(** C1, as stated, fails: for [{ paddingTop: 0, paddingVertical: 10 }] the
    resolver yields [paddingTop = 10], while the precedence by defined-ness
    [edge ?? axis ?? uniform ?? 0] yields the explicit [0]. *)
Lemma zero_edge_padding_falls_through :
  let s := Fixtures.styleZeroTop in
  paddingTop (updateContentStyle emptyStyle (Some s)) = Some (JS.of_Z 10)
  /\ Spec.resolvePadding (paddingTop s) (paddingVertical s) (padding s) = JS.of_Z 0
  /\ paddingTop (updateContentStyle emptyStyle (Some s))
     <> Some (Spec.resolvePadding (paddingTop s) (paddingVertical s) (padding s)).
Proof.
  repeat split; try reflexivity.
  vm_compute. intros H. discriminate H.
Qed.

(** C1, amended: for every target object and every source style (or none),
    each edge of the result holds the first truthy value among the edge
    padding, the axis padding and the uniform padding of the source, a
    padding that is undefined, [0] or [NaN] being skipped, and [0] when none
    is truthy; the background colour of the source passes through as it is. *)
Theorem updateContentStyle_first_truthy
    (contentStyle : ContentStyle) (source : option ContentStyle) :
  let s := source ?? emptyStyle in
  let r := updateContentStyle contentStyle source in
  (exists n, paddingTop r = Some n
             /\ FirstTruthy (paddingTop s) (paddingVertical s) (padding s) n)
  /\ (exists n, paddingBottom r = Some n
                /\ FirstTruthy (paddingBottom s) (paddingVertical s) (padding s) n)
  /\ (exists n, paddingLeft r = Some n
                /\ FirstTruthy (paddingLeft s) (paddingHorizontal s) (padding s) n)
  /\ (exists n, paddingRight r = Some n
                /\ FirstTruthy (paddingRight s) (paddingHorizontal s) (padding s) n)
  /\ backgroundColor r = backgroundColor s.
Proof.
  cbv zeta. unfold updateContentStyle. cbn [paddingTop paddingBottom paddingLeft
    paddingRight backgroundColor].
  repeat split; try (eexists; split; [reflexivity | apply or_chain_first_truthy]).
Qed.

(** C8: the call updates the object that [dim] refers to and returns [dim]
    itself; no other object of the store changes.  When [horizontal] is
    truthy the resolved top and bottom paddings are taken from the height
    and the width stays; otherwise the resolved left and right paddings are
    taken from the width and the height stays.
    [getContentContainerPadding] returns exactly the pair of that axis:
    top and bottom when horizontal, left and right otherwise. *)
Theorem applyInset_updates_dim_in_place
    (st : store) (dim : ref) (d : Dimension)
    (style : option ViewStyle) (horizontal : option bool) :
  st !! dim = Some d ->
  let resolved := asExplicit (updateContentStyle emptyStyle style) in
  let out := applyContentContainerInsetForLayoutManager st dim style horizontal in
  out.2 = dim
  /\ (forall other, other <> dim -> out.1 !! other = st !! other)
  /\ out.1 !! dim
     = Some (if JS.Boolean horizontal
             then {| height := JS.sub (height d)
                                 (JS.add (e_paddingTop resolved) (e_paddingBottom resolved));
                     width := width d |}
             else {| height := height d;
                     width := JS.sub (width d)
                                (JS.add (e_paddingLeft resolved) (e_paddingRight resolved)) |})
  /\ getContentContainerPadding resolved horizontal
     = (if JS.Boolean horizontal
        then PaddingTopBottom (e_paddingTop resolved) (e_paddingBottom resolved)
        else PaddingLeftRight (e_paddingLeft resolved) (e_paddingRight resolved)).
Proof.
  intros Hd. cbv zeta.
  unfold applyContentContainerInsetForLayoutManager. cbn [fst snd].
  split; [reflexivity|]. split.
  { intros other Hne. now rewrite lookup_alter_ne by congruence. }
  split.
  - rewrite lookup_alter_eq, Hd. cbn [fmap option_fmap option_map].
    unfold applyInsetToFields. now destruct (JS.Boolean horizontal).
  - reflexivity.
Qed.

(** C8 at Scenario B of the specification: [padding: 10] on a vertical list
    takes [20] from a width of [300], in the object passed in, and the pair
    returned is left and right. *)
Lemma applyInset_updates_dim_in_place_witness :
  let out :=
    applyContentContainerInsetForLayoutManager Fixtures.twoObjects 1%positive
      (Some Fixtures.styleUniform10) (Some false) in
  Fixtures.twoObjects !! 1%positive = Some Fixtures.viewport
  /\ out.2 = 1%positive
  /\ out.1 !! 1%positive
     = Some {| height := JS.of_Z 600;
               width := JS.sub (JS.of_Z 300) (JS.add (JS.of_Z 10) (JS.of_Z 10)) |}
  /\ out.1 !! 2%positive = Fixtures.twoObjects !! 2%positive
  /\ getContentContainerPadding
       (asExplicit (updateContentStyle emptyStyle (Some Fixtures.styleUniform10)))
       (Some false)
     = PaddingLeftRight (JS.of_Z 10) (JS.of_Z 10).
Proof.
  cbv zeta. split; [reflexivity|].
  destruct (applyInset_updates_dim_in_place Fixtures.twoObjects 1%positive
              Fixtures.viewport (Some Fixtures.styleUniform10) (Some false)
              eq_refl) as (H1 & H2 & H3 & H4).
  split; [exact H1|]. split; [exact H3|].
  split; [apply H2; discriminate | exact H4].
Defined.

End InsetFacts.

(** ** Arrays *)
Module ArrayFacts.

Lemma array_get_set_eq {A : Type} (arr : list A) (index : Z) (old v : A) :
  array_get arr index = Some old ->
  array_get (array_set arr index v) index = Some v.
Proof.
  unfold array_get, array_set. destruct (index <? 0)%Z; [discriminate|].
  intros H. apply list_lookup_insert_eq. eapply lookup_lt_Some, H.
Qed.

Lemma array_get_set_ne {A : Type} (arr : list A) (index other : Z) (v : A) :
  other <> index ->
  array_get (array_set arr index v) other = array_get arr other.
Proof.
  unfold array_get, array_set. intros Hne.
  destruct (Z.ltb_spec other 0); [reflexivity|].
  destruct (Z.ltb_spec index 0); [reflexivity|].
  apply list_lookup_insert_ne. lia.
Qed.

End ArrayFacts.

(** ** The grid layout provider *)
Module ProviderFacts.

Import ContentContainerUtils GridLayoutProviderWithProps ArrayFacts.

Section Facts.

Context {T E : Type}.
Variable decay : number -> number -> list number -> number.
Variable super_newLayoutManager :
  @GridLayoutProviderWithProps T E -> Dimension -> option bool ->
  option (list Layout) -> LayoutManager * option LayoutManager.

Implicit Types (p : @GridLayoutProviderWithProps T E) (c : @Call T E).

Local Abbreviation perform := (perform decay super_newLayoutManager).
Local Abbreviation run := (run decay super_newLayoutManager).
Local Abbreviation newLayoutManager := (newLayoutManager decay super_newLayoutManager).

(** What [newLayoutManager] leaves of the provider: only the estimator and
    the manager of the superclass change. *)
Lemma newLayoutManager_provider renderWindowSize isHorizontal cachedLayouts p :
  exists window last,
    (newLayoutManager renderWindowSize isHorizontal cachedLayouts p).1.1
    = set_getLayoutManager last (set_averageWindow window p)
    /\ window
       = AverageWindow.new
           (JS.mul
              (JS.mul (JS.of_Z 2)
                 (JS.Number (numColumns (props p) ||? Some (JS.of_Z 1))))
              (estimatedItemCount p renderWindowSize))
           (AverageWindow.currentValue decay (averageWindow p)).
Proof.
  unfold GridLayoutProviderWithProps.newLayoutManager.
  destruct (super_newLayoutManager _ _ _ _) as [manager last].
  eexists _, last. split; reflexivity.
Qed.

Lemma reportItemLayout_cases index p :
  reportItemLayout index p = p
  \/ exists manager window,
       reportItemLayout index p
       = set_averageWindow window (set_getLayoutManager manager p).
Proof.
  unfold reportItemLayout.
  destruct (getLayoutManager p) as [m|]; [|now left].
  destruct (array_get _ _); [|now left].
  right. eexists _, _. reflexivity.
Qed.

Lemma perform_keeps_expired c p :
  hasExpired p = true -> hasExpired (perform c p) = true.
Proof.
  unfold hasExpired. intros Hp. destruct c as [newProps| |index|rws isH cached].
  - cbn. now rewrite Hp.
  - reflexivity.
  - cbn [GridLayoutProviderWithProps.perform].
    destruct (reportItemLayout_cases index p) as [->|(m & w & ->)]; exact Hp.
  - cbn [GridLayoutProviderWithProps.perform].
    destruct (newLayoutManager_provider rws isH cached p) as (w & l & -> & _).
    exact Hp.
Qed.

(** C3: once [hasExpired] is true, it is true after every further sequence
    of [updateProps], [markExpired], [reportItemLayout] and
    [newLayoutManager] calls, whatever their arguments. *)
Theorem hasExpired_stays_true (cs : list Call) p :
  hasExpired p = true -> hasExpired (run cs p) = true.
Proof.
  revert p. induction cs as [|c cs IH]; intros p Hp.
  - exact Hp.
  - cbn [GridLayoutProviderWithProps.run]. apply IH, perform_keeps_expired, Hp.
Qed.

(** C4: where the layout manager has an entry for [index],
    [reportItemLayout] sets [isOverridden] of that entry and leaves the rest
    of it and every other entry as they are, adds the width of the entry
    (horizontal list) or its height (otherwise) to the average window, and
    changes nothing else of the provider; where there is no entry, because
    the index is outside the array or there is no layout manager, the
    provider is unchanged.  The call always returns. *)
Theorem reportItemLayout_marks_and_feeds (index : Z) p :
  let p' := reportItemLayout index p in
  match currentEntry p index with
  | Some layout =>
      (exists layout',
          currentEntry p' index = Some layout'
          /\ isOverridden layout' = Some true
          /\ dimension layout' = dimension layout
          /\ point layout' = point layout
          /\ type layout' = type layout)
      /\ (forall other, other <> index ->
            currentEntry p' other = currentEntry p other)
      /\ averageWindow p'
         = AverageWindow.addValue
             (if JS.Boolean (horizontal (props p))
              then width layout else height layout)
             (averageWindow p)
      /\ props p' = props p
      /\ hasExpired p' = hasExpired p
      /\ renderWindowInsets p' = renderWindowInsets p
      /\ layoutObject p' = layoutObject p
  | None => p' = p
  end.
Proof.
  cbv zeta. unfold currentEntry, reportItemLayout.
  destruct (getLayoutManager p) as [manager|] eqn:Hm; [|reflexivity].
  destruct (array_get (getLayouts manager) index) as [layout|] eqn:Hl;
    [|reflexivity].
  cbn. split; [|split].
  - exists (set_isOverridden layout). split; [|now repeat split].
    eapply array_get_set_eq, Hl.
  - intros other Hne. now apply array_get_set_ne.
  - repeat split.
Qed.

(** C5, the case in which the specification's formula applies. *)
Lemma windowSize_as_specified renderWindowSize isHorizontal cachedLayouts p n s :
  numColumns (props p) = Some n -> JS.truthy n = true ->
  estimatedItemSize (props p) = Some s ->
  AverageWindow.windowSize
    (averageWindow (newLayoutManager renderWindowSize isHorizontal cachedLayouts p).1.1)
  = Spec.windowSize (props p) renderWindowSize.
Proof.
  intros Hn Ht Hs.
  destruct (newLayoutManager_provider renderWindowSize isHorizontal cachedLayouts p)
    as (w & l & -> & ->).
  cbn. unfold Spec.windowSize, estimatedItemCount, JS.or.
  rewrite Hn, Hs. cbn. now rewrite Ht.
Qed.

(** C5, amended: every call of [newLayoutManager] replaces the estimator by
    a new [AverageWindow] without samples, whose window size is
    [2 * n * max(3, round(size / e))] and whose seed is the current value of
    the estimator it replaces; here [n] is [numColumns], or [1] when
    [numColumns] is undefined, [0] or [NaN]; [e] is [estimatedItemSize], or
    [defaultEstimatedItemSize] when that is undefined; and [size] is the
    width of the render window for a horizontal list and its height
    otherwise. *)
Theorem newLayoutManager_reseeds_estimator
    (renderWindowSize : Dimension) (isHorizontal : option bool)
    (cachedLayouts : option (list Layout)) p :
  let n :=
    match numColumns (props p) with
    | Some c => if JS.truthy c then c else JS.of_Z 1
    | None => JS.of_Z 1
    end in
  let e :=
    match estimatedItemSize (props p) with
    | Some s => s
    | None => defaultEstimatedItemSize p
    end in
  let size :=
    if JS.Boolean (horizontal (props p))
    then width renderWindowSize else height renderWindowSize in
  averageWindow (newLayoutManager renderWindowSize isHorizontal cachedLayouts p).1.1
  = AverageWindow.new
      (JS.mul (JS.mul (JS.of_Z 2) n)
         (JS.max (JS.of_Z 3) (JS.round (JS.div size e))))
      (AverageWindow.currentValue decay (averageWindow p)).
Proof.
  cbv zeta.
  destruct (newLayoutManager_provider renderWindowSize isHorizontal cachedLayouts p)
    as (w & l & -> & ->).
  cbn. unfold estimatedItemCount, JS.or, JS.nullish.
  destruct (numColumns (props p)) as [c|]; cbn; [|reflexivity].
  now destruct (JS.truthy c).
Qed.

(** C6: [updateProps] returns the provider it was called on, with the new
    props and the new insets stored and everything else but [hasExpired] as
    before.  The new insets are those of an empty dimension: minus the
    resolved top and bottom paddings in height on a horizontal list, minus
    the resolved left and right paddings in width otherwise.  [hasExpired]
    is true afterwards exactly when it was true before, or the stored
    [numColumns] and the new one differ ([!==]), or the height or the width
    of the new insets differs from the stored one. *)
Theorem updateProps_expires_on_change (newProps : FlashListProps T E) p :
  let resolved :=
    asExplicit (updateContentStyle emptyStyle (contentContainerStyle newProps)) in
  let insets :=
    if JS.Boolean (horizontal newProps)
    then {| height := JS.sub (JS.of_Z 0)
                        (JS.add (e_paddingTop resolved) (e_paddingBottom resolved));
            width := JS.of_Z 0 |}
    else {| height := JS.of_Z 0;
            width := JS.sub (JS.of_Z 0)
                       (JS.add (e_paddingLeft resolved) (e_paddingRight resolved)) |} in
  let p' := updateProps newProps p in
  (hasExpired p' = true
   <-> hasExpired p = true
       \/ JS.strict_neq_opt (numColumns (props p)) (numColumns newProps) = true
       \/ JS.strict_neq (height insets) (height (renderWindowInsets p)) = true
       \/ JS.strict_neq (width insets) (width (renderWindowInsets p)) = true)
  /\ p' = set_props newProps
            (set_renderWindowInsets insets (set_hasExpired (hasExpired p') p)).
Proof.
  cbv zeta.
  assert (Hinsets :
    applyInsetToFields {| height := JS.of_Z 0; width := JS.of_Z 0 |}
      (contentContainerStyle newProps) (Some (JS.Boolean (horizontal newProps)))
    = if JS.Boolean (horizontal newProps)
      then {| height :=
                JS.sub (JS.of_Z 0)
                  (JS.add
                     (e_paddingTop
                        (asExplicit
                           (updateContentStyle emptyStyle
                              (contentContainerStyle newProps))))
                     (e_paddingBottom
                        (asExplicit
                           (updateContentStyle emptyStyle
                              (contentContainerStyle newProps)))));
              width := JS.of_Z 0 |}
      else {| height := JS.of_Z 0;
              width :=
                JS.sub (JS.of_Z 0)
                  (JS.add
                     (e_paddingLeft
                        (asExplicit
                           (updateContentStyle emptyStyle
                              (contentContainerStyle newProps))))
                     (e_paddingRight
                        (asExplicit
                           (updateContentStyle emptyStyle
                              (contentContainerStyle newProps))))) |}).
  { unfold applyInsetToFields. cbn [JS.Boolean].
    now destruct (JS.Boolean (horizontal newProps)). }
  unfold updateProps, hasExpired. rewrite Hinsets.
  split; [|reflexivity].
  cbn [_hasExpired set_props set_renderWindowInsets set_hasExpired].
  rewrite !orb_true_iff. clear. tauto.
Qed.

(** The three lookups do not depend on what the scratch record holds. *)
Lemma lookups_ignore_scratch (scratch : MutableLayout) (i : Z) p :
  layoutTypeForIndex i (set_layoutObject scratch p) = layoutTypeForIndex i p
  /\ spanForIndex i (set_layoutObject scratch p) = spanForIndex i p
  /\ heightOrWidthForIndex decay i (set_layoutObject scratch p)
     = heightOrWidthForIndex decay i p.
Proof. repeat split. Qed.

(** A lookup changes nothing of the provider but the scratch record. *)
Lemma lookups_touch_scratch_only (i : Z) p :
  (layoutTypeForIndex i p).2 = set_layoutObject (layoutObject (layoutTypeForIndex i p).2) p
  /\ (spanForIndex i p).2 = set_layoutObject (layoutObject (spanForIndex i p).2) p
  /\ (heightOrWidthForIndex decay i p).2
     = set_layoutObject (layoutObject (heightOrWidthForIndex decay i p).2) p.
Proof.
  unfold layoutTypeForIndex, spanForIndex, heightOrWidthForIndex.
  cbn.
  destruct (getLayoutType p i (props p) _), (getSpan p i (props p) _),
    (getHeightOrWidth p i (props p) _).
  repeat split.
Qed.

(** C9: each of the three lookups hands the host callback the scratch
    record with [span] and [size] undefined, whatever the record held
    before, and changes nothing of the provider but that record; so the
    result of a lookup is the same after any earlier lookup as without it.
    The size lookup returns the size the host callback returned when there
    is one, and the current value of the estimator otherwise. *)
Theorem lookups_start_from_clean_scratch (i j : Z) (scratch : MutableLayout) p :
  let clean := {| span := None; size := None |} in
  let q := set_layoutObject scratch p in
  layoutTypeForIndex i q
  = (let '(r, s) := getLayoutType p i (props p) clean in (r, set_layoutObject s p))
  /\ spanForIndex i q
     = (let '(r, s) := getSpan p i (props p) clean in (r, set_layoutObject s p))
  /\ heightOrWidthForIndex decay i q
     = (let '(r, s) := getHeightOrWidth p i (props p) clean in
        (match r with
         | Some override => override
         | None => AverageWindow.currentValue decay (averageWindow p)
         end,
         set_layoutObject s p))
  /\ (layoutTypeForIndex i (spanForIndex j q).2).1 = (layoutTypeForIndex i p).1
  /\ (spanForIndex i (heightOrWidthForIndex decay j q).2).1 = (spanForIndex i p).1
  /\ (heightOrWidthForIndex decay i (spanForIndex j q).2).1
     = (heightOrWidthForIndex decay i p).1
  /\ (heightOrWidthForIndex decay i (layoutTypeForIndex j q).2).1
     = (heightOrWidthForIndex decay i p).1.
Proof.
  cbv zeta.
  assert (Hspan : forall k r, (spanForIndex k r).2
            = set_layoutObject (layoutObject (spanForIndex k r).2) r)
    by (intros; apply (lookups_touch_scratch_only k r)).
  assert (Htype : forall k r, (layoutTypeForIndex k r).2
            = set_layoutObject (layoutObject (layoutTypeForIndex k r).2) r)
    by (intros; apply (lookups_touch_scratch_only k r)).
  assert (Hsize : forall k r, (heightOrWidthForIndex decay k r).2
            = set_layoutObject (layoutObject (heightOrWidthForIndex decay k r).2) r)
    by (intros; apply (lookups_touch_scratch_only k r)).
  split; [|split; [|split; [|split; [|split; [|split]]]]].
  - unfold layoutTypeForIndex. cbn.
    now destruct (getLayoutType p i (props p) _).
  - unfold spanForIndex. cbn. now destruct (getSpan p i (props p) _).
  - unfold heightOrWidthForIndex, averageItemSize. cbn.
    destruct (getHeightOrWidth p i (props p) _) as [[r|] s]; reflexivity.
  - rewrite Hspan. reflexivity.
  - rewrite Hsize. reflexivity.
  - rewrite Hspan. reflexivity.
  - rewrite Htype. reflexivity.
Qed.

Lemma perform_keeps_default c p :
  defaultEstimatedItemSize (perform c p) = defaultEstimatedItemSize p.
Proof.
  destruct c as [newProps| |index|rws isH cached]; try reflexivity.
  - cbn [GridLayoutProviderWithProps.perform].
    now destruct (reportItemLayout_cases index p) as [->|(m & w & ->)].
  - cbn [GridLayoutProviderWithProps.perform].
    now destruct (newLayoutManager_provider rws isH cached p) as (w & l & -> & _).
Qed.

Lemma run_keeps_default (cs : list Call) p :
  defaultEstimatedItemSize (run cs p) = defaultEstimatedItemSize p.
Proof.
  revert p. induction cs as [|c cs IH]; intros p; [reflexivity|].
  cbn [GridLayoutProviderWithProps.run]. now rewrite IH, perform_keeps_default.
Qed.

Lemma unfedAt_currentValue v p :
  unfedAt v p -> averageItemSize decay p = v.
Proof.
  intros [Hs Hv]. unfold averageItemSize, AverageWindow.currentValue.
  now rewrite Hs.
Qed.

Lemma perform_keeps_unfed v c p :
  isReport c = false -> unfedAt v p -> unfedAt v (perform c p).
Proof.
  intros Hc Hp. destruct c as [newProps| |index|rws isH cached];
    try discriminate; try exact Hp.
  cbn [GridLayoutProviderWithProps.perform].
  destruct (newLayoutManager_provider rws isH cached p) as (w & l & -> & ->).
  split; [reflexivity|]. cbn. now apply unfedAt_currentValue.
Qed.

Lemma run_keeps_unfed v (cs : list Call) p :
  forallb (fun c => negb (isReport c)) cs = true ->
  unfedAt v p -> unfedAt v (run cs p).
Proof.
  revert p. induction cs as [|c cs IH]; intros p Hcs Hp; [exact Hp|].
  cbn in Hcs. apply andb_prop in Hcs as [Hc Hcs].
  cbn [GridLayoutProviderWithProps.run]. apply IH; [exact Hcs|].
  apply perform_keeps_unfed; [|exact Hp]. now destruct (isReport c).
Qed.

(** C10: a provider constructed from props without [estimatedItemSize] has
    an estimator with window size [1] seeded with [100], so that
    [averageItemSize] is [100] then and after every sequence of
    [updateProps], [markExpired] and [newLayoutManager] calls; and after any
    sequence of calls, while the stored props have no [estimatedItemSize],
    [newLayoutManager] computes the estimated item count as
    [max(3, round(size / 100))]. *)
Theorem missing_estimate_defaults_to_100
    (span0 : number) (typeOf : HostCallback TypeKey)
    (spanOf : HostCallback number) (sizeOf : HostCallback (option number))
    (initialProps : FlashListProps T E) (delta : option number)
    (cs : list Call) (renderWindowSize : Dimension)
    (isHorizontal : option bool) (cachedLayouts : option (list Layout)) :
  estimatedItemSize initialProps = None ->
  let p0 := constructor span0 typeOf spanOf sizeOf initialProps delta in
  let p := run cs p0 in
  let size :=
    if JS.Boolean (horizontal (props p))
    then width renderWindowSize else height renderWindowSize in
  averageWindow p0 = AverageWindow.new (JS.of_Z 1) (JS.of_Z 100)
  /\ averageItemSize decay p0 = JS.of_Z 100
  /\ (forallb (fun c => negb (isReport c)) cs = true ->
      averageItemSize decay p = JS.of_Z 100)
  /\ (estimatedItemSize (props p) = None ->
      estimatedItemCount p renderWindowSize
      = JS.max (JS.of_Z 3) (JS.round (JS.div size (JS.of_Z 100)))
      /\ AverageWindow.windowSize
           (averageWindow
              (newLayoutManager renderWindowSize isHorizontal cachedLayouts p).1.1)
         = JS.mul
             (JS.mul (JS.of_Z 2)
                (JS.Number (numColumns (props p) ||? Some (JS.of_Z 1))))
             (JS.max (JS.of_Z 3) (JS.round (JS.div size (JS.of_Z 100))))).
Proof.
  intros Hnone. cbv zeta.
  assert (Hunfed : unfedAt (JS.of_Z 100)
            (constructor span0 typeOf spanOf sizeOf initialProps delta)).
  { split; [reflexivity|]. cbn. now rewrite Hnone. }
  split; [|split; [|split]].
  - unfold constructor. cbn. now rewrite Hnone.
  - now apply unfedAt_currentValue.
  - intros Hcs. now apply unfedAt_currentValue, run_keeps_unfed.
  - intros Hp.
    assert (Hcount : estimatedItemCount
                       (run cs (constructor span0 typeOf spanOf sizeOf
                                  initialProps delta)) renderWindowSize
                     = JS.max (JS.of_Z 3)
                         (JS.round
                            (JS.div
                               (if JS.Boolean
                                     (horizontal
                                        (props
                                           (run cs
                                              (constructor span0 typeOf spanOf
                                                 sizeOf initialProps delta))))
                                then width renderWindowSize
                                else height renderWindowSize)
                               (JS.of_Z 100)))).
    { unfold estimatedItemCount. now rewrite Hp, run_keeps_default. }
    split; [exact Hcount|].
    destruct (newLayoutManager_provider renderWindowSize isHorizontal
                cachedLayouts
                (run cs (constructor span0 typeOf spanOf sizeOf initialProps delta)))
      as (w & l & -> & ->).
    cbn [averageWindow set_getLayoutManager set_averageWindow
         AverageWindow.windowSize AverageWindow.new].
    now rewrite Hcount.
Qed.

End Facts.

End ProviderFacts.

(** ** The component: span lookup and validation of props *)
Module FlashListFacts.

Import GridLayoutProviderWithProps FlashList.

Section Facts.

Context {T E : Type}.
Variable DEV : bool.

Implicit Types (props : FlashListProps T E).

(** C2, amended: the span lookup of a provider built by [getLayoutProvider]
    runs [overrideItemLayout] on the scratch record with [span] and [size]
    undefined and returns the span the callback wrote, whatever its value,
    also [0] or a negative number; it returns [1] only where the callback
    left [span] undefined or the props have no [overrideItemLayout]. *)
Theorem span_lookup_returns_host_span
    (columns : number) props (scratch : MutableLayout) (index : Z) :
  let p := set_layoutObject scratch (getLayoutProvider columns props) in
  (spanForIndex index p).1
  = match overrideItemLayout props with
    | Some callback =>
        match span (callback {| span := None; size := None |}
                      (array_get (data props) index) index columns
                      (extraData props)) with
        | Some written => written
        | None => JS.of_Z 1
        end
    | None => JS.of_Z 1
    end.
Proof.
  cbv zeta. unfold spanForIndex, getLayoutProvider. cbn.
  unfold spanCallback. cbn.
  destruct (overrideItemLayout props) as [callback|]; [|reflexivity].
  now destruct (span _).
Qed.

(** The size lookup of such a provider returns the size the callback wrote,
    and the current value of the estimator where it wrote none. *)
Lemma size_lookup_returns_host_size
    (decay : number -> number -> list number -> number)
    (columns : number) props (scratch : MutableLayout) (index : Z) :
  let p := set_layoutObject scratch (getLayoutProvider columns props) in
  (heightOrWidthForIndex decay index p).1
  = match overrideItemLayout props with
    | Some callback =>
        match size (callback {| span := None; size := None |}
                      (array_get (data props) index) index columns
                      (extraData props)) with
        | Some written => written
        | None => averageItemSize decay p
        end
    | None => averageItemSize decay p
    end.
Proof.
  cbv zeta. unfold heightOrWidthForIndex, getLayoutProvider. cbn.
  unfold sizeCallback. cbn.
  destruct (overrideItemLayout props) as [callback|]; [|reflexivity].
  now destruct (size _).
Qed.

Lemma boolean_true (h : option bool) : JS.Boolean h = true <-> h = Some true.
Proof. destruct h as [[]|]; cbn; split; congruence. Qed.

Lemma refresh_check props :
  bool_decide (onRefresh props <> None) && not_boolean (refreshing props) = true
  <-> Spec.refreshWithoutBoolean props.
Proof.
  unfold Spec.refreshWithoutBoolean.
  rewrite andb_true_iff, bool_decide_eq_true.
  apply and_iff_compat_l.
  destruct (refreshing props); cbn; split; try congruence; try done.
  intros H. now destruct (H b).
Qed.

Lemma positive_length {A : Type} (l : list A) :
  JS.gt (JS.of_Z (Z.of_nat (length l))) (JS.of_Z 0) = true <-> l <> [].
Proof.
  destruct l as [|a l]; cbn -[Z.of_nat]; [split; [discriminate|congruence]|].
  split; [discriminate|]. intros _.
  apply negb_true_iff. destruct (Qle_bool _ _) eqn:H; [|reflexivity].
  apply Qle_bool_iff in H. unfold Qle in H. cbn -[Z.of_nat] in H. lia.
Qed.

Lemma sticky_check props :
  JS.gt (stickyCount props) (JS.of_Z 0) && JS.Boolean (horizontal props) = true
  <-> Spec.stickyWhileHorizontal props.
Proof.
  unfold Spec.stickyWhileHorizontal, stickyCount.
  rewrite andb_true_iff, boolean_true.
  apply and_iff_compat_r.
  destruct (stickyHeaderIndices props) as [l|]; cbn [option_map JS.Number].
  - rewrite positive_length. split.
    + intros H. now exists l.
    + intros (l' & [= <-] & H). exact H.
  - split; [discriminate|]. intros (l' & [=] & _).
Qed.

Lemma columns_check props :
  JS.gt (JS.Number (numColumns props)) (JS.of_Z 1) && JS.Boolean (horizontal props)
  = true
  <-> Spec.columnsWhileHorizontal props.
Proof.
  unfold Spec.columnsWhileHorizontal.
  rewrite andb_true_iff, boolean_true.
  apply and_iff_compat_r.
  destruct (numColumns props) as [n|]; cbn [JS.Number].
  - split.
    + intros H. now exists n.
    + intros (n' & [= <-] & H). exact H.
  - split; [discriminate|]. intros (n' & [=] & _).
Qed.

(** The four ways [validateProps] ends. *)
Lemma validateProps_cases props :
  (Spec.refreshWithoutBoolean props
   /\ validateProps DEV props = Threw refreshBooleanMissing)
  \/ (~ Spec.refreshWithoutBoolean props
      /\ Spec.stickyWhileHorizontal props
      /\ validateProps DEV props = Threw stickyWhileHorizontalNotSupported)
  \/ (~ Spec.refreshWithoutBoolean props
      /\ ~ Spec.stickyWhileHorizontal props
      /\ Spec.columnsWhileHorizontal props
      /\ validateProps DEV props = Threw columnsWhileHorizontalNotSupported)
  \/ (~ Spec.refreshWithoutBoolean props
      /\ ~ Spec.stickyWhileHorizontal props
      /\ ~ Spec.columnsWhileHorizontal props
      /\ exists warnings, validateProps DEV props = Returned warnings).
Proof.
  unfold validateProps.
  destruct (bool_decide _ && not_boolean _) eqn:H1.
  { left. split; [now apply refresh_check | reflexivity]. }
  assert (~ Spec.refreshWithoutBoolean props) as N1
    by (rewrite <- refresh_check; congruence).
  destruct (JS.gt (stickyCount props) _ && _) eqn:H2.
  { right; left. split; [exact N1|]. split; [now apply sticky_check | reflexivity]. }
  assert (~ Spec.stickyWhileHorizontal props) as N2
    by (rewrite <- sticky_check; congruence).
  destruct (JS.gt (JS.Number _) _ && _) eqn:H3.
  { right; right; left. split; [exact N1|]. split; [exact N2|].
    split; [now apply columns_check | reflexivity]. }
  assert (~ Spec.columnsWhileHorizontal props) as N3
    by (rewrite <- columns_check; congruence).
  right; right; right. split; [exact N1|]. split; [exact N2|].
  split; [exact N3|]. eexists. reflexivity.
Qed.

(** C7: the constructor throws exactly for the props that have [onRefresh]
    without a boolean [refreshing], or a non-empty [stickyHeaderIndices] on
    a horizontal list, or [numColumns] greater than 1 on a horizontal list;
    the error is the entry of [ExceptionList] for the first of these that
    holds, and it is thrown by [validateProps], before the state is set up.
    For all other props the constructor returns a component, which has no
    layout provider yet. *)
Theorem constructor_rejects_invalid_configuration (now : number) props :
  ((exists e, constructor DEV now props = Threw e)
   <-> Spec.refreshWithoutBoolean props
       \/ Spec.stickyWhileHorizontal props
       \/ Spec.columnsWhileHorizontal props)
  /\ (Spec.refreshWithoutBoolean props ->
      validateProps DEV props = Threw refreshBooleanMissing
      /\ constructor DEV now props = Threw refreshBooleanMissing)
  /\ (~ Spec.refreshWithoutBoolean props -> Spec.stickyWhileHorizontal props ->
      validateProps DEV props = Threw stickyWhileHorizontalNotSupported
      /\ constructor DEV now props = Threw stickyWhileHorizontalNotSupported)
  /\ (~ Spec.refreshWithoutBoolean props -> ~ Spec.stickyWhileHorizontal props ->
      Spec.columnsWhileHorizontal props ->
      validateProps DEV props = Threw columnsWhileHorizontalNotSupported
      /\ constructor DEV now props = Threw columnsWhileHorizontalNotSupported)
  /\ (~ Spec.refreshWithoutBoolean props -> ~ Spec.stickyWhileHorizontal props ->
      ~ Spec.columnsWhileHorizontal props ->
      exists component,
        constructor DEV now props = Returned component
        /\ this_props component = props
        /\ state_layoutProvider (state component) = None).
Proof.
  unfold constructor.
  destruct (validateProps_cases props)
    as [(P1 & ->)|[(N1 & P2 & ->)|[(N1 & N2 & P3 & ->)|(N1 & N2 & N3 & w & ->)]]].
  - repeat split; eauto; tauto.
  - repeat split; eauto; tauto.
  - repeat split; eauto; tauto.
  - split; [|repeat split; try tauto; eauto].
    split; [intros [e [=]] | tauto].
Qed.

End Facts.

End FlashListFacts.

(** ** The properties at concrete inputs *)
Module Examples.

Import ContentContainerUtils GridLayoutProviderWithProps FlashList Fixtures.

(** C2, as stated, fails: with two columns and an [overrideItemLayout] that
    writes [span = 0], the span lookup at index 0 returns [0], not [1]. *)
Lemma zero_span_is_not_clamped :
  let p := getLayoutProvider (JS.of_Z 2) zeroSpanProps in
  span (zeroSpan {| span := None; size := None |} (Some 10%nat) 0 (JS.of_Z 2) None)
  = Some (JS.of_Z 0)
  /\ Spec.nonPositive (JS.of_Z 0) = true
  /\ (spanForIndex 0 p).1 = JS.of_Z 0
  /\ (spanForIndex 0 p).1 <> Spec.clampedSpan (JS.of_Z 0).
Proof.
  repeat split; try reflexivity.
  vm_compute. intros H. discriminate H.
Qed.

(** C3 at a provider that expired through a change of [numColumns]. *)
Lemma hasExpired_stays_true_witness :
  let p := updateProps zeroColumnsProps plainProvider in
  hasExpired p = true
  /\ hasExpired (run meanOfSamples cachingSuper someCalls p) = true.
Proof.
  split; [reflexivity|].
  apply (ProviderFacts.hasExpired_stays_true meanOfSamples cachingSuper).
  reflexivity.
Defined.

(** C4 at a provider with two entries: index 1 has one, index 5 has none. *)
Lemma reportItemLayout_marks_and_feeds_witness :
  let p := laidOutProvider in
  currentEntry p 1 = Some (entry 60)
  /\ averageWindow (reportItemLayout 1 p)
     = AverageWindow.addValue (JS.of_Z 60) (averageWindow p)
  /\ currentEntry p 5 = None
  /\ reportItemLayout 5 p = p.
Proof.
  cbv zeta. split; [reflexivity|]. split.
  - pose proof (ProviderFacts.reportItemLayout_marks_and_feeds 1 laidOutProvider) as H.
    hnf in H. destruct H as (_ & _ & H & _). exact H.
  - split; [reflexivity|].
    exact (ProviderFacts.reportItemLayout_marks_and_feeds 5 laidOutProvider).
Defined.

(** C5, as stated, fails: with [numColumns: 0], [estimatedItemSize: 100] and
    a window of height 1000 the new estimator has window size
    [2 * 1 * 10 = 20], while [2 * numColumns * 10] is [0]. *)
Lemma zero_columns_window_size :
  let p := zeroColumnsProvider in
  let p' := (newLayoutManager meanOfSamples cachingSuper tallWindow None None p).1.1 in
  AverageWindow.windowSize (averageWindow p') = JS.of_Z 20
  /\ Spec.windowSize (props p) tallWindow = JS.of_Z 0
  /\ AverageWindow.windowSize (averageWindow p')
     <> Spec.windowSize (props p) tallWindow.
Proof.
  repeat split; try reflexivity.
  vm_compute. intros H. discriminate H.
Qed.

(** C5 where the props give both numbers: the specified formula. *)
Example window_size_one_column :
  AverageWindow.windowSize
    (averageWindow
       (newLayoutManager meanOfSamples cachingSuper tallWindow None None
          plainProvider).1.1)
  = Spec.windowSize plainProps tallWindow.
Proof.
  apply (ProviderFacts.windowSize_as_specified meanOfSamples cachingSuper
           tallWindow None None plainProvider (JS.of_Z 1) (JS.of_Z 100));
    reflexivity.
Qed.

(** C6 at a change of padding: the insets differ, the provider expires. *)
Example updateProps_padding_expires :
  hasExpired plainProvider = false
  /\ hasExpired (updateProps paddedProps plainProvider) = true
  /\ hasExpired (updateProps plainProps plainProvider) = false.
Proof. repeat split. Qed.

(** C7 at the three invalid configurations and at a valid one. *)
Lemma constructor_rejects_invalid_configuration_witness :
  constructor true (JS.of_Z 0) refreshProps = Threw refreshBooleanMissing
  /\ constructor true (JS.of_Z 0) stickyProps
     = Threw stickyWhileHorizontalNotSupported
  /\ constructor true (JS.of_Z 0) columnsProps
     = Threw columnsWhileHorizontalNotSupported
  /\ exists component,
       constructor true (JS.of_Z 0) plainProps = Returned component
       /\ this_props component = plainProps
       /\ state_layoutProvider (state component) = None.
Proof.
  assert (N1 : forall p : FlashListProps nat unit,
             onRefresh p = None -> ~ Spec.refreshWithoutBoolean p).
  { intros p Hp [H _]. exact (H Hp). }
  assert (N2 : forall p : FlashListProps nat unit,
             stickyHeaderIndices p = None -> ~ Spec.stickyWhileHorizontal p).
  { intros p Hp [(l & H & _) _]. rewrite Hp in H. discriminate H. }
  assert (N3 : forall p : FlashListProps nat unit,
             horizontal p = None -> ~ Spec.columnsWhileHorizontal p).
  { intros p Hp [_ H]. rewrite Hp in H. discriminate H. }
  split; [|split; [|split]].
  - apply (FlashListFacts.constructor_rejects_invalid_configuration
             true (JS.of_Z 0) refreshProps).
    split; [discriminate | intros b; discriminate].
  - apply (FlashListFacts.constructor_rejects_invalid_configuration
             true (JS.of_Z 0) stickyProps).
    + now apply N1.
    + split; [|reflexivity]. exists [JS.of_Z 0]. split; [reflexivity|discriminate].
  - apply (FlashListFacts.constructor_rejects_invalid_configuration
             true (JS.of_Z 0) columnsProps).
    + now apply N1.
    + now apply N2.
    + split; [|reflexivity]. exists (JS.of_Z 2). split; reflexivity.
  - apply (FlashListFacts.constructor_rejects_invalid_configuration
             true (JS.of_Z 0) plainProps).
    + now apply N1.
    + now apply N2.
    + now apply N3.
Defined.

(** C9 at a host callback that sets the size of index 0 only: the size
    lookup at index 1 after the one at index 0 falls back to the estimate. *)
Example no_stale_size :
  let sizeAtZero : HostCallback (T := nat) (E := unit) (option number) :=
    fun index _ scratch =>
      if (index =? 0)%Z
      then (Some (JS.of_Z 7), {| span := span scratch; size := Some (JS.of_Z 7) |})
      else (size scratch, scratch) in
  let p :=
    GridLayoutProviderWithProps.constructor (JS.of_Z 1)
      (fun _ _ scratch => (TypeNum (JS.of_Z 0), scratch))
      (fun _ _ scratch => (JS.of_Z 1, scratch)) sizeAtZero plainProps None in
  (heightOrWidthForIndex meanOfSamples 0 p).1 = JS.of_Z 7
  /\ (heightOrWidthForIndex meanOfSamples 1
        (heightOrWidthForIndex meanOfSamples 0 p).2).1 = JS.of_Z 100.
Proof. repeat split. Qed.

(** C10 at props without [estimatedItemSize]: the average is 100 at first
    and after an update and a new layout manager, and a window of height
    1000 is estimated to show 10 items. *)
Lemma missing_estimate_defaults_to_100_witness :
  let cs :=
    [CallUpdateProps noEstimateProps; CallNewLayoutManager tallWindow None None] in
  estimatedItemSize noEstimateProps = None
  /\ averageItemSize meanOfSamples noEstimateProvider = JS.of_Z 100
  /\ averageItemSize meanOfSamples
       (run meanOfSamples cachingSuper cs noEstimateProvider) = JS.of_Z 100
  /\ estimatedItemCount
       (run meanOfSamples cachingSuper cs noEstimateProvider) tallWindow
     = JS.max (JS.of_Z 3) (JS.round (JS.div (JS.of_Z 1000) (JS.of_Z 100))).
Proof.
  cbv zeta. split; [reflexivity|].
  pose proof (ProviderFacts.missing_estimate_defaults_to_100 meanOfSamples
                cachingSuper (JS.of_Z 1) typeCallback (spanCallback (JS.of_Z 1))
                (sizeCallback (JS.of_Z 1)) noEstimateProps None
                [CallUpdateProps noEstimateProps;
                 CallNewLayoutManager tallWindow None None]
                tallWindow None None eq_refl) as H.
  cbv zeta in H. destruct H as (_ & H1 & H2 & H3).
  split; [exact H1|]. split; [exact (H2 eq_refl)|]. exact (proj1 (H3 eq_refl)).
Defined.

End Examples.

(** * Further properties *)

(** ** Numbers *)
Module NumberFacts.

Lemma strict_eq_refl (n : number) :
  JS.strict_eq n n = negb (JSMore.isNaN n).
Proof.
  destruct n as [q| | |]; cbn; try reflexivity.
  apply Qeq_bool_iff. reflexivity.
Qed.

Lemma strict_neq_refl (n : number) :
  JS.strict_neq n n = JSMore.isNaN n.
Proof. unfold JS.strict_neq. rewrite strict_eq_refl. now destruct (JSMore.isNaN n). Qed.

Lemma truthy_not_NaN (n : number) :
  JS.truthy n = true -> JSMore.isNaN n = false.
Proof. now destruct n. Qed.

Lemma finite_add (a b : number) :
  JSMore.isFinite a = true -> JSMore.isFinite b = true ->
  JSMore.isFinite (JS.add a b) = true.
Proof. now destruct a, b. Qed.

Lemma finite_sub (a b : number) :
  JSMore.isFinite a = true -> JSMore.isFinite b = true ->
  JSMore.isFinite (JS.sub a b) = true.
Proof. now destruct a, b. Qed.

Lemma finite_not_NaN (a : number) :
  JSMore.isFinite a = true -> JSMore.isNaN a = false.
Proof. now destruct a. Qed.

End NumberFacts.

(** ** More on the inset resolver *)
Module MoreInsetFacts.

Import ContentContainerUtils Precedence InsetFacts NumberFacts.

(** The source paddings that the left and right edges are resolved from. *)
Lemma horizontal_edges_from (s s' : ViewStyle) :
  paddingLeft s = paddingLeft s' -> paddingRight s = paddingRight s' ->
  paddingHorizontal s = paddingHorizontal s' -> padding s = padding s' ->
  let r := asExplicit (updateContentStyle emptyStyle (Some s)) in
  let r' := asExplicit (updateContentStyle emptyStyle (Some s')) in
  e_paddingLeft r = e_paddingLeft r' /\ e_paddingRight r = e_paddingRight r'.
Proof. cbn. now intros -> -> -> ->. Qed.

(** The source paddings that the top and bottom edges are resolved from. *)
Lemma vertical_edges_from (s s' : ViewStyle) :
  paddingTop s = paddingTop s' -> paddingBottom s = paddingBottom s' ->
  paddingVertical s = paddingVertical s' -> padding s = padding s' ->
  let r := asExplicit (updateContentStyle emptyStyle (Some s)) in
  let r' := asExplicit (updateContentStyle emptyStyle (Some s')) in
  e_paddingTop r = e_paddingTop r' /\ e_paddingBottom r = e_paddingBottom r'.
Proof. cbn. now intros -> -> -> ->. Qed.

(** Both insets of a dimension with finite sides are finite when the
    paddings of the source are. *)
Lemma insets_finite (source : option ViewStyle) (dim : Dimension)
    (horizontal : option bool) :
  JSMore.finitePaddings source = true ->
  JSMore.isFinite (height dim) = true -> JSMore.isFinite (width dim) = true ->
  let out := applyInsetToFields dim source horizontal in
  JSMore.isFinite (height out) = true /\ JSMore.isFinite (width out) = true.
Proof.
  intros Hs Hh Hw. cbv zeta.
  assert (Hfin : forall e a u,
             JSMore.finiteOrMissing e = true -> JSMore.finiteOrMissing a = true ->
             JSMore.finiteOrMissing u = true ->
             JSMore.isFinite (JS.Number (e ||? a ||? u ||? Some (JS.of_Z 0)))
             = true).
  { intros e a u He Ha Hu. unfold JS.or.
    destruct e as [e|], a as [a|], u as [u|]; cbn in *;
      repeat match goal with
             | |- context [JS.truthy ?n] => destruct (JS.truthy n); cbn
             end; auto. }
  assert (Hsrc : JSMore.finitePaddings (Some (source ?? emptyStyle)) = true).
  { destruct source; [exact Hs | reflexivity]. }
  cbn in Hsrc. repeat (apply andb_prop in Hsrc as [Hsrc ?]).
  unfold applyInsetToFields.
  destruct (JS.Boolean horizontal); cbn [height width]; split; auto;
    apply finite_sub; auto; apply finite_add; cbn; apply Hfin; auto.
Qed.

Section AnyPadding.

Context {Other : Type}.
Variable ToBoolean : Other -> bool.
Variable ToNumber : Other -> number.

Implicit Types (e a u : option (@DimensionValues.DimensionValue Other)).

(** On paddings that are numbers the chain is the one of
    [ContentContainerUtils]. *)
Lemma resolve_numbers (edge axis uniform : option number) :
  DimensionValues.resolve ToBoolean ToNumber
    (DimensionValues.Px <$> edge) (DimensionValues.Px <$> axis)
    (DimensionValues.Px <$> uniform)
  = JS.Number (edge ||? axis ||? uniform ||? Some (JS.of_Z 0)).
Proof.
  unfold DimensionValues.resolve, DimensionValues.or, JS.or.
  destruct edge as [x|], axis as [y|], uniform as [z|]; cbn;
    repeat match goal with
           | |- context [JS.truthy ?n] => destruct (JS.truthy n); cbn
           end; reflexivity.
Qed.

(** On a source whose paddings are numbers [updateContentStyle] is the
    function of [ContentContainerUtils]. *)
Lemma updateContentStyle_numbers (contentStyle : ContentStyle)
    (source : option ViewStyle) :
  DimensionValues.updateContentStyle ToBoolean ToNumber contentStyle
    (DimensionValues.asViewStyle <$> source)
  = updateContentStyle contentStyle source.
Proof.
  unfold DimensionValues.updateContentStyle, updateContentStyle.
  destruct source as [s|]; cbn [fmap option_fmap option_map JS.nullish
    DimensionValues.asViewStyle DimensionValues.a_paddingTop
    DimensionValues.a_paddingBottom DimensionValues.a_paddingLeft
    DimensionValues.a_paddingRight DimensionValues.a_padding
    DimensionValues.a_paddingVertical DimensionValues.a_paddingHorizontal
    DimensionValues.a_backgroundColor DimensionValues.emptyAnyStyle].
  - now rewrite !resolve_numbers.
  - reflexivity.
Qed.

(** Where the padding of an edge comes from: a truthy number among the
    three candidates, a truthy value among them that is not a number, or
    the literal [0]. *)
Lemma resolve_cases e a u :
  let n := DimensionValues.resolve ToBoolean ToNumber e a u in
  (exists m, In (Some (DimensionValues.Px m)) [e; a; u]
             /\ JS.truthy m = true /\ n = m)
  \/ (exists o, In (Some (DimensionValues.NotNumber o)) [e; a; u]
                /\ ToBoolean o = true /\ n = ToNumber o)
  \/ n = JS.of_Z 0.
Proof.
  cbv zeta. unfold DimensionValues.resolve, DimensionValues.or.
  assert (Hpick : forall v : option (@DimensionValues.DimensionValue Other),
             DimensionValues.truthy ToBoolean v = true ->
             (exists m, v = Some (DimensionValues.Px m) /\ JS.truthy m = true
                        /\ DimensionValues.Number ToNumber v = m)
             \/ (exists o, v = Some (DimensionValues.NotNumber o)
                           /\ ToBoolean o = true
                           /\ DimensionValues.Number ToNumber v = ToNumber o)).
  { intros [[m|o]|] H; [left|right|discriminate]; eexists; eauto. }
  assert (Hin : forall v : option (@DimensionValues.DimensionValue Other),
             In v [e; a; u] ->
             DimensionValues.truthy ToBoolean v = true ->
             (exists m, In (Some (DimensionValues.Px m)) [e; a; u]
                        /\ JS.truthy m = true
                        /\ DimensionValues.Number ToNumber v = m)
             \/ (exists o, In (Some (DimensionValues.NotNumber o)) [e; a; u]
                           /\ ToBoolean o = true
                           /\ DimensionValues.Number ToNumber v = ToNumber o)
             \/ DimensionValues.Number ToNumber v = JS.of_Z 0).
  { intros v Hv H. destruct (Hpick v H) as [(m & -> & Hm & Hn)|(o & -> & Ho & Hn)].
    - left. exists m. auto.
    - right. left. exists o. auto. }
  destruct (DimensionValues.truthy ToBoolean e) eqn:He.
  { repeat (cbv iota; rewrite ?He). apply Hin; [now left | exact He]. }
  cbv iota.
  destruct (DimensionValues.truthy ToBoolean a) eqn:Ha.
  { repeat (cbv iota; rewrite ?Ha). apply Hin; [right; now left | exact Ha]. }
  cbv iota.
  destruct (DimensionValues.truthy ToBoolean u) eqn:Hu.
  { cbv iota. apply Hin; [right; right; now left | exact Hu]. }
  right. right. reflexivity.
Qed.

(** A padding that resolves to [NaN] comes from a value that is not a
    number. *)
Lemma resolve_NaN e a u :
  JSMore.isNaN (DimensionValues.resolve ToBoolean ToNumber e a u) = true ->
  DimensionValues.nanCandidate ToBoolean ToNumber [e; a; u].
Proof.
  intros H.
  destruct (resolve_cases e a u) as [(m & _ & Hm & Hn)|[(o & Hin & Ho & Hn)|Hn]];
    cbv zeta in Hn; rewrite Hn in H.
  - apply truthy_not_NaN in Hm. congruence.
  - exists o. auto.
  - discriminate.
Qed.

(** Among numbers the padding of an edge is truthy or the literal [0]. *)
Lemma resolve_among_numbers e a u :
  DimensionValues.numberOrMissing e = true ->
  DimensionValues.numberOrMissing a = true ->
  DimensionValues.numberOrMissing u = true ->
  let n := DimensionValues.resolve ToBoolean ToNumber e a u in
  JS.truthy n = true \/ n = JS.of_Z 0.
Proof.
  intros He Ha Hu. cbv zeta.
  destruct (resolve_cases e a u) as [(m & _ & Hm & Hn)|[(o & Hin & _)|Hn]];
    cbv zeta in *.
  - left. now rewrite Hn.
  - exfalso. destruct Hin as [->|[->|[->|[]]]]; discriminate.
  - now right.
Qed.

(** Resolving a number with nothing beside it. *)
Lemma resolve_alone (n : number) :
  DimensionValues.resolve ToBoolean ToNumber
    (Some (DimensionValues.Px n)) None None
  = if JS.truthy n then n else JS.of_Z 0.
Proof.
  unfold DimensionValues.resolve, DimensionValues.or.
  cbn [DimensionValues.truthy].
  destruct (JS.truthy n) eqn:Hn;
    repeat (cbn [DimensionValues.truthy DimensionValues.Number];
            rewrite ?Hn);
    reflexivity.
Qed.

Lemma resolve_alone_kept (n : number) :
  DimensionValues.keptUnlessNaN n (if JS.truthy n then n else JS.of_Z 0).
Proof.
  unfold DimensionValues.keptUnlessNaN.
  destruct n as [q| | |]; cbn; try reflexivity.
  destruct (Qeq_bool q 0) eqn:Hq; cbn.
  - rewrite Qeq_bool_comm. exact Hq.
  - apply Qeq_bool_iff. reflexivity.
Qed.

(** X1: resolving a resolved style once more.  Where the target object
    carries no uniform or axis padding of its own (as the component's
    [contentStyle] and the literal [{}] do), each of the four paddings comes
    back as the same number, except one that was [NaN] (which only a source
    value that is not a number can give): that one comes back as [0].  The
    background colour stays, and it makes no difference whether the target
    of the second call is the object as the first call left it.  So a style
    resolved from numbers is a fixed
    point of [updateContentStyle]; and if the target has no other key, the
    resolved style has none that
    [hasUnsupportedKeysInContentContainerStyle] reports. *)
Theorem resolving_again_keeps_all_but_NaN
    (contentStyle : ContentStyle)
    (source : option (@DimensionValues.AnyViewStyle Other)) :
  padding contentStyle = None ->
  paddingVertical contentStyle = None ->
  paddingHorizontal contentStyle = None ->
  let r :=
    DimensionValues.updateContentStyle ToBoolean ToNumber contentStyle source in
  let r' :=
    DimensionValues.updateContentStyle ToBoolean ToNumber contentStyle
      (Some (DimensionValues.asViewStyle r)) in
  DimensionValues.keptUnlessNaN
    (e_paddingTop (asExplicit r)) (e_paddingTop (asExplicit r'))
  /\ DimensionValues.keptUnlessNaN
       (e_paddingBottom (asExplicit r)) (e_paddingBottom (asExplicit r'))
  /\ DimensionValues.keptUnlessNaN
       (e_paddingLeft (asExplicit r)) (e_paddingLeft (asExplicit r'))
  /\ DimensionValues.keptUnlessNaN
       (e_paddingRight (asExplicit r)) (e_paddingRight (asExplicit r'))
  /\ backgroundColor r' = backgroundColor r
  /\ DimensionValues.updateContentStyle ToBoolean ToNumber r
       (Some (DimensionValues.asViewStyle r)) = r'
  /\ (DimensionValues.numericPaddings source = true -> r' = r)
  /\ (rest contentStyle = [] ->
      hasUnsupportedKeysInContentContainerStyle (Some r) = false).
Proof.
  intros Hp Hv Hh. cbv zeta.
  set (r := DimensionValues.updateContentStyle ToBoolean ToNumber contentStyle
              source).
  assert (Hr' : DimensionValues.updateContentStyle ToBoolean ToNumber
                  contentStyle (Some (DimensionValues.asViewStyle r))
                = {| paddingLeft :=
                       Some (if JS.truthy (JS.Number (paddingLeft r))
                             then JS.Number (paddingLeft r) else JS.of_Z 0);
                     paddingRight :=
                       Some (if JS.truthy (JS.Number (paddingRight r))
                             then JS.Number (paddingRight r) else JS.of_Z 0);
                     paddingTop :=
                       Some (if JS.truthy (JS.Number (paddingTop r))
                             then JS.Number (paddingTop r) else JS.of_Z 0);
                     paddingBottom :=
                       Some (if JS.truthy (JS.Number (paddingBottom r))
                             then JS.Number (paddingBottom r) else JS.of_Z 0);
                     backgroundColor := backgroundColor r;
                     padding := None;
                     paddingVertical := None;
                     paddingHorizontal := None;
                     rest := rest contentStyle |}).
  { unfold DimensionValues.updateContentStyle at 1.
    cbn [JS.nullish DimensionValues.asViewStyle DimensionValues.a_paddingTop
         DimensionValues.a_paddingBottom DimensionValues.a_paddingLeft
         DimensionValues.a_paddingRight DimensionValues.a_padding
         DimensionValues.a_paddingVertical DimensionValues.a_paddingHorizontal
         DimensionValues.a_backgroundColor].
    rewrite Hp, Hv, Hh.
    subst r. unfold DimensionValues.updateContentStyle.
    cbn [paddingTop paddingBottom paddingLeft paddingRight padding
         paddingVertical paddingHorizontal backgroundColor rest JS.Number].
    rewrite Hp, Hv, Hh. cbn [fmap option_fmap option_map].
    now rewrite !(resolve_alone). }
  rewrite Hr'. unfold asExplicit.
  cbn [paddingTop paddingBottom paddingLeft paddingRight backgroundColor
       e_paddingTop e_paddingBottom e_paddingLeft e_paddingRight JS.Number].
  split; [apply resolve_alone_kept|]. split; [apply resolve_alone_kept|].
  split; [apply resolve_alone_kept|]. split; [apply resolve_alone_kept|].
  split; [reflexivity|]. split; [now rewrite <- Hr'|]. split.
  - intros Hnum.
    assert (Hsrc : DimensionValues.numericPaddings
                     (Some (source ?? DimensionValues.emptyAnyStyle)) = true).
    { destruct source; [exact Hnum | reflexivity]. }
    cbn [DimensionValues.numericPaddings] in Hsrc.
    repeat (apply andb_prop in Hsrc as [Hsrc ?]).
    assert (Hfix : forall n, JS.truthy n = true \/ n = JS.of_Z 0 ->
                             (if JS.truthy n then n else JS.of_Z 0) = n).
    { intros n [H'| ->]; [now rewrite H' | reflexivity]. }
    subst r. unfold DimensionValues.updateContentStyle.
    cbn [paddingTop paddingBottom paddingLeft paddingRight padding
         paddingVertical paddingHorizontal backgroundColor rest JS.Number].
    rewrite Hp, Hv, Hh.
    rewrite !Hfix by (apply resolve_among_numbers; assumption).
    reflexivity.
  - intros Hrest. unfold hasUnsupportedKeysInContentContainerStyle.
    subst r. cbn. now rewrite Hrest.
Qed.

(** X2: a padding that [updateContentStyle] resolves is [NaN] only where
    one of the three candidates of that edge (the edge itself, its axis and
    the uniform padding) is a truthy value that is not a number and that
    [Number(...)] turns into [NaN], as ['10%'] is.  A number [NaN] in the
    source counts as missing, like [0]: where all paddings of the source
    are numbers, none of the four resolved paddings is [NaN]. *)
Theorem resolved_NaN_only_from_non_number
    (contentStyle : ContentStyle)
    (source : option (@DimensionValues.AnyViewStyle Other)) :
  let s := source ?? DimensionValues.emptyAnyStyle in
  let r :=
    asExplicit
      (DimensionValues.updateContentStyle ToBoolean ToNumber contentStyle
         source) in
  (JSMore.isNaN (e_paddingTop r) = true ->
   DimensionValues.nanCandidate ToBoolean ToNumber
     [DimensionValues.a_paddingTop s; DimensionValues.a_paddingVertical s;
      DimensionValues.a_padding s])
  /\ (JSMore.isNaN (e_paddingBottom r) = true ->
      DimensionValues.nanCandidate ToBoolean ToNumber
        [DimensionValues.a_paddingBottom s; DimensionValues.a_paddingVertical s;
         DimensionValues.a_padding s])
  /\ (JSMore.isNaN (e_paddingLeft r) = true ->
      DimensionValues.nanCandidate ToBoolean ToNumber
        [DimensionValues.a_paddingLeft s; DimensionValues.a_paddingHorizontal s;
         DimensionValues.a_padding s])
  /\ (JSMore.isNaN (e_paddingRight r) = true ->
      DimensionValues.nanCandidate ToBoolean ToNumber
        [DimensionValues.a_paddingRight s; DimensionValues.a_paddingHorizontal s;
         DimensionValues.a_padding s])
  /\ (DimensionValues.numericPaddings source = true ->
      JSMore.isNaN (e_paddingTop r) = false
      /\ JSMore.isNaN (e_paddingBottom r) = false
      /\ JSMore.isNaN (e_paddingLeft r) = false
      /\ JSMore.isNaN (e_paddingRight r) = false).
Proof.
  cbv zeta. unfold DimensionValues.updateContentStyle, asExplicit.
  cbn [paddingTop paddingBottom paddingLeft paddingRight
       e_paddingTop e_paddingBottom e_paddingLeft e_paddingRight JS.Number].
  split; [apply resolve_NaN|]. split; [apply resolve_NaN|].
  split; [apply resolve_NaN|]. split; [apply resolve_NaN|].
  intros Hnum.
  assert (Hsrc : DimensionValues.numericPaddings
                   (Some (source ?? DimensionValues.emptyAnyStyle)) = true).
  { destruct source; [exact Hnum | reflexivity]. }
  cbn [DimensionValues.numericPaddings] in Hsrc.
  repeat (apply andb_prop in Hsrc as [Hsrc ?]).
  assert (Hnan : forall n, JS.truthy n = true \/ n = JS.of_Z 0 ->
                           JSMore.isNaN n = false).
  { intros n [H'| ->]; [now apply truthy_not_NaN | reflexivity]. }
  repeat split; apply Hnan, resolve_among_numbers; assumption.
Qed.

End AnyPadding.

(** X1 at [{ padding: '10%', paddingTop: 5 }]: the top padding stays 5, the
    left one is [NaN] and comes back as [0]; and the style resolved from
    [{ paddingTop: 5, paddingVertical: 10, padding: 20 }] is a fixed
    point. *)
Lemma resolving_again_keeps_all_but_NaN_witness :
  let resolve :=
    DimensionValues.updateContentStyle MoreFixtures.stringToBoolean
      MoreFixtures.stringToNumber emptyStyle in
  let r := resolve (Some MoreFixtures.stylePercent) in
  let r' := resolve (Some (DimensionValues.asViewStyle r)) in
  let n := resolve (Some (DimensionValues.asViewStyle
                            Fixtures.styleEdgeAxisUniform)) in
  paddingTop r = Some (JS.of_Z 5)
  /\ paddingLeft r = Some JS.NaN
  /\ paddingTop r' = Some (JS.of_Z 5)
  /\ paddingLeft r' = Some (JS.of_Z 0)
  /\ DimensionValues.keptUnlessNaN
       (e_paddingLeft (asExplicit r)) (e_paddingLeft (asExplicit r'))
  /\ paddingTop n = Some (JS.of_Z 5)
  /\ resolve (Some (DimensionValues.asViewStyle n)) = n.
Proof.
  cbv zeta. split; [reflexivity|]. split; [reflexivity|].
  split; [reflexivity|]. split; [reflexivity|].
  destruct (resolving_again_keeps_all_but_NaN MoreFixtures.stringToBoolean
              MoreFixtures.stringToNumber emptyStyle
              (Some MoreFixtures.stylePercent) eq_refl eq_refl eq_refl)
    as (_ & _ & Hleft & _).
  split; [exact Hleft|]. split; [reflexivity|].
  destruct (resolving_again_keeps_all_but_NaN MoreFixtures.stringToBoolean
              MoreFixtures.stringToNumber emptyStyle
              (Some (DimensionValues.asViewStyle Fixtures.styleEdgeAxisUniform))
              eq_refl eq_refl eq_refl)
    as (_ & _ & _ & _ & _ & _ & Hfix & _).
  exact (Hfix eq_refl).
Defined.

(** X2 at [{ padding: '12', paddingLeft: NaN }]: the left padding is 12,
    the number [NaN] being passed over and ['12'] converted; and at
    [{ padding: '10%', paddingTop: 5 }], where the left padding is [NaN],
    because of ['10%']. *)
Lemma resolved_NaN_only_from_non_number_witness :
  let resolve :=
    DimensionValues.updateContentStyle MoreFixtures.stringToBoolean
      MoreFixtures.stringToNumber emptyStyle in
  paddingLeft (resolve (Some MoreFixtures.styleTwelve)) = Some (JS.of_Z 12)
  /\ paddingLeft (resolve (Some MoreFixtures.stylePercent)) = Some JS.NaN
  /\ DimensionValues.nanCandidate MoreFixtures.stringToBoolean
       MoreFixtures.stringToNumber
       [DimensionValues.a_paddingLeft MoreFixtures.stylePercent;
        DimensionValues.a_paddingHorizontal MoreFixtures.stylePercent;
        DimensionValues.a_padding MoreFixtures.stylePercent].
Proof.
  cbv zeta. split; [reflexivity|]. split; [reflexivity|].
  destruct (resolved_NaN_only_from_non_number MoreFixtures.stringToBoolean
              MoreFixtures.stringToNumber emptyStyle
              (Some MoreFixtures.stylePercent))
    as (_ & _ & Hleft & _).
  exact (Hleft eq_refl).
Defined.

(** X3: the inset of a vertical list depends on the left, right, horizontal
    and uniform paddings of the style only, that of a horizontal list on the
    top, bottom, vertical and uniform paddings only: two styles that agree
    on these give the same dimension, whatever else they hold. *)
Theorem inset_ignores_other_axis
    (dim : Dimension) (s s' : ViewStyle) (horizontal : option bool) :
  sameLayoutPaddings (JS.Boolean horizontal) s s' ->
  applyInsetToFields dim (Some s) horizontal
  = applyInsetToFields dim (Some s') horizontal.
Proof.
  unfold sameLayoutPaddings, applyInsetToFields.
  destruct (JS.Boolean horizontal); intros (H1 & H2 & H3 & H4).
  - destruct (vertical_edges_from s s' H1 H2 H3 H4) as [-> ->]. reflexivity.
  - destruct (horizontal_edges_from s s' H1 H2 H3 H4) as [-> ->]. reflexivity.
Qed.

Lemma inset_ignores_other_axis_witness :
  sameLayoutPaddings false Fixtures.styleFourEdges MoreFixtures.styleFourEdgesTaller
  /\ paddingTop Fixtures.styleFourEdges <> paddingTop MoreFixtures.styleFourEdgesTaller
  /\ applyInsetToFields Fixtures.viewport (Some Fixtures.styleFourEdges) None
     = applyInsetToFields Fixtures.viewport (Some MoreFixtures.styleFourEdgesTaller) None.
Proof.
  split; [repeat split|]. split; [discriminate|].
  apply (inset_ignores_other_axis Fixtures.viewport Fixtures.styleFourEdges
           MoreFixtures.styleFourEdgesTaller None).
  repeat split.
Defined.

End MoreInsetFacts.

(** ** More on the grid layout provider *)
Module MoreProviderFacts.

Import ContentContainerUtils GridLayoutProviderWithProps NumberFacts
  MoreInsetFacts ProviderFacts.

Section Facts.

Context {T E : Type}.
Variable decay : number -> number -> list number -> number.
Variable super_newLayoutManager :
  @GridLayoutProviderWithProps T E -> Dimension -> option bool ->
  option (list Layout) -> LayoutManager * option LayoutManager.

Implicit Types (p : @GridLayoutProviderWithProps T E) (c : @Call T E).

Local Abbreviation perform := (perform decay super_newLayoutManager).
Local Abbreviation run := (run decay super_newLayoutManager).
Local Abbreviation newLayoutManager := (newLayoutManager decay super_newLayoutManager).

Lemma perform_keeps_insets c p :
  renderWindowInsets p = layoutInsets (props p) ->
  renderWindowInsets (perform c p) = layoutInsets (props (perform c p)).
Proof.
  intros Hp. destruct c as [newProps| |index|rws isH cached].
  - reflexivity.
  - exact Hp.
  - cbn [GridLayoutProviderWithProps.perform].
    destruct (reportItemLayout_cases index p) as [->|(m & w & ->)]; exact Hp.
  - cbn [GridLayoutProviderWithProps.perform].
    destruct (newLayoutManager_provider decay super_newLayoutManager
                rws isH cached p) as (w & l & -> & _).
    exact Hp.
Qed.

Lemma run_keeps_insets (cs : list Call) p :
  renderWindowInsets p = layoutInsets (props p) ->
  renderWindowInsets (run cs p) = layoutInsets (props (run cs p)).
Proof.
  revert p. induction cs as [|c cs IH]; intros p Hp; [exact Hp|].
  cbn [GridLayoutProviderWithProps.run]. apply IH, perform_keeps_insets, Hp.
Qed.

(** X4: the insets a provider stores are always those of the props it
    stores: this holds after the constructor and after every sequence of
    [updateProps], [markExpired], [reportItemLayout] and [newLayoutManager]
    calls. *)
Theorem stored_insets_follow_props
    (span0 : number) (typeOf : HostCallback TypeKey)
    (spanOf : HostCallback number) (sizeOf : HostCallback (option number))
    (initialProps : FlashListProps T E) (delta : option number)
    (cs : list Call) :
  let p := run cs (constructor span0 typeOf spanOf sizeOf initialProps delta) in
  renderWindowInsets p = layoutInsets (props p).
Proof. cbv zeta. apply run_keeps_insets. reflexivity. Qed.

(** The insets of props with finite paddings are not [NaN]. *)
Lemma layoutInsets_not_NaN (props0 : FlashListProps T E) :
  JSMore.finitePaddings (contentContainerStyle props0) = true ->
  JSMore.isNaN (height (layoutInsets props0)) = false
  /\ JSMore.isNaN (width (layoutInsets props0)) = false.
Proof.
  intros H.
  destruct (insets_finite (contentContainerStyle props0)
              {| height := JS.of_Z 0; width := JS.of_Z 0 |}
              (Some (JS.Boolean (horizontal props0))) H eq_refl eq_refl)
    as [Hh Hw].
  split; now apply finite_not_NaN.
Qed.

Lemma strict_neq_opt_refl (v : option number) :
  JS.strict_neq_opt v v = JSMore.definedNaN v.
Proof. destruct v as [n|]; [apply strict_neq_refl | reflexivity]. Qed.

(** X5: updating a provider twice with the same props is the same as
    updating it once, provided [numColumns] of the props is not [NaN] and
    the paddings of their style are finite; in particular the second update
    does not expire the provider. *)
Theorem updateProps_idempotent (newProps : FlashListProps T E) p :
  JSMore.definedNaN (numColumns newProps) = false ->
  JSMore.finitePaddings (contentContainerStyle newProps) = true ->
  updateProps newProps (updateProps newProps p) = updateProps newProps p.
Proof.
  intros Hn Hs.
  destruct (layoutInsets_not_NaN newProps Hs) as [Hh Hw].
  unfold updateProps at 1.
  change (applyInsetToFields _ (contentContainerStyle newProps) _)
    with (layoutInsets newProps).
  change (renderWindowInsets (updateProps newProps p))
    with (layoutInsets newProps).
  change (props (updateProps newProps p)) with newProps.
  rewrite strict_neq_opt_refl, Hn, !strict_neq_refl, Hh, Hw, !orb_false_r.
  reflexivity.
Qed.

(** X6: a provider that is updated with the very props it was constructed
    from is expired by that exactly when [numColumns] is [NaN] or one of the
    insets of the props is ([NaN] differs from itself); otherwise the
    update leaves the provider as the constructor built it. *)
Theorem updateProps_after_constructor
    (span0 : number) (typeOf : HostCallback TypeKey)
    (spanOf : HostCallback number) (sizeOf : HostCallback (option number))
    (initialProps : FlashListProps T E) (delta : option number) :
  let p := constructor span0 typeOf spanOf sizeOf initialProps delta in
  let unequal :=
    JSMore.definedNaN (numColumns initialProps)
    || JSMore.isNaN (height (layoutInsets initialProps))
    || JSMore.isNaN (width (layoutInsets initialProps)) in
  hasExpired (updateProps initialProps p) = unequal
  /\ updateProps initialProps p = set_hasExpired unequal p.
Proof.
  cbv zeta.
  assert (H : hasExpired
                (updateProps initialProps
                   (constructor span0 typeOf spanOf sizeOf initialProps delta))
              = JSMore.definedNaN (numColumns initialProps)
                || JSMore.isNaN (height (layoutInsets initialProps))
                || JSMore.isNaN (width (layoutInsets initialProps))).
  { unfold updateProps, hasExpired. cbn [_hasExpired set_props
      set_renderWindowInsets set_hasExpired].
    change (applyInsetToFields _ (contentContainerStyle initialProps) _)
      with (layoutInsets initialProps).
    change (renderWindowInsets (constructor _ _ _ _ initialProps _))
      with (layoutInsets initialProps).
    change (props (constructor span0 typeOf spanOf sizeOf initialProps delta))
      with initialProps.
    change (_hasExpired (constructor span0 typeOf spanOf sizeOf initialProps delta))
      with false.
    now rewrite strict_neq_opt_refl, !strict_neq_refl. }
  split; [exact H|].
  rewrite <- H. reflexivity.
Qed.

(** X7: on a provider as the constructor and any sequence of calls leave
    it, an update with props that have the same [numColumns] and
    orientation and a style with finite paddings that agrees with the stored
    one on the paddings of the layout axis leaves [hasExpired] as it is:
    a change of the other paddings or of the background colour alone never
    expires the provider. *)
Theorem updateProps_ignores_other_axis
    (span0 : number) (typeOf : HostCallback TypeKey)
    (spanOf : HostCallback number) (sizeOf : HostCallback (option number))
    (initialProps : FlashListProps T E) (delta : option number)
    (cs : list Call) (newProps : FlashListProps T E) :
  let p := run cs (constructor span0 typeOf spanOf sizeOf initialProps delta) in
  JS.strict_neq_opt (numColumns (props p)) (numColumns newProps) = false ->
  JS.Boolean (horizontal newProps) = JS.Boolean (horizontal (props p)) ->
  JSMore.finitePaddings (contentContainerStyle newProps) = true ->
  sameLayoutPaddings (JS.Boolean (horizontal newProps))
    (contentContainerStyle (props p) ?? emptyStyle)
    (contentContainerStyle newProps ?? emptyStyle) ->
  hasExpired (updateProps newProps p) = hasExpired p.
Proof.
  cbv zeta. intros Hn Hh Hs Hsame.
  set (p := run cs _) in *.
  assert (Hstored : renderWindowInsets p = layoutInsets (props p))
    by (apply run_keeps_insets; reflexivity).
  assert (Heq : layoutInsets (props p) = layoutInsets newProps).
  { unfold layoutInsets. rewrite <- Hh.
    assert (Hnone : forall (d : Dimension) (o : option ViewStyle) h,
               applyInsetToFields d o h
               = applyInsetToFields d (Some (o ?? emptyStyle)) h)
      by (intros d [s|] h; reflexivity).
    rewrite (Hnone _ (contentContainerStyle (props p))),
      (Hnone _ (contentContainerStyle newProps)).
    unfold sameLayoutPaddings in Hsame. unfold applyInsetToFields.
    cbn [JS.Boolean].
    destruct (JS.Boolean (horizontal newProps));
      destruct Hsame as (H1 & H2 & H3 & H4).
    - destruct (vertical_edges_from _ _ H1 H2 H3 H4) as [-> ->]. reflexivity.
    - destruct (horizontal_edges_from _ _ H1 H2 H3 H4) as [-> ->]. reflexivity. }
  destruct (layoutInsets_not_NaN newProps Hs) as [Hnh Hnw].
  unfold updateProps, hasExpired.
  cbn [_hasExpired set_props set_renderWindowInsets set_hasExpired].
  change (applyInsetToFields _ (contentContainerStyle newProps) _)
    with (layoutInsets newProps).
  rewrite Hstored, Heq, Hn, !strict_neq_refl, Hnh, Hnw, !orb_false_r.
  reflexivity.
Qed.

Lemma spread_keeps (layout : Layout) (o : option StyleOverrides) :
  point (spread layout o) = point layout
  /\ type (spread layout o) = type layout
  /\ isOverridden (spread layout o) = isOverridden layout
  /\ width (spread layout o)
     = (match o with
        | Some s => override_width s ?? width layout
        | None => width layout
        end)
  /\ height (spread layout o)
     = (match o with
        | Some s => override_height s ?? height layout
        | None => height layout
        end).
Proof. destruct o as [s|]; repeat split. Qed.

Lemma spread_idempotent (layout : Layout) (o : option StyleOverrides) :
  spread (spread layout o) o = spread layout o.
Proof.
  destruct o as [[w h]|]; [|reflexivity]. unfold spread. cbn.
  now destruct w, h.
Qed.

(** X8: [newLayoutManager] hands the cached layouts back with as many
    entries as before (and none when none were given); every entry keeps
    its position, type and [isOverridden]; its width and height are those
    that the new manager gives as style override for its index, or the old
    ones where it gives none. *)
Theorem newLayoutManager_updates_cached_sides
    (renderWindowSize : Dimension) (isHorizontal : option bool)
    (cachedLayouts : option (list Layout)) p :
  let out := newLayoutManager renderWindowSize isHorizontal cachedLayouts p in
  let manager := out.1.2 in
  match cachedLayouts, out.2 with
  | Some cached, Some cached' =>
      length cached' = length cached
      /\ forall (i : nat) (layout : Layout),
           cached !! i = Some layout ->
           exists layout',
             cached' !! i = Some layout'
             /\ point layout' = point layout
             /\ type layout' = type layout
             /\ isOverridden layout' = isOverridden layout
             /\ width layout'
                = (match getStyleOverridesForIndex manager (Z.of_nat i) with
                   | Some s => override_width s ?? width layout
                   | None => width layout
                   end)
             /\ height layout'
                = (match getStyleOverridesForIndex manager (Z.of_nat i) with
                   | Some s => override_height s ?? height layout
                   | None => height layout
                   end)
  | None, None => True
  | _, _ => False
  end.
Proof.
  cbv zeta. unfold GridLayoutProviderWithProps.newLayoutManager.
  destruct (super_newLayoutManager _ _ _ _) as [manager last].
  cbn [fst snd]. destruct cachedLayouts as [cached|]; [|exact I].
  unfold updateCachedDimensions. split; [apply length_imap|].
  intros i layout Hi. eexists. split.
  - rewrite list_lookup_imap, Hi. reflexivity.
  - apply spread_keeps.
Qed.

(** X9: [updateCachedDimensions] is idempotent: applying the overrides of
    the same manager to the layouts a second time changes nothing. *)
Theorem updateCachedDimensions_idempotent
    (cachedLayouts : list Layout) (layoutManager : LayoutManager) :
  updateCachedDimensions (updateCachedDimensions cachedLayouts layoutManager)
    layoutManager
  = updateCachedDimensions cachedLayouts layoutManager.
Proof.
  unfold updateCachedDimensions. apply list_eq. intros i.
  rewrite !list_lookup_imap.
  destruct (cachedLayouts !! i) as [layout|]; [|reflexivity].
  cbn. now rewrite spread_idempotent.
Qed.

End Facts.

End MoreProviderFacts.

(** ** More on the component *)
Module MoreFlashListFacts.

Import NumberFacts InsetFacts FlashList FlashListMethods.

Section Facts.

Context {T E R : Type}.

Implicit Types (nextProps : FlashListProps T E) (more : @MoreProps R)
  (prevState : @FullState T E R).

Lemma or_one_truthy (v : option number) :
  JS.truthy (JS.Number (v ||? Some (JS.of_Z 1))) = true.
Proof.
  destruct (JS.truthy_opt v) eqn:H.
  - rewrite or_truthy by exact H. now destruct v.
  - now rewrite or_falsy by exact H.
Qed.

(** X10: when [getDerivedStateFromProps] returns, the new state has a
    layout provider that is not expired and stores the new props; and if
    the previous state had no provider yet, or had one whose maximal span
    was its truthy [numColumns], the maximal span of the new provider is the
    truthy [numColumns] of the new state. *)
Theorem getDerivedStateFromProps_provider nextProps more prevState
    (dataChanged renderItemChanged extraDataChanged : bool)
    (derived : @Derived T E R) :
  getDerivedStateFromProps nextProps more prevState
    dataChanged renderItemChanged extraDataChanged = Done derived ->
  (exists provider,
      state_layoutProvider (core (newState derived)) = Some provider
      /\ GridLayoutProviderWithProps.hasExpired provider = false
      /\ GridLayoutProviderWithProps.props provider = nextProps)
  /\ (state_layoutProvider (core prevState) = None \/ rendered prevState ->
      rendered (newState derived)).
Proof.
  unfold getDerivedStateFromProps.
  destruct (JS.strict_neq_opt _ _) eqn:Hchanged.
  - intros [= <-]. cbn. split.
    + eexists. split; [reflexivity|]. split; reflexivity.
    + intros _. eexists. split; [reflexivity|]. split; [reflexivity|].
      apply or_one_truthy.
  - destruct (state_layoutProvider (core prevState)) as [provider|] eqn:Hp;
      [|discriminate].
    destruct (GridLayoutProviderWithProps.hasExpired (GridLayoutProviderWithProps.updateProps nextProps provider)) eqn:Hexp.
    + intros [= <-]. cbn. split.
      * eexists. split; [reflexivity|]. split; reflexivity.
      * intros [[=]|(q & Hq & Hspan & Htruthy)].
        eexists. split; [reflexivity|]. split; [reflexivity|]. exact Htruthy.
    + intros [= <-]. cbn. split.
      * eexists. split; [reflexivity|]. split; [exact Hexp | reflexivity].
      * intros [[=]|(q & Hq & Hspan & Htruthy)].
        rewrite Hp in Hq. injection Hq as <-.
        eexists. split; [reflexivity|]. split; [exact Hspan | exact Htruthy].
Qed.

(** X11: the first render.  On the state that the constructor sets up
    ([numColumns] 0, [layoutProvider] and [data] [null])
    [getDerivedStateFromProps] throws a [TypeError] exactly when
    [numColumns] of the props is the number [0]: the columns then count as
    unchanged and [updateProps] is read from the provider that is [null],
    before the data are looked at.  For any other [numColumns] it builds a
    provider for [numColumns || 1] columns and sets
    [shouldRefreshWithAnchoring]. *)
Theorem getDerivedStateFromProps_first_render nextProps more
    (dataChanged renderItemChanged extraDataChanged : bool) :
  let result :=
    getDerivedStateFromProps nextProps more initialState
      dataChanged renderItemChanged extraDataChanged in
  let columns := JS.Number (numColumns nextProps ||? Some (JS.of_Z 1)) in
  (result = TypeError
   <-> exists n, numColumns nextProps = Some n
                 /\ JS.strict_eq n (JS.of_Z 0) = true)
  /\ (forall derived : @Derived T E R,
        result = Done derived ->
        state_numColumns (core (newState derived)) = columns
        /\ state_layoutProvider (core (newState derived))
           = Some (getLayoutProvider columns nextProps)
        /\ shouldRefreshWithAnchoring derived = true).
Proof.
  cbv zeta. unfold getDerivedStateFromProps. cbn [initialState core
    getInitialMutableState state_numColumns state_layoutProvider].
  destruct (JS.strict_neq_opt (Some (JS.of_Z 0)) (numColumns nextProps))
    eqn:Hchanged.
  - split.
    + split; [discriminate|]. intros (n & Hn & Hz). exfalso.
      rewrite Hn in Hchanged. cbn [JS.strict_neq_opt] in Hchanged.
      unfold JS.strict_neq in Hchanged. apply negb_true_iff in Hchanged.
      assert (Hsym : JS.strict_eq (JS.of_Z 0) n = JS.strict_eq n (JS.of_Z 0)).
      { destruct n as [q| | |]; try reflexivity; apply Qeq_bool_comm. }
      congruence.
    + intros derived [= <-]. cbn [newState core state_numColumns
        state_layoutProvider shouldRefreshWithAnchoring].
      split; [reflexivity|]. split; reflexivity.
  - split; [|discriminate].
    split; [intros _|reflexivity].
    destruct (numColumns nextProps) as [n|]; [|discriminate].
    cbn [JS.strict_neq_opt] in Hchanged. unfold JS.strict_neq in Hchanged.
    apply negb_false_iff in Hchanged. exists n. split; [reflexivity|].
    assert (Hsym : JS.strict_eq (JS.of_Z 0) n = JS.strict_eq n (JS.of_Z 0)).
    { destruct n as [q| | |]; try reflexivity; apply Qeq_bool_comm. }
    congruence.
Qed.



Lemma gt_irrefl (n : number) : JS.gt n n = false.
Proof.
  destruct n as [q| | |]; cbn; try reflexivity.
  apply negb_false_iff, Qle_bool_iff, Qle_refl.
Qed.

(** X14: [render] never passes both an initial offset and an initial render
    index to the list.  It passes an offset only for an initial scroll
    index in the first row, and then the window correction is not applied
    to the initial offset; it passes a render index only for one beyond the
    first row, which is then [initialScrollIndex] itself; and without
    [initialScrollIndex] it passes neither.  The window shift becomes minus
    the distance from the window. *)
Theorem initial_scroll_offset_or_index more (state : @FullState T E R)
    (distance : number) (config : WindowCorrectionConfig) :
  let offset := initialOffset more state distance in
  let renderIndex := initialRenderIndex more state in
  let config' := getUpdatedWindowCorrectionConfig more state distance config in
  (offset = None \/ renderIndex = None)
  /\ (offset <> None ->
      isInitialScrollIndexInFirstRow more state = true
      /\ offset = Some distance
      /\ applyToInitialOffset config' = false)
  /\ (renderIndex <> None ->
      isInitialScrollIndexInFirstRow more state = false
      /\ renderIndex = initialScrollIndex more
      /\ applyToInitialOffset config' = true)
  /\ (initialScrollIndex more = None ->
      offset = None /\ renderIndex = None
      /\ applyToInitialOffset config' = true)
  /\ windowShift config' = JSMore.neg distance.
Proof.
  cbv zeta.
  unfold initialOffset, initialRenderIndex, getUpdatedWindowCorrectionConfig.
  cbn [applyToInitialOffset windowShift].
  split; [|split; [|split; [|split]]].
  - destruct (isInitialScrollIndexInFirstRow more state); auto.
  - destruct (isInitialScrollIndexInFirstRow more state); [|congruence].
    destruct (JS.truthy distance); [auto | congruence].
  - destruct (isInitialScrollIndexInFirstRow more state); cbn [negb];
      [congruence|].
    destruct (JS.truthy_opt (initialScrollIndex more)); [auto | congruence].
  - intros Hnone. unfold isInitialScrollIndexInFirstRow, JSMore.lt.
    rewrite Hnone. cbn [JS.nullish JS.truthy_opt]. rewrite gt_irrefl.
    auto.
  - reflexivity.
Qed.

(** [Math.max(0, w) - 0] is not below zero. *)
Lemma max_zero_not_negative (w : number) :
  JSMore.lt (JS.sub (JS.max (JS.of_Z 0) w) (JS.of_Z 0)) (JS.of_Z 0) = false.
Proof.
  destruct w as [q| | |]; try reflexivity.
  unfold JS.max, JS.of_Z. cbn [JS.gt].
  destruct (Qle_bool q (inject_Z 0)) eqn:Hq; cbn [negb JS.sub JSMore.lt JS.gt].
  - apply negb_false_iff, Qle_bool_iff. unfold inject_Z. lra.
  - apply negb_false_iff, Qle_bool_iff.
    assert (~ (q <= inject_Z 0)%Q) as Hn
      by (intros H; apply Qle_bool_iff in H; congruence).
    unfold inject_Z in *. lra.
Qed.

(** With neither [viewOffset] nor [viewPosition], and a difference of the
    two sizes that is finite, the offset of an item that is not negative is
    the scroll offset. *)
Lemma scrollOffset_plain (itemOffset fixedDimension itemSize : number)
    (params : ScrollToIndexParams) :
  viewOffset params = None -> viewPosition params = None ->
  JSMore.isFinite (JS.sub fixedDimension itemSize) = true ->
  JSMore.ge itemOffset (JS.of_Z 0) = true ->
  JS.strict_eq (scrollOffset itemOffset fixedDimension itemSize params)
    itemOffset = true.
Proof.
  unfold scrollOffset. intros -> ->. cbn [JS.nullish].
  destruct (JS.sub fixedDimension itemSize) as [d| | |]; try discriminate.
  intros _ Ha.
  destruct itemOffset as [a| | |]; try discriminate; [|reflexivity].
  unfold JS.max, JS.of_Z in *. cbn [JS.sub JS.mul JS.gt JSMore.ge JSMore.le] in *.
  apply Qle_bool_iff in Ha.
  destruct (Qle_bool _ _) eqn:Hq; cbn [negb JS.sub JS.strict_eq];
    apply Qeq_bool_iff.
  - apply Qle_bool_iff in Hq. unfold inject_Z in *. lra.
  - unfold inject_Z in *. lra.
Qed.

(** X15: [scrollToIndex] scrolls only when the list is mounted and knows the
    layout of the index and its own size, and then to the same offset on
    both axes.  Without [viewOffset] that offset is never below zero; with
    neither [viewOffset] nor [viewPosition], a difference of list size and
    item size that is finite as the method computes it, and an item offset
    that is not negative, it is the offset of the item. *)
Theorem scrollToIndex_offset (horizontal : option bool)
    (rlvRef : option RecyclerListView) (params : ScrollToIndexParams)
    (call : ScrollToOffsetCall) :
  scrollToIndex horizontal rlvRef params = Some call ->
  exists rlv layout listSize,
    rlvRef = Some rlv
    /\ rlv_getLayout rlv (index params) = Some layout
    /\ rlv_getRenderedSize rlv = Some listSize
    /\ call_x call = call_y call
    /\ call_animate call = JS.Boolean (animated params)
    /\ (viewOffset params = None ->
        JSMore.lt (call_x call) (JS.of_Z 0) = false)
    /\ (viewOffset params = None -> viewPosition params = None ->
        let itemOffset :=
          if JS.Boolean horizontal then x layout else y layout in
        let fixedDimension :=
          if JS.Boolean horizontal then width listSize else height listSize in
        let itemSize :=
          if JS.Boolean horizontal then width layout else height layout in
        JSMore.isFinite (JS.sub fixedDimension itemSize) = true ->
        JSMore.ge itemOffset (JS.of_Z 0) = true ->
        JS.strict_eq (call_x call) itemOffset = true).
Proof.
  unfold scrollToIndex.
  destruct rlvRef as [rlv|]; [|discriminate].
  destruct (rlv_getLayout rlv (index params)) as [layout|] eqn:Hl;
    [|discriminate].
  destruct (rlv_getRenderedSize rlv) as [listSize|] eqn:Hs; [|discriminate].
  cbv zeta. intros Hcall. exists rlv, layout, listSize.
  assert (Hx : call_x call
               = scrollOffset
                   (if JS.Boolean horizontal then x layout else y layout)
                   (if JS.Boolean horizontal
                    then width listSize else height listSize)
                   (if JS.Boolean horizontal
                    then width layout else height layout) params)
    by (injection Hcall as <-; reflexivity).
  split; [reflexivity|]. split; [exact Hl|]. split; [exact Hs|].
  split; [injection Hcall as <-; reflexivity|].
  split; [injection Hcall as <-; reflexivity|].
  rewrite Hx. split.
  - intros Hv. unfold scrollOffset. rewrite Hv. cbn [JS.nullish].
    apply max_zero_not_negative.
  - intros Hv Hp. apply scrollOffset_plain; assumption.
Qed.

(** X16: [separator] never reads outside the data.  For an index that is
    not negative it returns a separator exactly when the props have an
    [ItemSeparatorComponent], the data are there and the index is not that
    of the last item; the leading and the trailing item it passes are then
    the items at the index and after it.  So the last item gets none. *)
Theorem separator_between_items (data : option (list T)) more (i : Z) :
  (0 <= i)%Z ->
  match separator data more i with
  | Some given =>
      exists items leading trailing,
        data = Some items
        /\ ItemSeparatorComponent more <> None
        /\ (i + 1 < Z.of_nat (length items))%Z
        /\ items !! Z.to_nat i = Some leading
        /\ items !! S (Z.to_nat i) = Some trailing
        /\ leadingItem given = Some leading
        /\ trailingItem given = Some trailing
  | None =>
      data = None
      \/ ItemSeparatorComponent more = None
      \/ exists items,
           data = Some items /\ (Z.of_nat (length items) <= i + 1)%Z
  end.
Proof.
  intros Hi. unfold separator.
  destruct data as [items|]; [|now left].
  destruct (Z.geb_spec (i + 1) (Z.of_nat (length items))) as [Hge|Hlt].
  { right; right. exists items. split; [reflexivity | lia]. }
  destruct (ItemSeparatorComponent more) as [[]|] eqn:Hsep; [|now right; left].
  assert (H1 : (Z.to_nat i < length items)%nat) by lia.
  assert (H2 : (S (Z.to_nat i) < length items)%nat) by lia.
  destruct (lookup_lt_is_Some_2 items _ H1) as [leading Hleading].
  destruct (lookup_lt_is_Some_2 items _ H2) as [trailing Htrailing].
  exists items, leading, trailing.
  split; [reflexivity|]. split; [discriminate|]. split; [lia|].
  split; [exact Hleading|]. split; [exact Htrailing|].
  cbn [leadingItem trailingItem]. unfold array_get.
  destruct (Z.ltb_spec i 0); [lia|].
  destruct (Z.ltb_spec (i + 1) 0); [lia|].
  split; [exact Hleading|].
  replace (Z.to_nat (i + 1)) with (S (Z.to_nat i)) by lia. exact Htrailing.
Qed.

(** X17: the row that [getComponentForHeightMeasurement] renders to measure
    a horizontal list is a row of the data: its index is 0 or 1 and below
    the number of rows.  It renders one only for a horizontal list that has
    rows and is not loaded yet, unless the measurement is disabled. *)
Theorem measured_row_exists (props0 : FlashListProps T E) more
    (loaded : bool) (size : nat) :
  match getComponentForHeightMeasurement props0 more loaded size with
  | Some row =>
      (0 <= row < Z.of_nat size)%Z /\ (row <= 1)%Z
      /\ horizontal props0 = Some true /\ loaded = false
      /\ disableHorizontalListHeightMeasurement more <> Some true
  | None =>
      size = 0%nat \/ loaded = true \/ horizontal props0 <> Some true
      \/ disableHorizontalListHeightMeasurement more = Some true
  end.
Proof.
  unfold getComponentForHeightMeasurement.
  destruct (horizontal props0) as [[]|]; cbn [JS.Boolean andb];
    try (right; right; left; congruence).
  destruct (disableHorizontalListHeightMeasurement more) as [[]|];
    cbn [JS.Boolean andb negb]; try (right; right; right; reflexivity);
    (destruct loaded; cbn [andb negb]; [right; left; reflexivity|];
     destruct (Z.ltb_spec 0 (Z.of_nat size));
     [repeat split; try lia; congruence | left; lia]).
Qed.

Implicit Types (this : @Instance T E R).

Lemma raise_when_loaded (now : number) this :
  isListLoaded this = true -> raiseOnLoadEventIfNeeded now this = this.
Proof. intros H. unfold raiseOnLoadEventIfNeeded. now rewrite H. Qed.

Lemma handle_when_loaded (e : LoadEvent) this
    (provider : @GridLayoutProviderWithProps.GridLayoutProviderWithProps T E) :
  isListLoaded this = true -> (handle e (this, provider)).1 = this.
Proof.
  intros H. destruct e as [now|i now]; cbn.
  - unfold componentDidMount. destruct (_ =? _)%nat; [|reflexivity].
    now apply raise_when_loaded.
  - now apply raise_when_loaded.
Qed.

Lemma handleAll_when_loaded (es : list LoadEvent) this
    (provider : @GridLayoutProviderWithProps.GridLayoutProviderWithProps T E) :
  isListLoaded this = true -> (handleAll es (this, provider)).1 = this.
Proof.
  revert this provider. induction es as [|e es IH]; intros this provider H;
    [reflexivity|].
  cbn [handleAll].
  destruct (handle e (this, provider)) as [this' provider'] eqn:He.
  assert (this' = this) as ->.
  { change this' with (this', provider').1. rewrite <- He.
    now apply handle_when_loaded. }
  now apply IH.
Qed.

(** The component after the first [raiseOnLoadEventIfNeeded]. *)
Lemma raise_first (now : number) this :
  isListLoaded this = false ->
  let this' := raiseOnLoadEventIfNeeded now this in
  isListLoaded this' = true
  /\ onLoadCalls this'
     = (match onLoad (more this) with
        | Some _ => onLoadCalls this ++ [JS.sub now (loadStartTime this)]
        | None => onLoadCalls this
        end)
  /\ (timeouts this < timeouts this' <= timeouts this + 2)%nat
  /\ postLoadTimeoutId this' <> None.
Proof.
  intros H. cbv zeta. unfold raiseOnLoadEventIfNeeded. rewrite H.
  unfold runAfterOnLoad. cbn.
  destruct (estimatedItemSize (props this)); repeat split; try lia; discriminate.
Qed.

(** A call that does not get as far as [raiseOnLoadEventIfNeeded] leaves
    the component as it is. *)
Lemma handle_not_reaching (e : LoadEvent) this
    (provider : @GridLayoutProviderWithProps.GridLayoutProviderWithProps T E) :
  reachesOnLoad (props this) e = false -> (handle e (this, provider)).1 = this.
Proof.
  destruct e as [now|i now]; cbn [reachesOnLoad handle fst]; [|discriminate].
  intros H. unfold componentDidMount. now rewrite H.
Qed.

(** A call that does hands the component to [raiseOnLoadEventIfNeeded]. *)
Lemma handle_reaching (e : LoadEvent) this
    (provider : @GridLayoutProviderWithProps.GridLayoutProviderWithProps T E) :
  reachesOnLoad (props this) e = true ->
  (handle e (this, provider)).1 = raiseOnLoadEventIfNeeded (eventTime e) this.
Proof.
  destruct e as [now|i now]; cbn [reachesOnLoad handle fst eventTime].
  - intros H. unfold componentDidMount. now rewrite H.
  - reflexivity.
Qed.

(** X18: over any sequence of [componentDidMount] and [onItemLayout] calls
    on a newly constructed component, [onLoad] is called at most once and
    at most two timers are set.  The call is made by the first call of the
    sequence that gets as far as [raiseOnLoadEventIfNeeded] (a call of
    [onItemLayout], or one of [componentDidMount] where the data are
    empty), with the time elapsed between construction and that call; if
    there is no such call the component is as constructed.  Once the list
    counts as loaded, further calls change nothing of the component. *)
Theorem onLoad_raised_once more (c : @FlashList.FlashList T E)
    (es later : list LoadEvent)
    (provider later_provider :
       @GridLayoutProviderWithProps.GridLayoutProviderWithProps T E) :
  let start := ofConstructed more c in
  let this := (handleAll es (start, provider)).1 in
  (length (onLoadCalls this) <= 1)%nat
  /\ (timeouts this <= 2)%nat
  /\ (isListLoaded this = true ->
      (handleAll later (this, later_provider)).1 = this)
  /\ match List.find (reachesOnLoad (this_props c)) es with
     | None => this = start
     | Some e =>
         isListLoaded this = true
         /\ onLoadCalls this
            = match onLoad more with
              | Some _ => [JS.sub (eventTime e) (FlashList.loadStartTime c)]
              | None => []
              end
     end.
Proof.
  cbv zeta.
  assert (Hstart : isListLoaded (ofConstructed more c) = false) by reflexivity.
  assert (Hfirst : forall now,
            let this' := raiseOnLoadEventIfNeeded now (ofConstructed more c) in
            isListLoaded this' = true
            /\ onLoadCalls this'
               = (match onLoad more with
                  | Some _ => [JS.sub now (FlashList.loadStartTime c)]
                  | None => []
                  end)
            /\ (timeouts this' <= 2)%nat).
  { intros now. destruct (raise_first now _ Hstart) as (H1 & H2 & H3 & _).
    cbv zeta. split; [exact H1|]. split.
    - rewrite H2. cbn. now destruct (onLoad more).
    - change (timeouts (ofConstructed more c)) with 0%nat in H3. lia. }
  assert (Hgen : forall es provider,
            let this := (handleAll es (ofConstructed more c, provider)).1 in
            match List.find (reachesOnLoad (this_props c)) es with
            | None => this = ofConstructed more c
            | Some e =>
                this = raiseOnLoadEventIfNeeded (eventTime e)
                         (ofConstructed more c)
            end).
  { clear es provider. intros es. induction es as [|e es IH]; intros provider.
    - reflexivity.
    - cbn [handleAll List.find].
      destruct (handle e (ofConstructed more c, provider))
        as [this' provider'] eqn:He.
      assert (Hthis : this' = (handle e (ofConstructed more c, provider)).1)
        by now rewrite He.
      destruct (reachesOnLoad (this_props c) e) eqn:Hreach.
      + rewrite handle_reaching in Hthis by exact Hreach. subst this'.
        apply handleAll_when_loaded, (Hfirst (eventTime e)).
      + rewrite handle_not_reaching in Hthis by exact Hreach. subst this'.
        apply IH. }
  specialize (Hgen es provider). cbv zeta in Hgen.
  destruct (List.find (reachesOnLoad (this_props c)) es) as [e|];
    rewrite Hgen.
  - destruct (Hfirst (eventTime e)) as (H1 & H2 & H3).
    split; [rewrite H2; destruct (onLoad more); cbn; lia|].
    split; [exact H3|].
    split; [intros _; now apply handleAll_when_loaded|].
    split; assumption.
  - split; [cbn; lia|]. split; [cbn; lia|].
    split; [intros H; now apply handleAll_when_loaded | reflexivity].
Qed.

(** The size that [handleSizeChange] stores for a layout. *)
Lemma handleSizeChange_fields (hasRef : bool) (layout : LayoutRectangle) this :
  let this' := handleSizeChange hasRef layout this in
  props this' = props this
  /\ listFixedDimensionSize this'
     = (if JS.Boolean (horizontal (props this))
        then layout_height layout else layout_width layout)
  /\ (renderedSizeWarningTimeoutId this' <> None
      <-> JSMore.le (JSMore.floor (layout_height layout)) (JS.of_Z 1)
          || JSMore.le (JSMore.floor (layout_width layout)) (JS.of_Z 1) = true)
  /\ rerenders this'
     = (if JS.gt (listFixedDimensionSize this) (JS.of_Z 0)
           && JS.strict_neq (listFixedDimensionSize this)
                (listFixedDimensionSize this')
           && hasRef
        then S (rerenders this) else rerenders this).
Proof.
  cbv zeta. unfold handleSizeChange, validateListSize. cbn.
  split; [reflexivity|]. split; [reflexivity|]. split; [|reflexivity].
  destruct (_ || _); split; try congruence; discriminate.
Qed.

Lemma handleSizeChanges_app (hasRef : bool) (l1 l2 : list LayoutRectangle) this :
  handleSizeChanges hasRef (l1 ++ l2) this
  = handleSizeChanges hasRef l2 (handleSizeChanges hasRef l1 this).
Proof.
  revert this. induction l1 as [|a l1 IH]; intros this; [reflexivity|].
  cbn. apply IH.
Qed.

Lemma handleSizeChanges_props (hasRef : bool) (ls : list LayoutRectangle) this :
  props (handleSizeChanges hasRef ls this) = props this.
Proof.
  revert this. induction ls as [|a ls IH]; intros this; [reflexivity|].
  cbn [handleSizeChanges]. rewrite IH. apply handleSizeChange_fields.
Qed.

(** X19: after any sequence of size changes the component stores the size
    of the last one along the fixed dimension (the height of a horizontal
    list, else the width), and [renderedSizeWarningTimeoutId] holds a timer
    exactly when the last layout has a height or a width of which the floor
    is at most 1.  A size change forces a rerender only if the
    size stored before was above 0 and differs from the new one and the list
    is mounted: so none on mount, where the stored size is 0, and none when
    the last layout is reported once more with a size that is not [NaN]. *)
Theorem handleSizeChange_tracks_last (hasRef : bool)
    (earlier : list LayoutRectangle) (layout : LayoutRectangle) this :
  let size :=
    if JS.Boolean (horizontal (props this))
    then layout_height layout else layout_width layout in
  let before := handleSizeChanges hasRef earlier this in
  let after := handleSizeChanges hasRef (earlier ++ [layout]) this in
  listFixedDimensionSize after = size
  /\ (renderedSizeWarningTimeoutId after <> None
      <-> JSMore.le (JSMore.floor (layout_height layout)) (JS.of_Z 1)
          || JSMore.le (JSMore.floor (layout_width layout)) (JS.of_Z 1) = true)
  /\ (rerenders after = rerenders before
      \/ (rerenders after = S (rerenders before)
          /\ hasRef = true
          /\ JS.gt (listFixedDimensionSize before) (JS.of_Z 0) = true
          /\ JS.strict_neq (listFixedDimensionSize before) size = true))
  /\ (JS.gt (listFixedDimensionSize before) (JS.of_Z 0) = false ->
      rerenders after = rerenders before)
  /\ (JSMore.isNaN size = false ->
      rerenders (handleSizeChange hasRef layout after) = rerenders after).
Proof.
  cbv zeta. rewrite handleSizeChanges_app. cbn [handleSizeChanges].
  set (before := handleSizeChanges hasRef earlier this).
  assert (Hprops : props before = props this)
    by apply handleSizeChanges_props.
  destruct (handleSizeChange_fields hasRef layout before)
    as (Hp & Hsize & Hwarn & Hre).
  cbv zeta in *. rewrite Hprops in Hsize.
  split; [exact Hsize|]. split; [exact Hwarn|].
  rewrite Hsize in Hre. split; [|split].
  - rewrite Hre. destruct (JS.gt _ _); cbn [andb]; [|now left].
    destruct (JS.strict_neq _ _); cbn [andb]; [|now left].
    destruct hasRef; [right; auto | now left].
  - intros H. rewrite Hre, H. reflexivity.
  - intros Hnan.
    destruct (handleSizeChange_fields hasRef layout
                (handleSizeChange hasRef layout before)) as (_ & Hsize2 & _ & Hre2).
    cbv zeta in *. rewrite Hp, Hprops in Hsize2.
    rewrite Hre2, Hsize2, Hsize, strict_neq_refl, Hnan, andb_false_r.
    reflexivity.
Qed.

End Facts.

End MoreFlashListFacts.

(** ** Bounds and warnings *)
Module BoundFacts.

Import GridLayoutProviderWithProps FlashList.

Lemma max_three (r : number) :
  JSMore.isNaN (JS.max (JS.of_Z 3) r) = JSMore.isNaN r
  /\ (JSMore.isNaN r = false ->
      JSMore.ge (JS.max (JS.of_Z 3) r) (JS.of_Z 3) = true)
  /\ (JSMore.isFinite r = true ->
      JSMore.isFinite (JS.max (JS.of_Z 3) r) = true)
  /\ (JSMore.ge r (JS.of_Z 3) = true ->
      JS.strict_eq (JS.max (JS.of_Z 3) r) r = true)
  /\ (JSMore.le r (JS.of_Z 3) = true -> JS.max (JS.of_Z 3) r = JS.of_Z 3).
Proof.
  destruct r as [q| | |]; try (repeat split; discriminate).
  unfold JS.max, JS.of_Z. cbn [JS.gt JSMore.ge JSMore.le].
  destruct (Qle_bool q (inject_Z 3)) eqn:Hq; cbn [negb].
  - split; [reflexivity|]. split; [intros _; apply Qle_bool_iff, Qle_refl|].
    split; [reflexivity|]. split; [|reflexivity].
    intros Hge. cbn [JS.strict_eq]. apply Qeq_bool_iff.
    apply Qle_bool_iff in Hq, Hge. now apply Qle_antisym.
  - assert (Hn : ~ (q <= inject_Z 3)%Q)
      by (intros H; apply Qle_bool_iff in H; congruence).
    split; [reflexivity|]. split.
    { intros _. apply Qle_bool_iff. unfold inject_Z in *. lra. }
    split; [reflexivity|]. split; [|discriminate].
    intros _. cbn [JS.strict_eq]. apply Qeq_bool_iff. reflexivity.
Qed.

(** X20: the number of items that [newLayoutManager] estimates to be
    visible is never below 3.  It is [NaN] exactly when the rounded quotient
    of the window size by the estimated item size is (as for [0 / 0]) and at
    least 3 otherwise: the rounded quotient itself where that is at least
    3, and 3 where it is at most 3.  Where the rounded quotient is finite,
    so is the count. *)
Theorem estimatedItemCount_at_least_3 {T E : Type}
    (p : @GridLayoutProviderWithProps T E) (renderWindowSize : Dimension) :
  let size :=
    if JS.Boolean (horizontal (props p))
    then width renderWindowSize else height renderWindowSize in
  let estimate := estimatedItemSize (props p) ?? defaultEstimatedItemSize p in
  let quotient := JS.round (JS.div size estimate) in
  let count := estimatedItemCount p renderWindowSize in
  JSMore.isNaN count = JSMore.isNaN quotient
  /\ (JSMore.isNaN count = true \/ JSMore.ge count (JS.of_Z 3) = true)
  /\ (JSMore.ge quotient (JS.of_Z 3) = true ->
      JS.strict_eq count quotient = true)
  /\ (JSMore.le quotient (JS.of_Z 3) = true -> count = JS.of_Z 3)
  /\ (JSMore.isFinite quotient = true -> JSMore.isFinite count = true).
Proof.
  cbv zeta. unfold estimatedItemCount.
  set (size := if JS.Boolean (horizontal (props p)) then _ else _).
  set (estimate := estimatedItemSize (props p) ?? defaultEstimatedItemSize p).
  destruct (max_three (JS.round (JS.div size estimate)))
    as (Hnan & Hge & Hfin & Hsame & Hthree).
  split; [exact Hnan|]. split.
  - rewrite Hnan. destruct (JSMore.isNaN (JS.round _)) eqn:Hr; [now left|].
    right. now apply Hge.
  - split; [exact Hsame|]. split; [exact Hthree | exact Hfin].
Qed.

(** X21: the style checks of [validateProps] only warn.  Whether the call
    throws, and what, does not depend on [style] and
    [contentContainerStyle]; and where it returns, it has warned at most
    once about each: about [contentContainerStyle] exactly when that has a
    key other than the paddings and the background colour, about [style]
    exactly when the flattened style has a key and [__DEV__] is set. *)
Theorem style_checks_only_warn {T E : Type} (DEV : bool)
    (props0 : FlashListProps T E) (flattened : list string)
    (container : option ViewStyle) :
  (forall e,
      validateProps DEV (withStyles flattened container props0) = Threw e
      <-> validateProps DEV props0 = Threw e)
  /\ match validateProps DEV props0 with
     | Returned warnings =>
         List.NoDup warnings
         /\ (In styleContentContainerUnsupported warnings
             <-> exists s, contentContainerStyle props0 = Some s /\ rest s <> [])
         /\ (In styleUnsupported warnings
             <-> DEV = true /\ style props0 <> [])
     | Threw _ => True
     end.
Proof.
  split.
  - intros e. unfold validateProps, stickyCount. cbn.
    destruct (bool_decide _ && not_boolean _); [reflexivity|].
    destruct (JS.gt _ _ && _); [reflexivity|].
    destruct (JS.gt _ _ && _); [reflexivity|].
    split; discriminate.
  - unfold validateProps.
    destruct (bool_decide _ && not_boolean _); [exact I|].
    destruct (JS.gt (stickyCount props0) _ && _); [exact I|].
    destruct (JS.gt (JS.Number _) _ && _); [exact I|].
    unfold ContentContainerUtils.hasUnsupportedKeysInContentContainerStyle.
    assert (Hrest : (0 <? length (rest (contentContainerStyle props0 ?? emptyStyle)))%nat
                    = true
                    <-> exists s, contentContainerStyle props0 = Some s
                                  /\ rest s <> []).
    { destruct (contentContainerStyle props0) as [s|]; cbn [JS.nullish].
      - destruct (rest s) as [|k ks] eqn:Hk; cbn.
        + split; [discriminate|]. intros (s' & [= <-] & H). congruence.
        + split; [|reflexivity]. intros _. exists s. split; [reflexivity|].
          rewrite Hk. discriminate.
      - cbn. split; [discriminate|]. intros (s' & [=] & _). }
    assert (Hstyle : DEV && (0 <? length (style props0))%nat = true
                     <-> DEV = true /\ style props0 <> []).
    { rewrite andb_true_iff. apply and_iff_compat_l.
      destruct (style props0); cbn; split; congruence. }
    assert (Hone : forall w : WarningList, List.NoDup [w]).
    { intros w. apply List.NoDup_cons; [intros []|apply List.NoDup_nil]. }
    destruct (DEV && _) eqn:H1, (0 <? length (rest _))%nat eqn:H2; cbn [app].
    + split.
      { apply List.NoDup_cons; [|apply Hone].
        cbn. intros [H|[]]. discriminate H. }
      split; [rewrite <- Hrest|rewrite <- Hstyle]; cbn; intuition.
    + split; [apply Hone|].
      split; [rewrite <- Hrest|rewrite <- Hstyle]; cbn; intuition discriminate.
    + split; [apply Hone|].
      split; [rewrite <- Hrest|rewrite <- Hstyle]; cbn; intuition discriminate.
    + split; [apply List.NoDup_nil|].
      split; [rewrite <- Hrest|rewrite <- Hstyle]; cbn; intuition discriminate.
Qed.

(** X22: the layout type that a provider built by [getLayoutProvider] looks
    up is never falsy but for the number [0]: it is the type [getItemType]
    returns for the item where that is truthy, and [0] where the props have
    no [getItemType] or it returns [undefined], the empty string, [0] or
    [NaN].  The lookup does not depend on the scratch record. *)
Theorem type_lookup_defaults_to_zero {T E : Type} (columns : number)
    (props0 : FlashListProps T E) (scratch : MutableLayout) (i : Z) :
  let p := set_layoutObject scratch (getLayoutProvider columns props0) in
  let given :=
    match getItemType props0 with
    | Some callback => callback (array_get (data props0) i) i (extraData props0)
    | None => None
    end in
  (layoutTypeForIndex i p).1
  = (if truthy_type given then given ?? TypeNum (JS.of_Z 0)
     else TypeNum (JS.of_Z 0))
  /\ (truthy_type (Some (layoutTypeForIndex i p).1) = true
      \/ (layoutTypeForIndex i p).1 = TypeNum (JS.of_Z 0))
  /\ (truthy_type given = true -> Some (layoutTypeForIndex i p).1 = given).
Proof.
  cbv zeta.
  set (given := match getItemType props0 with
                | Some callback => _
                | None => None
                end).
  assert (Heq : (layoutTypeForIndex i
                   (set_layoutObject scratch (getLayoutProvider columns props0))).1
                = (if truthy_type given then given ?? TypeNum (JS.of_Z 0)
                   else TypeNum (JS.of_Z 0))) by reflexivity.
  rewrite Heq. split; [reflexivity|].
  destruct (truthy_type given) eqn:Ht.
  - destruct given as [t|]; [|discriminate]. cbn [JS.nullish].
    split; [now left | reflexivity].
  - split; [now right | discriminate].
Qed.

End BoundFacts.

(** ** The further properties at concrete inputs *)
Module MoreExamples.

Import ContentContainerUtils GridLayoutProviderWithProps FlashList
  FlashListMethods Fixtures MoreFixtures.

(** X5 at [paddedProps]. *)
Lemma updateProps_idempotent_witness :
  JSMore.definedNaN (numColumns paddedProps) = false
  /\ hasExpired (updateProps paddedProps plainProvider) = true
  /\ updateProps paddedProps (updateProps paddedProps plainProvider)
     = updateProps paddedProps plainProvider.
Proof.
  split; [reflexivity|]. split; [reflexivity|].
  apply (MoreProviderFacts.updateProps_idempotent paddedProps plainProvider);
    reflexivity.
Defined.

(** X7: a provider built from [padding: 10] and used for a while is not
    expired by props that add top and bottom paddings and a colour. *)
Lemma updateProps_ignores_other_axis_witness :
  let p :=
    run meanOfSamples cachingSuper
      [CallNewLayoutManager tallWindow None (Some [entry 40; entry 60]);
       CallReportItemLayout 1]
      (GridLayoutProviderWithProps.constructor (JS.of_Z 1) typeCallback
         (spanCallback (JS.of_Z 1)) (sizeCallback (JS.of_Z 1)) paddedProps None) in
  contentContainerStyle paddedTallerProps <> contentContainerStyle paddedProps
  /\ hasExpired p = false
  /\ hasExpired (updateProps paddedTallerProps p) = hasExpired p.
Proof.
  cbv zeta. split; [discriminate|]. split; [reflexivity|].
  apply (MoreProviderFacts.updateProps_ignores_other_axis meanOfSamples
           cachingSuper (JS.of_Z 1) typeCallback (spanCallback (JS.of_Z 1))
           (sizeCallback (JS.of_Z 1)) paddedProps None
           [CallNewLayoutManager tallWindow None (Some [entry 40; entry 60]);
            CallReportItemLayout 1]
           paddedTallerProps); try reflexivity.
  repeat split.
Defined.

(** X8 with a manager that overrides every width with 150. *)
Lemma newLayoutManager_updates_cached_sides_witness :
  (newLayoutManager meanOfSamples halvingSuper tallWindow None
     (Some [entry 40; entry 60]) plainProvider).2
  = Some [ {| dimension := {| height := JS.of_Z 40; width := JS.of_Z 150 |};
              point := {| x := JS.of_Z 0; y := JS.of_Z 0 |};
              isOverridden := None;
              type := TypeNum (JS.of_Z 0) |};
           {| dimension := {| height := JS.of_Z 60; width := JS.of_Z 150 |};
              point := {| x := JS.of_Z 0; y := JS.of_Z 0 |};
              isOverridden := None;
              type := TypeNum (JS.of_Z 0) |} ]
  /\ length [entry 40; entry 60] = 2%nat.
Proof.
  split; [reflexivity|].
  pose proof (MoreProviderFacts.newLayoutManager_updates_cached_sides
                meanOfSamples halvingSuper tallWindow None
                (Some [entry 40; entry 60]) plainProvider) as H.
  hnf in H. destruct H as [H _]. symmetry. exact H.
Defined.

(** X10 at the first render. *)
Lemma getDerivedStateFromProps_provider_witness :
  exists derived,
    getDerivedStateFromProps plainProps moreProps initialState true true true
    = Done derived
    /\ rendered (newState derived)
    /\ state_numColumns (core (newState derived)) = JS.of_Z 1
    /\ dataProvider (newState derived) = [10; 20; 30]%nat.
Proof.
  eexists. split; [reflexivity|]. split; [|split; reflexivity].
  apply (MoreFlashListFacts.getDerivedStateFromProps_provider plainProps
           moreProps initialState true true true _ eq_refl).
  left. reflexivity.
Defined.

(** X11: mounting with [numColumns: 0] throws; with one column it gives a
    state with one column. *)
Lemma getDerivedStateFromProps_first_render_witness :
  getDerivedStateFromProps zeroColumnsProps moreProps initialState
    true true true = TypeError
  /\ exists derived,
       getDerivedStateFromProps plainProps moreProps initialState
         true true true = Done derived
       /\ state_numColumns (core (newState derived)) = JS.of_Z 1
       /\ shouldRefreshWithAnchoring derived = true.
Proof.
  split.
  - apply (MoreFlashListFacts.getDerivedStateFromProps_first_render
             zeroColumnsProps moreProps true true true).
    exists (JS.of_Z 0). split; reflexivity.
  - eexists. split; [reflexivity|].
    destruct (MoreFlashListFacts.getDerivedStateFromProps_first_render
                plainProps moreProps true true true) as [_ H].
    destruct (H _ eq_refl) as (H1 & _ & H3). split; [exact H1 | exact H3].
Defined.



(** X15: scrolling to the row at offset 200. *)
Lemma scrollToIndex_offset_witness :
  exists call,
    scrollToIndex None (Some mountedList) toThird = Some call
    /\ JS.strict_eq (call_x call) (JS.of_Z 200) = true
    /\ call_x call = call_y call.
Proof.
  eexists. split; [reflexivity|].
  destruct (MoreFlashListFacts.scrollToIndex_offset None (Some mountedList)
              toThird _ eq_refl)
    as (rlv & layout & listSize & Hr & Hl & Hs & Hxy & _ & _ & Hplain).
  injection Hr as <-. injection Hl as <-. injection Hs as <-.
  split; [|exact Hxy].
  apply (Hplain eq_refl eq_refl); reflexivity.
Defined.

(** X16 on three items: a separator after the second, none after the
    third. *)
Lemma separator_between_items_witness :
  separator (Some [10; 20; 30]%nat) moreProps 1
  = Some {| leadingItem := Some 20%nat; trailingItem := Some 30%nat |}
  /\ separator (Some [10; 20; 30]%nat) moreProps 2 = None
  /\ exists items,
       Some [10; 20; 30]%nat = Some items /\ (1 + 1 < Z.of_nat (length items))%Z.
Proof.
  split; [reflexivity|]. split; [reflexivity|].
  pose proof (MoreFlashListFacts.separator_between_items
                (Some [10; 20; 30]%nat) moreProps 1 ltac:(lia)) as H.
  hnf in H. destruct H as (items & _ & _ & H1 & _ & H3 & _).
  exists items. split; assumption.
Defined.

(** X20: a window of height 1000 and items of 100 are estimated to show 10
    items, one of height 100 to show 3. *)
Lemma estimatedItemCount_at_least_3_witness :
  estimatedItemCount plainProvider tallWindow = JS.of_Z 10
  /\ JSMore.isFinite (estimatedItemCount plainProvider tallWindow) = true
  /\ JSMore.ge (estimatedItemCount plainProvider tallWindow) (JS.of_Z 3) = true
  /\ estimatedItemCount plainProvider
       {| height := JS.of_Z 100; width := JS.of_Z 300 |} = JS.of_Z 3.
Proof.
  split; [reflexivity|].
  destruct (BoundFacts.estimatedItemCount_at_least_3 plainProvider tallWindow)
    as (_ & Hthree & _ & _ & Hfinite).
  split; [exact (Hfinite eq_refl)|].
  split; [destruct Hthree as [H|H]; [discriminate H | exact H]|].
  destruct (BoundFacts.estimatedItemCount_at_least_3 plainProvider
              {| height := JS.of_Z 100; width := JS.of_Z 300 |})
    as (_ & _ & _ & Hlow & _).
  exact (Hlow eq_refl).
Defined.

(** The constructor builds [plainComponent]. *)
Example constructor_plainComponent :
  FlashList.constructor true (JS.of_Z 1000) plainProps
  = Returned plainComponent.
Proof. reflexivity. Qed.

(** The constructor builds [emptyComponent]. *)
Example constructor_emptyComponent :
  FlashList.constructor true (JS.of_Z 1000) emptyProps
  = Returned emptyComponent.
Proof. reflexivity. Qed.

(** X14 at [initialScrollIndex: 0], one column and a header of 50: the
    offset is passed, no index, and the correction is off. *)
Lemma initial_scroll_offset_or_index_witness :
  let config := windowCorrectionConfig (ofConstructed scrollToFirst plainComponent) in
  initialOffset scrollToFirst (stateWith plainProvider) (JS.of_Z 50)
  = Some (JS.of_Z 50)
  /\ initialRenderIndex scrollToFirst (stateWith plainProvider) = None
  /\ applyToInitialOffset
       (getUpdatedWindowCorrectionConfig scrollToFirst (stateWith plainProvider)
          (JS.of_Z 50) config) = false.
Proof.
  cbv zeta. split; [reflexivity|]. split; [reflexivity|].
  destruct (MoreFlashListFacts.initial_scroll_offset_or_index scrollToFirst
              (stateWith plainProvider) (JS.of_Z 50)
              (windowCorrectionConfig (ofConstructed scrollToFirst plainComponent)))
    as (_ & H & _).
  apply H. discriminate.
Defined.

(** X17: one row is measured at index 0, five rows at index 1. *)
Lemma measured_row_exists_witness :
  getComponentForHeightMeasurement stickyProps moreProps false 1 = Some 0%Z
  /\ getComponentForHeightMeasurement stickyProps moreProps false 5 = Some 1%Z
  /\ (0 <= 1 < Z.of_nat 5)%Z.
Proof.
  split; [reflexivity|]. split; [reflexivity|].
  pose proof (MoreFlashListFacts.measured_row_exists stickyProps moreProps
                false 5) as H.
  hnf in H. destruct H as [H _]. exact H.
Defined.

(** X18: [componentDidMount] at 1500 on three items and two of them laid
    out at 1600 and 1700, after construction at 1000: one call of [onLoad],
    with 600, made by the first [onItemLayout].  On a list without data the
    call is made by [componentDidMount], with 500, and a later
    [onItemLayout] adds none. *)
Lemma onLoad_raised_once_witness :
  let es := [DidMount (JS.of_Z 1500); ItemLayout 0 (JS.of_Z 1600);
             ItemLayout 1 (JS.of_Z 1700)] in
  let this :=
    (handleAll es (ofConstructed moreProps plainComponent, laidOutProvider)).1 in
  let empty :=
    (handleAll es (ofConstructed moreProps emptyComponent, laidOutProvider)).1 in
  List.find (reachesOnLoad plainProps) es = Some (ItemLayout 0 (JS.of_Z 1600))
  /\ onLoadCalls this = [JS.sub (JS.of_Z 1600) (JS.of_Z 1000)]
  /\ timeouts this = 1%nat
  /\ (length (onLoadCalls this) <= 1)%nat
  /\ List.find (reachesOnLoad emptyProps) es = Some (DidMount (JS.of_Z 1500))
  /\ onLoadCalls empty = [JS.sub (JS.of_Z 1500) (JS.of_Z 1000)].
Proof.
  cbv zeta. split; [reflexivity|].
  destruct (MoreFlashListFacts.onLoad_raised_once moreProps plainComponent
              [DidMount (JS.of_Z 1500); ItemLayout 0 (JS.of_Z 1600);
               ItemLayout 1 (JS.of_Z 1700)] []
              laidOutProvider laidOutProvider) as (Hone & _ & _ & Hfirst).
  split; [exact (proj2 Hfirst)|]. split; [reflexivity|]. split; [exact Hone|].
  split; [reflexivity|].
  destruct (MoreFlashListFacts.onLoad_raised_once moreProps emptyComponent
              [DidMount (JS.of_Z 1500); ItemLayout 0 (JS.of_Z 1600);
               ItemLayout 1 (JS.of_Z 1700)] []
              laidOutProvider laidOutProvider) as (_ & _ & _ & Hempty).
  exact (proj2 Hempty).
Defined.

(** X19: widths 300, 300 and 320 on a mounted vertical list: one rerender,
    for the third. *)
Lemma handleSizeChange_tracks_last_witness :
  let start := ofConstructed moreProps plainComponent in
  rerenders (handleSizeChanges true [listLayout 300 600; listLayout 300 600] start)
  = 0%nat
  /\ rerenders
       (handleSizeChanges true
          ([listLayout 300 600; listLayout 300 600] ++ [listLayout 320 600]) start)
     = 1%nat
  /\ listFixedDimensionSize
       (handleSizeChanges true
          ([listLayout 300 600; listLayout 300 600] ++ [listLayout 320 600]) start)
     = JS.of_Z 320.
Proof.
  cbv zeta. split; [reflexivity|]. split; [reflexivity|].
  apply (MoreFlashListFacts.handleSizeChange_tracks_last true
           [listLayout 300 600; listLayout 300 600] (listLayout 320 600)
           (ofConstructed moreProps plainComponent)).
Defined.

(** X21: a [margin] in the container style and a [flex] in the style give
    two warnings and no error. *)
Lemma style_checks_only_warn_witness :
  validateProps true styledProps
  = Returned [styleUnsupported; styleContentContainerUnsupported]
  /\ (validateProps true styledProps = Threw refreshBooleanMissing
      <-> validateProps true plainProps = Threw refreshBooleanMissing).
Proof.
  split; [reflexivity|].
  apply (BoundFacts.style_checks_only_warn true plainProps ["flex"%string]
           (Some (mkViewStyle None None None None (Some (JS.of_Z 10)) None None
                    None ["margin"%string]))).
Defined.

(** X22: the first item is a header, the second has type 0. *)
Lemma type_lookup_defaults_to_zero_witness :
  let p := getLayoutProvider (JS.of_Z 1) typedProps in
  (layoutTypeForIndex 0 p).1 = TypeStr "header"%string
  /\ (layoutTypeForIndex 1 p).1 = TypeNum (JS.of_Z 0)
  /\ Some (layoutTypeForIndex 0 p).1 = Some (TypeStr "header"%string).
Proof.
  cbv zeta. split; [reflexivity|]. split; [reflexivity|].
  destruct (BoundFacts.type_lookup_defaults_to_zero (JS.of_Z 1) typedProps
              {| span := None; size := None |} 0) as (_ & _ & H).
  exact (H eq_refl).
Defined.

End MoreExamples.
